(** * PMGBP model generator: structure builder and coupling assembler

    A shallow embedding of [model_generator/PMGBP/ModelGenerator.py]:
    the [chunks] generator, [ModelStructure.__init__] and the
    [ModelGenerator] methods that assemble the coupled-model descriptors.

    Python values are modelled as follows.
    - [int] is [Z] (unbounded); [str] is [string].
    - A [dict] is an association list in insertion order with pairwise
      distinct keys ([wf_dict]); assigning to an existing key replaces the
      value in place, assigning to a new key appends ([dict_set]).
    - A tuple of mixed [int]/[str] components is a list of [pyval].
    - A raised exception is the [Raise] case of [result]; [assert]
      statements are executed (the interpreter does not run with [-O]).
    - A generator is run to exhaustion where its consumer iterates it;
      nothing else happens between its creation and that loop.
    - The names imported from [constants.py] are variables of the
      development, and so is [sys.maxsize], the bound that [islice]
      puts on its stop argument.
    - The parser, the parameter writer and the code writer are
      collaborators of the generator. The parser is a record of the data
      and (total) functions the generator reads. Every call made on a
      writer is recorded in the [World]; the answer of the code writer is
      given by a function of the calls it has received so far.

    The file has three parts: the embedding, the facts proved about it,
    and a concrete model to which the main theorems are applied. *)

From Stdlib Require Import String Ascii ZArith List Bool Lia Arith.
From Stdlib Require Import DecimalString DecimalZ.
Import ListNotations.

Set Implicit Arguments.

(** ** Exceptions and results *)

Inductive exn : Type :=
| AssertionError
| KeyError
| ValueError.

Inductive result (A : Type) : Type :=
| Ok (a : A)
| Raise (e : exn).

Arguments Ok {A} a.
Arguments Raise {A} e.

Definition rbind {A B : Type} (r : result A) (k : A -> result B) : result B :=
  match r with
  | Ok a => k a
  | Raise e => Raise e
  end.

Notation "'let?' x ':=' e 'in' k" := (rbind e (fun x => k))
  (at level 10, x pattern, e at level 100, k at level 200).

(** ** Python equality on hashable keys *)

Class PyEq (K : Type) : Type := {
  py_eqb : K -> K -> bool;
  py_eqb_eq : forall a b : K, py_eqb a b = true <-> a = b
}.

#[export] Instance PyEq_string : PyEq string :=
  {| py_eqb := String.eqb; py_eqb_eq := String.eqb_eq |}.

#[export] Instance PyEq_Z : PyEq Z :=
  {| py_eqb := Z.eqb; py_eqb_eq := Z.eqb_eq |}.

#[export] Instance PyEq_pair {A B : Type} `{PyEq A} `{PyEq B} : PyEq (A * B).
Proof.
  refine {| py_eqb := fun a b =>
                        (py_eqb (fst a) (fst b) && py_eqb (snd a) (snd b))%bool |}.
  intros [a1 a2] [b1 b2]; simpl.
  rewrite andb_true_iff, !py_eqb_eq.
  split; [intros [-> ->]; reflexivity | intros E; inversion E; auto].
Defined.

(** ** Insertion-ordered dictionaries *)

Definition dict (K V : Type) : Type := list (K * V).

Section Dict.
Context {K V : Type} `{PyEq K}.

Definition dict_keys (d : dict K V) : list K := map fst d.
Definition dict_values (d : dict K V) : list V := map snd d.
Definition dict_len (d : dict K V) : Z := Z.of_nat (length d).

Fixpoint dict_get (d : dict K V) (k : K) : option V :=
  match d with
  | [] => None
  | (k', v) :: d' => if py_eqb k k' then Some v else dict_get d' k
  end.

(** [d[k]]: raises [KeyError] on a missing key. *)
Definition dict_getitem (d : dict K V) (k : K) : result V :=
  match dict_get d k with
  | Some v => Ok v
  | None => Raise KeyError
  end.

(** [d[k] = v]: an existing key keeps its position. *)
Fixpoint dict_set (d : dict K V) (k : K) (v : V) : dict K V :=
  match d with
  | [] => [(k, v)]
  | (k', v') :: d' =>
      if py_eqb k k' then (k', v) :: d' else (k', v') :: dict_set d' k v
  end.

(** [dict(pairs)], [{k: v for k, v in pairs}] and [d.update(pairs)]. *)
Definition dict_update (d : dict K V) (kvs : list (K * V)) : dict K V :=
  fold_left (fun acc kv => dict_set acc (fst kv) (snd kv)) kvs d.

Definition dict_of_pairs (kvs : list (K * V)) : dict K V := dict_update [] kvs.

(** The invariant of a Python dict: no key occurs twice. *)
Definition wf_dict (d : dict K V) : Prop := NoDup (dict_keys d).
End Dict.

(** ** [range] and [islice] *)

(** Number of elements of [range(start, stop, step)] for a non-zero step. *)
Definition range_length (start stop step : Z) : Z :=
  if (0 <? step)%Z then
    if (start <? stop)%Z then ((stop - start - 1) / step + 1)%Z else 0%Z
  else
    if (stop <? start)%Z then ((start - stop - 1) / (- step) + 1)%Z else 0%Z.

(** The elements of [range(start, stop, step)] for a non-zero step. *)
Definition range_list (start stop step : Z) : list Z :=
  map (fun i => (start + Z.of_nat i * step)%Z)
      (seq 0 (Z.to_nat (range_length start stop step))).

(** [range(start, stop, step)]; a zero step raises [ValueError]. *)
Definition py_range (start stop step : Z) : result (list Z) :=
  if (step =? 0)%Z then Raise ValueError
  else Ok (range_list start stop step).

(** [range(n)] and [range(start, stop)]. *)
Definition py_range1 (n : Z) : list Z := range_list 0 n 1.
Definition py_range2 (start stop : Z) : list Z := range_list start stop 1.

Section Platform.

(** [sys.maxsize], the largest value of the interpreter's [Py_ssize_t]:
    it depends on the platform (2^63 - 1 on a 64-bit build, 2^31 - 1 on a
    32-bit one) and is a variable of the development. *)
Variable sys_maxsize : Z.

(** [islice(it, n)] run to exhaustion on the shared iterator [it]: the
    items taken and the items left in [it]. The stop argument must lie
    in [0 <= n <= sys.maxsize]; [islice] raises [ValueError] otherwise,
    when it is called. *)
Definition islice {A : Type} (it : list A) (n : Z) : result (list A * list A) :=
  if ((n <? 0) || (sys_maxsize <? n))%Z%bool then Raise ValueError
  else Ok (firstn (Z.to_nat n) it, skipn (Z.to_nat n) it).

(** ** [chunks] *)

Section Chunks.
Context {K V : Type} `{PyEq K}.

(** [{k: data[k] for k in ks}], accumulated left to right. *)
Fixpoint dict_comp_getitem (data : dict K V) (ks : list K) (acc : dict K V)
  : result (dict K V) :=
  match ks with
  | [] => Ok acc
  | k :: ks' =>
      let? v := dict_getitem data k in
      dict_comp_getitem data ks' (dict_set acc k v)
  end.

(** The body of the [for i in range(...)] loop; [it] is the key
    iterator shared by all iterations, the loop variable is unused. *)
Fixpoint chunks_loop (data : dict K V) (SIZE : Z) (rng : list Z) (it : list K)
  : result (list (dict K V)) :=
  match rng with
  | [] => Ok []
  | _ :: rng' =>
      let? (ks, it') := islice it SIZE in
      let? group := dict_comp_getitem data ks [] in
      let? groups := chunks_loop data SIZE rng' it' in
      Ok (group :: groups)
  end.

(** [chunks(data, SIZE)], with the generator run to exhaustion. *)
Definition chunks (data : dict K V) (SIZE : Z) : result (list (dict K V)) :=
  let it := dict_keys data in
  let? rng := py_range 0 (dict_len data) SIZE in
  chunks_loop data SIZE rng it.
End Chunks.

(** [ceil(a / b)] for a positive divisor, as the specification writes it. *)
Definition ceil_div (a b : Z) : Z :=
  (a / b + (if a mod b =? 0 then 0 else 1))%Z.

(** The first [m] groups of [n] consecutive elements of [l]; the last
    ones are shorter or empty when [l] runs out. *)
Fixpoint groups_of {A : Type} (n m : nat) (l : list A) : list (list A) :=
  match m with
  | O => []
  | S m' => firstn n l :: groups_of n m' (skipn n l)
  end.

(** ** Python [str(int)] and tuples *)

Definition str (z : Z) : string := NilEmpty.string_of_int (Z.to_int z).

Inductive pyval : Type :=
| VInt (z : Z)
| VStr (s : string).

Definition tuple : Type := list pyval.

Definition pyval_eq_dec (a b : pyval) : {a = b} + {a <> b}.
Proof. decide equality; [apply Z.eq_dec | apply string_dec]. Defined.

Definition tuple_eq_dec (a b : tuple) : {a = b} + {a <> b} :=
  list_eq_dec pyval_eq_dec a b.

(** [x = d if x is None else x] *)
Definition or_default {A : Type} (x : option A) (d : A) : A :=
  match x with
  | Some a => a
  | None => d
  end.

(** The contiguous port range [[0, n)] in increasing order. *)
Definition ports (n : nat) : list Z := map Z.of_nat (seq 0 n).

(** [for x in xs: s = body(s, x)] where the body may raise. *)
Fixpoint rfold {A S : Type} (body : S -> A -> result S) (xs : list A) (s : S)
  : result S :=
  match xs with
  | [] => Ok s
  | x :: xs' => let? s' := body s x in rfold body xs' s'
  end.

(** [max(xs)]; raises [ValueError] on an empty sequence. *)
Definition py_max (xs : list Z) : result Z :=
  match xs with
  | [] => Raise ValueError
  | x :: xs' => Ok (fold_left Z.max xs' x)
  end.

Local Open Scope string_scope.
Local Open Scope Z_scope.
Local Open Scope list_scope.

Section Generator.

(** Values the generator only passes along (parser data, the middle
    component of a writer's answer). *)
Variable Obj : Type.

(** The names imported from [constants.py]. *)
Variables BULK OUTER INNER TRANS MEMBRANE : string.
Variables PRODUCT_MESSAGE_TYPE REACTANT_MESSAGE_TYPE INFORMATION_MESSAGE_TYPE : string.

(** *** The parser, as far as the generator reads it *)

(** Modelled from the spec: the Model Parser collaborator (class
    [SBMLParser]), of which the generator reads, per compartment id, the
    enzyme set of a reaction set, the reaction parameters, the metabolite
    amounts, the species, the timing interval, the volume and the enzyme
    listing, and globally the compartment ids, the reactions and the
    enzymes. Attributes read by subscript are dictionaries, methods are
    total functions. *)
Record SBMLParser : Type := {
  get_enzyme_set : string -> string -> dict string Obj;
  get_related_reaction_parameters : string -> dict string Obj;
  metabolite_amounts : dict string Obj;
  parse_compartments_species : dict string (dict string Obj);
  interval_times : dict string Obj;
  get_compartment_volume : string -> Obj;
  get_enzymes : list string -> Obj;
  get_compartments : list string;
  reactions : dict string Obj;
  enzymes : dict string Obj
}.

(** The [space_parameters] dictionary, one field per key. *)
Record SpaceParameters : Type := {
  sp_cid : string;
  sp_interval_time : Obj;
  sp_metabolites : dict string Obj;
  sp_reaction_parameters : dict string Obj;
  sp_volume : Obj;
  sp_enzymes : Obj
}.

(** What [write_enzyme_set] and [write_coupled_model] answer: the model
    name, a component the generator ignores, the output port amount. *)
Definition ModelInfo : Type := (string * Obj * Z)%type.

(** *** The two writers *)

(** Modelled from the spec: the Parameter Writer (class
    [XMLParametersWriter]) and the Code Emitter (class [ModelCodeWriter])
    are append-only accumulators; a call is one record. *)
Inductive pw_call : Type :=
| AddRouter (rid : string) (table : dict string Z)
| AddSpace (cid : string) (params : SpaceParameters)
           (table : dict (string * string) Z)
| AddReaction (rid : string) (params : Obj)
| AddEnzyme (eid : string) (params : Obj)
| SaveXml.

Inductive cw_call : Type :=
| WriteEnzymeSet (cid esn : string) (groups : list (list string))
| WriteSpaceAtomic (cid : string) (cids : list string) (out_amount in_amount : Z)
                   (product reactant information : string)
| WriteCoupled (name : string) (sub_models : list string)
               (ports eic eoc ic : list tuple).

Record World : Type := {
  pw_calls : list pw_call;
  cw_calls : list cw_call
}.

(** The answers of the code writer, which may depend on the calls it
    has received so far: a model name with its output port amount for an
    enzyme set and for a coupled model, a model name for a space. *)
Variable coder_enzyme_set : list cw_call -> cw_call -> ModelInfo.
Variable coder_space : list cw_call -> cw_call -> string.
Variable coder_coupled : list cw_call -> cw_call -> ModelInfo.

Definition M (A : Type) : Type := World -> result A * World.

Definition ret {A : Type} (a : A) : M A := fun w => (Ok a, w).

Definition bind {A B : Type} (m : M A) (k : A -> M B) : M B :=
  fun w =>
    match m w with
    | (Ok a, w') => k a w'
    | (Raise e, w') => (Raise e, w')
    end.

Definition lift {A : Type} (r : result A) : M A := fun w => (r, w).

Notation "x <- m ;; k" := (bind m (fun x => k))
  (at level 61, m at next level, right associativity).
Notation "' p <- m ;; k" := (bind m (fun x => match x with p => k end))
  (at level 61, p pattern, m at next level, right associativity).

(** [for x in xs: s = body(s, x)] where the body calls the writers. *)
Fixpoint foldM {A S : Type} (body : S -> A -> M S) (xs : list A) (s : S) : M S :=
  match xs with
  | [] => ret s
  | x :: xs' => s' <- body s x ;; foldM body xs' s'
  end.

(** Modelled from the spec: a writer appends the call to what it has
    accumulated and never raises. *)
Definition pw_record (c : pw_call) : M unit :=
  fun w => (Ok tt, {| pw_calls := pw_calls w ++ [c]; cw_calls := cw_calls w |}).

Definition cw_record {A : Type} (answer : list cw_call -> cw_call -> A)
           (c : cw_call) : M A :=
  fun w => (Ok (answer (cw_calls w) c),
            {| pw_calls := pw_calls w; cw_calls := cw_calls w ++ [c] |}).

Definition add_router (rid : string) (table : dict string Z) : M unit :=
  pw_record (AddRouter rid table).
Definition add_space (cid : string) (params : SpaceParameters)
           (table : dict (string * string) Z) : M unit :=
  pw_record (AddSpace cid params table).
Definition add_reaction (rid : string) (params : Obj) : M unit :=
  pw_record (AddReaction rid params).
Definition add_enzyme (eid : string) (params : Obj) : M unit :=
  pw_record (AddEnzyme eid params).
Definition save_xml : M unit := pw_record SaveXml.

Definition write_enzyme_set (cid esn : string) (groups : list (list string))
  : M ModelInfo :=
  cw_record coder_enzyme_set (WriteEnzymeSet cid esn groups).
Definition write_space_atomic_model (cid : string) (cids : list string)
           (out_amount in_amount : Z) (product reactant information : string)
  : M string :=
  cw_record coder_space
            (WriteSpaceAtomic cid cids out_amount in_amount
                              product reactant information).
Definition write_coupled_model (name : string) (sub_models : list string)
           (ports eic eoc ic : list tuple) : M ModelInfo :=
  cw_record coder_coupled (WriteCoupled name sub_models ports eic eoc ic).

(** *** [ModelStructure] *)

Record ModelStructure : Type := {
  id : string;
  routing_table : dict (string * string) Z;
  membrane_eic : dict string Z;
  enzyme_sets : dict string (dict string Obj);
  space_parameters : SpaceParameters
}.

(** The internal part of the routing table (lines 56-60). *)
Definition internal_routing_table (cid : string) (internal_enzyme_sets : list string)
  : dict (string * string) Z :=
  let port_numbers := py_range1 (Z.of_nat (length internal_enzyme_sets)) in
  dict_of_pairs (map (fun '(esn, port) => ((cid, esn), port))
                     (combine internal_enzyme_sets port_numbers)).

(** The loop over the external reaction sets (lines 63-67); the state
    is the table and [port_number]. *)
Definition external_routing_table (external_enzyme_sets : dict string (list string))
           (st : dict (string * string) Z * Z) : dict (string * string) Z * Z :=
  fold_left
    (fun st '(external_cid, reaction_sets) =>
       fold_left
         (fun '(table, port_number) reaction_set =>
            (dict_set table (external_cid, reaction_set) port_number,
             port_number + 1))
         reaction_sets st)
    external_enzyme_sets st.

Definition ModelStructure_init (cid : string) (parser : SBMLParser)
           (membranes : option (list string))
           (external_enzyme_sets : option (dict string (list string)))
  : result ModelStructure :=
  let membranes := or_default membranes [] in
  let external_enzyme_sets := or_default external_enzyme_sets [] in
  let port_numbers := py_range1 (Z.of_nat (length membranes)) in
  let membrane_eic := dict_of_pairs (combine membranes port_numbers) in
  let internal_enzyme_sets := BULK :: membranes in
  let routing_table := internal_routing_table cid internal_enzyme_sets in
  let port_number := dict_len routing_table in
  let '(routing_table, _) :=
    external_routing_table external_enzyme_sets (routing_table, port_number) in
  let enzyme_sets :=
    fold_left
      (fun acc enzyme_set =>
         dict_set acc enzyme_set (get_enzyme_set parser cid enzyme_set))
      internal_enzyme_sets [] in
  let reaction_parameters := get_related_reaction_parameters parser cid in
  let? species := dict_getitem (parse_compartments_species parser) cid in
  let? metabolites :=
    dict_comp_getitem (metabolite_amounts parser) (dict_keys species) [] in
  let? interval_time := dict_getitem (interval_times parser) cid in
  Ok {| id := cid;
        routing_table := routing_table;
        membrane_eic := membrane_eic;
        enzyme_sets := enzyme_sets;
        space_parameters :=
          {| sp_cid := cid;
             sp_interval_time := interval_time;
             sp_metabolites := metabolites;
             sp_reaction_parameters := reaction_parameters;
             sp_volume := get_compartment_volume parser cid;
             sp_enzymes := get_enzymes parser (dict_keys reaction_parameters) |} |}.

(** The external (supplier, set) pairs in supplier-iteration order, and
    the keys of the routing table in the order [__init__] assigns them:
    the bulk, the membranes, the external pairs. *)
Definition external_keys (external_enzyme_sets : dict string (list string))
  : list (string * string) :=
  flat_map (fun '(external_cid, reaction_sets) => map (pair external_cid) reaction_sets)
           external_enzyme_sets.

Definition routing_keys (cid : string) (membranes : list string)
           (external_enzyme_sets : dict string (list string)) : list (string * string) :=
  (cid, BULK) :: map (pair cid) membranes ++ external_keys external_enzyme_sets.

(** *** [ModelGenerator] *)

Record ModelGenerator : Type := {
  groups_size : Z;
  parser : SBMLParser;
  periplasm : ModelStructure;
  extra_cellular : ModelStructure;
  cytoplasm : ModelStructure;
  organelles : dict string ModelStructure
}.

(** [cid not in special_compartment_ids] *)
Definition not_in (cid : string) (l : list string) : bool :=
  negb (existsb (py_eqb cid) l).

(** The organelle ids: the compartments of the parser that are none of
    the three distinguished ones (the comprehensions of lines 142-144
    and 162-164 run over them). *)
Definition organelle_ids (the_parser : SBMLParser)
           (extra_cellular_id periplasm_id cytoplasm_id : string) : list string :=
  let special_compartment_ids := [extra_cellular_id; periplasm_id; cytoplasm_id] in
  filter (fun cid => not_in cid special_compartment_ids)
         (get_compartments the_parser).

(** The external reaction sets of the cytoplasm (lines 142-145). *)
Definition c_external_enzyme_sets (the_parser : SBMLParser)
           (extra_cellular_id periplasm_id cytoplasm_id : string)
  : dict string (list string) :=
  dict_set (dict_of_pairs
              (map (fun cid => (cid, [MEMBRANE]))
                   (organelle_ids the_parser extra_cellular_id periplasm_id
                                  cytoplasm_id)))
           periplasm_id [INNER; TRANS].

Definition ModelGenerator_init (the_parser : SBMLParser)
           (extra_cellular_id periplasm_id cytoplasm_id : string)
           (the_groups_size : Z) : result ModelGenerator :=
  let e_external_enzyme_sets := dict_of_pairs [(periplasm_id, [OUTER; TRANS])] in
  let? the_periplasm :=
    ModelStructure_init periplasm_id the_parser (Some [OUTER; INNER; TRANS]) None in
  let? the_extra_cellular :=
    ModelStructure_init extra_cellular_id the_parser None
                        (Some e_external_enzyme_sets) in
  let? the_cytoplasm :=
    ModelStructure_init cytoplasm_id the_parser None
                        (Some (c_external_enzyme_sets the_parser extra_cellular_id
                                                      periplasm_id cytoplasm_id)) in
  let? the_organelles :=
    rfold (fun acc comp_id =>
             let? ms := ModelStructure_init comp_id the_parser
                                            (Some [MEMBRANE]) None in
             Ok (dict_set acc comp_id ms))
          (organelle_ids the_parser extra_cellular_id periplasm_id cytoplasm_id)
          [] in
  Ok {| groups_size := the_groups_size;
        parser := the_parser;
        periplasm := the_periplasm;
        extra_cellular := the_extra_cellular;
        cytoplasm := the_cytoplasm;
        organelles := the_organelles |}.

Definition enzyme_model : string := "pmgbp::models::enzyme".
Definition space_struct (space : string) : string :=
  ("pmgbp::structs::" ++ space ++ "::" ++ space)%string.

(** The body of the loop over the groups in [generate_enzyme_set]; the
    state is [groups_enzyme_ids], [routing_table] and [port]. *)
Definition enzyme_set_group_step (cid esn : string)
           (st : list (list string) * dict string Z * Z) (group : dict string Obj)
  : M (list (list string) * dict string Z * Z) :=
  let '(groups_enzyme_ids, routing_table, port) := st in
  let enzyme_ids := dict_keys group in
  let groups_enzyme_ids := groups_enzyme_ids ++ [enzyme_ids] in
  let group_id := String.concat "_" [cid; esn; str port] in
  let routing_table :=
    dict_update routing_table
                (dict_of_pairs (map (fun eid => (eid, port)) enzyme_ids)) in
  let port' := port + 1 in
  let port_numbers := py_range1 (Z.of_nat (length enzyme_ids)) in
  let group_routing_table := dict_of_pairs (combine enzyme_ids port_numbers) in
  _ <- add_router group_id group_routing_table ;;
  ret (groups_enzyme_ids, routing_table, port').

Definition enzyme_set_groups_loop (cid esn : string)
           (groups : list (dict string Obj))
  : M (list (list string) * dict string Z * Z) :=
  foldM (enzyme_set_group_step cid esn) groups ([], [], 0).

Definition generate_enzyme_set (self : ModelGenerator) (cid esn : string)
           (enzyme_set : dict string Obj) : M ModelInfo :=
  let enzyme_set_id := String.concat "_" [cid; esn] in
  groups <- lift (chunks enzyme_set (groups_size self)) ;;
  ' (groups_enzyme_ids, routing_table, _) <- enzyme_set_groups_loop cid esn groups ;;
  _ <- add_router enzyme_set_id routing_table ;;
  write_enzyme_set cid esn groups_enzyme_ids.

(** The body of the dictionary comprehension of [generate_enzyme_sets]. *)
Definition generate_enzyme_sets_step (self : ModelGenerator) (cid : string)
           (acc : dict (string * string) ModelInfo)
           (item : string * dict string Obj)
  : M (dict (string * string) ModelInfo) :=
  let '(esn, enzyme_set) := item in
  model <- generate_enzyme_set self cid esn enzyme_set ;;
  ret (dict_set acc (cid, esn) model).

Definition generate_enzyme_sets (self : ModelGenerator) (compartment : ModelStructure)
  : M (dict (string * string) ModelInfo) :=
  let cid := id compartment in
  foldM (generate_enzyme_sets_step self cid) (enzyme_sets compartment) [].

(** The three internal coupling edges of one reaction set. *)
Definition ic_edges (space es_model_name : string) (port_number : Z) : list tuple :=
  [ [VStr space; VStr (space_struct space); VInt port_number;
     VStr es_model_name; VStr enzyme_model; VInt 0];
    [VStr es_model_name; VStr enzyme_model; VStr "0_product";
     VStr space; VStr (space_struct space); VStr "0_product"];
    [VStr es_model_name; VStr enzyme_model; VStr "0_information";
     VStr space; VStr (space_struct space); VStr "0_information"] ].

(** The internal coupling loop of [generate_organelle_compartment]
    (lines 217-227): its body, then the loop. *)
Definition organelle_ic_step (compartment : ModelStructure) (space : string)
           (the_enzyme_sets : dict (string * string) ModelInfo)
           (ic : list tuple) (item : string * string * Z) : result (list tuple) :=
  let '(es_address, port_number) := item in
  if negb (py_eqb (fst es_address) (id compartment)) then Raise AssertionError
  else
    let? (es_model_name, _, _) := dict_getitem the_enzyme_sets es_address in
    Ok (ic ++ ic_edges space es_model_name port_number).

Definition organelle_ic (compartment : ModelStructure) (space : string)
           (the_enzyme_sets : dict (string * string) ModelInfo)
  : result (list tuple) :=
  rfold (organelle_ic_step compartment space the_enzyme_sets)
        (routing_table compartment) [].

(** [port_number in out_port_numbers] *)
Definition port_in (port_number : Z) (l : list Z) : bool :=
  existsb (Z.eqb port_number) l.

(** The two external output coupling edges of a reaction set's port, and
    the two output port declarations of a port number. *)
Definition eoc_edges (es_model_name : string) (port_number : Z) : list tuple :=
  [ [VStr es_model_name; VStr enzyme_model;
     VStr (str port_number ++ "_product"); VStr (str port_number ++ "_product")];
    [VStr es_model_name; VStr enzyme_model;
     VStr (str port_number ++ "_information");
     VStr (str port_number ++ "_information")] ].

Definition out_port_decls (port_number : Z) : list tuple :=
  [ [VStr (str port_number ++ "_product"); VStr PRODUCT_MESSAGE_TYPE; VStr "out"];
    [VStr (str port_number ++ "_information"); VStr INFORMATION_MESSAGE_TYPE;
     VStr "out"] ].

(** The external output coupling loop of [generate_organelle_compartment]
    (lines 234-244): the body of the inner loop, the body of the outer
    loop, the loop. The state is [out_port_numbers], [out_ports], [eoc]. *)
Definition organelle_eoc_port (es_model_name : string)
           (st : list Z * list tuple * list tuple) (port_number : Z)
  : list Z * list tuple * list tuple :=
  let '(out_port_numbers, out_ports, eoc) := st in
  let eoc := eoc ++ eoc_edges es_model_name port_number in
  if negb (port_in port_number out_port_numbers) then
    (out_port_numbers ++ [port_number], out_ports ++ out_port_decls port_number, eoc)
  else (out_port_numbers, out_ports, eoc).

Definition organelle_eoc_model (st : list Z * list tuple * list tuple)
           (model : ModelInfo) : list Z * list tuple * list tuple :=
  let '(es_model_name, _, output_port_amount) := model in
  fold_left (organelle_eoc_port es_model_name) (py_range2 1 output_port_amount) st.

Definition organelle_eoc (models : list ModelInfo)
  : list Z * list tuple * list tuple :=
  fold_left organelle_eoc_model models ([], [], []).

(** The external input coupling loop of [generate_organelle_compartment]
    (lines 246-251); the state is [in_ports] and [eic]. *)
Definition organelle_eic_step (compartment : ModelStructure)
           (the_enzyme_sets : dict (string * string) ModelInfo)
           (st : list tuple * list tuple) (item : string * Z)
  : result (list tuple * list tuple) :=
  let '(in_ports, eic) := st in
  let '(es_name, port_number) := item in
  let? (es_model_name, _, _) :=
    dict_getitem the_enzyme_sets (id compartment, es_name) in
  Ok (in_ports ++ [ [VInt port_number; VStr REACTANT_MESSAGE_TYPE; VStr "in"] ],
      eic ++ [ [VStr es_model_name; VStr enzyme_model; VInt 0; VInt port_number] ]).

Definition organelle_eic (compartment : ModelStructure)
           (the_enzyme_sets : dict (string * string) ModelInfo)
  : result (list tuple * list tuple) :=
  rfold (organelle_eic_step compartment the_enzyme_sets)
        (membrane_eic compartment) ([], []).

Definition generate_organelle_compartment (self : ModelGenerator)
           (compartment : ModelStructure) : M ModelInfo :=
  the_enzyme_sets <- generate_enzyme_sets self compartment ;;
  _ <- add_space (id compartment) (space_parameters compartment)
                 (routing_table compartment) ;;
  space <- write_space_atomic_model (id compartment) [id compartment]
                                    (dict_len the_enzyme_sets) 1
                                    PRODUCT_MESSAGE_TYPE REACTANT_MESSAGE_TYPE
                                    INFORMATION_MESSAGE_TYPE ;;
  let sub_models :=
    space :: map (fun '(es_model_name, _, _) => es_model_name)
                 (dict_values the_enzyme_sets) in
  ic <- lift (organelle_ic compartment space the_enzyme_sets) ;;
  let '(_, out_ports, eoc) := organelle_eoc (dict_values the_enzyme_sets) in
  ' (in_ports, eic) <- lift (organelle_eic compartment the_enzyme_sets) ;;
  write_coupled_model (id compartment) sub_models (out_ports ++ in_ports)
                      eic eoc ic.

(** The external output coupling loop of [generate_bulk_compartment]
    (lines 292-297); the state is [out_ports] and [eoc]. *)
Definition bulk_eoc_step (cid space : string) (st : list tuple * list tuple)
           (item : string * string * Z) : list tuple * list tuple :=
  let '(out_ports, eoc) := st in
  let '((es_cid, _), port_number) := item in
  if negb (py_eqb es_cid cid) then
    (out_ports ++ [ [VInt port_number; VStr REACTANT_MESSAGE_TYPE; VStr "out"] ],
     eoc ++ [ [VStr space; VStr (space_struct space); VInt port_number;
               VInt port_number] ])
  else (out_ports, eoc).

Definition bulk_eoc (cid space : string) (table : dict (string * string) Z)
  : list tuple * list tuple :=
  fold_left (bulk_eoc_step cid space) table ([], []).

Definition generate_bulk_compartment (self : ModelGenerator)
           (compartment : ModelStructure) : M ModelInfo :=
  let cid := id compartment in
  the_enzyme_sets <- generate_enzyme_sets self compartment ;;
  _ <- lift (if dict_len the_enzyme_sets =? 1 then Ok tt else Raise AssertionError) ;;
  ' (bulk, _, _) <- lift (dict_getitem the_enzyme_sets (cid, BULK)) ;;
  _ <- add_space cid (space_parameters compartment) (routing_table compartment) ;;
  max_port <- lift (py_max (dict_values (routing_table compartment))) ;;
  let output_port_amount := max_port + 1 in
  space <- write_space_atomic_model cid [cid] output_port_amount 1
                                    PRODUCT_MESSAGE_TYPE REACTANT_MESSAGE_TYPE
                                    INFORMATION_MESSAGE_TYPE ;;
  let sub_models := [space; bulk] in
  bulk_port_number <- lift (dict_getitem (routing_table compartment) (cid, BULK)) ;;
  let ic := ic_edges space bulk bulk_port_number in
  let '(out_ports, eoc) := bulk_eoc cid space (routing_table compartment) in
  let in_ports :=
    [ [VStr "0_product"; VStr PRODUCT_MESSAGE_TYPE; VStr "in"];
      [VStr "0_information"; VStr INFORMATION_MESSAGE_TYPE; VStr "in"] ] in
  let eic :=
    [ [VStr space; VStr (space_struct space); VStr "0_product"; VStr "0_product"];
      [VStr space; VStr (space_struct space); VStr "0_information";
       VStr "0_information"] ] in
  write_coupled_model cid sub_models (in_ports ++ out_ports) eic eoc ic.

(** A top-level coupling edge between two coupled models, with named
    ports and with numbered ports: [(src, src, port, dst, dst, port')]. *)
Definition model_edge (src src_port dst dst_port : string) : tuple :=
  [VStr src; VStr src; VStr src_port; VStr dst; VStr dst; VStr dst_port].

Definition port_edge (src : string) (src_port : Z) (dst : string) (dst_port : Z)
  : tuple :=
  [VStr src; VStr src; VInt src_port; VStr dst; VStr dst; VInt dst_port].

(** The loop of [generate_top_bulk_ic] over the bulk routing table
    (lines 376-382): its body, then the loop. *)
Definition top_bulk_ic_step (self : ModelGenerator) (bulk_model bulk_cid : string)
           (periplasm_model : string) (ic : list tuple)
           (item : string * string * Z) : result (list tuple) :=
  let '((cid, esn), c_port_number) := item in
  if py_eqb cid bulk_cid then Ok ic
  else if py_eqb cid (id (periplasm self)) then
    let? periplasm_port_number :=
      dict_getitem (membrane_eic (periplasm self)) esn in
    Ok (ic ++ [port_edge bulk_model c_port_number
                         periplasm_model periplasm_port_number])
  else Ok ic.

Definition generate_top_bulk_ic (self : ModelGenerator) (bulk_model bulk_cid : string)
           (bulk_routing_table : dict (string * string) Z)
           (periplasm_model : string) : result (list tuple) :=
  let ic := [] in
  let periplasm_oport_number :=
    if py_eqb bulk_cid (id (cytoplasm self)) then 1 else 2 in
  let ic :=
    ic ++ [model_edge periplasm_model (str periplasm_oport_number ++ "_product")
                      bulk_model "0_product"] in
  let ic :=
    ic ++ [model_edge periplasm_model (str periplasm_oport_number ++ "_information")
                      bulk_model "0_information"] in
  rfold (top_bulk_ic_step self bulk_model bulk_cid periplasm_model)
        bulk_routing_table ic.

(** The loop of [generate_top] that generates the organelle models
    (lines 333-336); the state is [organelle_models] and [sub_models]. *)
Definition generate_organelle_models_step (self : ModelGenerator)
           (st : dict string ModelInfo * list string)
           (item : string * ModelStructure)
  : M (dict string ModelInfo * list string) :=
  let '(organelle_models, sub_models) := st in
  let '(cid, model_structure) := item in
  model <- generate_organelle_compartment self model_structure ;;
  let organelle_models := dict_set organelle_models cid model in
  ' (model_name, _, _) <- lift (dict_getitem organelle_models cid) ;;
  ret (organelle_models, sub_models ++ [model_name]).

Definition generate_organelle_models (self : ModelGenerator)
           (sub_models : list string)
  : M (dict string ModelInfo * list string) :=
  foldM (generate_organelle_models_step self) (organelles self) ([], sub_models).

(** The 4-tuple of [generate_top] that drives an organelle's membrane
    input port from the cytoplasm. *)
Definition cytoplasm_to_organelle_edge (cytoplasm_model model_name : string)
           (c_port_number es_port_number : Z) : tuple :=
  [VStr cytoplasm_model; VInt c_port_number; VStr model_name; VInt es_port_number].

(** The loops of [generate_top] that couple the organelles (lines
    348-361): the body of the inner loop over [membrane_eic], the body
    of the outer loop over [organelle_models]. *)
Definition top_organelle_ic_membrane (self : ModelGenerator)
           (cytoplasm_model extra_cellular_model : string)
           (cid model_name : string) (output_port_amount : Z)
           (ic : list tuple) (item : string * Z) : result (list tuple) :=
  let '(esn, es_port_number) := item in
  let? c_port_number := dict_getitem (routing_table (cytoplasm self)) (cid, esn) in
  let ic :=
    ic ++ [cytoplasm_to_organelle_edge cytoplasm_model model_name
                                       c_port_number es_port_number] in
  let ic := ic ++ [model_edge model_name "1_product" cytoplasm_model "0_product"] in
  let ic :=
    ic ++ [model_edge model_name "1_information" cytoplasm_model "0_information"] in
  if output_port_amount >? 1 then
    let? e_port_number := dict_getitem (routing_table (cytoplasm self)) (cid, esn) in
    let ic :=
      ic ++ [port_edge extra_cellular_model e_port_number
                       model_name es_port_number] in
    let ic :=
      ic ++ [model_edge model_name "2_product" extra_cellular_model "0_product"] in
    Ok (ic ++ [model_edge model_name "2_information"
                          extra_cellular_model "0_information"])
  else Ok ic.

Definition top_organelle_ic_step (self : ModelGenerator)
           (cytoplasm_model extra_cellular_model : string)
           (ic : list tuple) (item : string * ModelInfo) : result (list tuple) :=
  let '(cid, (model_name, _, output_port_amount)) := item in
  let? organelle := dict_getitem (organelles self) cid in
  rfold (top_organelle_ic_membrane self cytoplasm_model extra_cellular_model
                                   cid model_name output_port_amount)
        (membrane_eic organelle) ic.

Definition top_organelle_ic (self : ModelGenerator)
           (cytoplasm_model extra_cellular_model : string)
           (organelle_models : dict string ModelInfo) (ic : list tuple)
  : result (list tuple) :=
  rfold (top_organelle_ic_step self cytoplasm_model extra_cellular_model)
        organelle_models ic.

Definition generate_top (self : ModelGenerator) (top : string) : M ModelInfo :=
  _ <- foldM (fun _ '(rid, parameters) => add_reaction rid parameters)
             (reactions (parser self)) tt ;;
  _ <- foldM (fun _ '(eid, parameters) => add_enzyme eid parameters)
             (enzymes (parser self)) tt ;;
  ' (cytoplasm_model, _, _) <- generate_bulk_compartment self (cytoplasm self) ;;
  ' (extra_cellular_model, _, _) <-
      generate_bulk_compartment self (extra_cellular self) ;;
  ' (periplasm_model, _, _) <-
      generate_organelle_compartment self (periplasm self) ;;
  let sub_models := [cytoplasm_model; extra_cellular_model; periplasm_model] in
  ' (organelle_models, sub_models) <- generate_organelle_models self sub_models ;;
  ic <- lift (generate_top_bulk_ic self cytoplasm_model (id (cytoplasm self))
                                   (routing_table (cytoplasm self))
                                   periplasm_model) ;;
  ic' <- lift (generate_top_bulk_ic self extra_cellular_model
                                    (id (extra_cellular self))
                                    (routing_table (extra_cellular self))
                                    periplasm_model) ;;
  let ic := ic ++ ic' in
  ic <- lift (top_organelle_ic self cytoplasm_model extra_cellular_model
                               organelle_models ic) ;;
  _ <- save_xml ;;
  write_coupled_model top sub_models [] [] [] ic.

(** *** Properties the statements below are written with *)

(** A call of the code writer that writes an enzyme set (no coupled
    model). *)
Definition is_enzyme_set_call (call : cw_call) : Prop :=
  match call with
  | WriteEnzymeSet _ _ _ => True
  | _ => False
  end.

(** A call of the code writer that writes a coupled model. *)
Definition is_coupled_call (call : cw_call) : Prop :=
  match call with
  | WriteCoupled _ _ _ _ _ _ => True
  | _ => False
  end.

(** What one routing-table entry contributes to the internal coupling of
    an organelle compartment: the three edges between the space and the
    model of the addressed reaction set. *)
Definition organelle_entry_edges (space : string)
           (the_enzyme_sets : dict (string * string) ModelInfo)
           (item : string * string * Z) (edges : list tuple) : Prop :=
  exists es_model_name x n,
    dict_get the_enzyme_sets (fst item) = Some (es_model_name, x, n) /\
    edges
    = [ [VStr space; VStr ("pmgbp::structs::" ++ space ++ "::" ++ space);
         VInt (snd item); VStr es_model_name; VStr "pmgbp::models::enzyme"; VInt 0];
        [VStr es_model_name; VStr "pmgbp::models::enzyme"; VStr "0_product";
         VStr space; VStr ("pmgbp::structs::" ++ space ++ "::" ++ space);
         VStr "0_product"];
        [VStr es_model_name; VStr "pmgbp::models::enzyme"; VStr "0_information";
         VStr space; VStr ("pmgbp::structs::" ++ space ++ "::" ++ space);
         VStr "0_information"] ].

(** Appending the port numbers not seen before, as the loop does. *)
Definition add_new_ports (out_port_numbers ports : list Z) : list Z :=
  fold_left (fun acc k => if port_in k acc then acc else acc ++ [k])
            ports out_port_numbers.

(** The edges of all the models, one product and one information edge
    per model and per port in [1, output_port_amount). *)
Definition all_eoc_edges (models : list ModelInfo) : list tuple :=
  flat_map (fun '(es_model_name, _, output_port_amount) =>
              flat_map (eoc_edges es_model_name) (py_range2 1 output_port_amount))
           models.

(** What one entry of the bulk routing table contributes to the
    coupling list: one edge to the periplasm's membrane input port when
    the entry addresses the periplasm and the periplasm is not the bulk
    compartment itself, nothing when it addresses the bulk compartment
    itself or any other compartment. *)
Definition bulk_entry_edges (self : ModelGenerator) (bulk_model bulk_cid : string)
           (periplasm_model : string) (item : string * string * Z)
           (edges : list tuple) : Prop :=
  let '((cid, esn), c_port_number) := item in
  (cid = id (periplasm self) -> cid <> bulk_cid ->
   exists periplasm_port_number,
     dict_get (membrane_eic (periplasm self)) esn = Some periplasm_port_number /\
     edges = [ [VStr bulk_model; VStr bulk_model; VInt c_port_number;
                VStr periplasm_model; VStr periplasm_model;
                VInt periplasm_port_number] ]) /\
  (cid = bulk_cid \/ cid <> id (periplasm self) -> edges = []).

(** The edges one membrane of one organelle adds to the top-level
    coupling. *)
Definition organelle_edges (cytoplasm_model extra_cellular_model model_name : string)
           (output_port_amount c_port_number es_port_number : Z) : list tuple :=
  [ [VStr cytoplasm_model; VInt c_port_number; VStr model_name; VInt es_port_number];
    [VStr model_name; VStr model_name; VStr "1_product";
     VStr cytoplasm_model; VStr cytoplasm_model; VStr "0_product"];
    [VStr model_name; VStr model_name; VStr "1_information";
     VStr cytoplasm_model; VStr cytoplasm_model; VStr "0_information"] ]
    ++ (if output_port_amount >? 1 then
          [ [VStr extra_cellular_model; VStr extra_cellular_model; VInt c_port_number;
             VStr model_name; VStr model_name; VInt es_port_number];
            [VStr model_name; VStr model_name; VStr "2_product";
             VStr extra_cellular_model; VStr extra_cellular_model; VStr "0_product"];
            [VStr model_name; VStr model_name; VStr "2_information";
             VStr extra_cellular_model; VStr extra_cellular_model;
             VStr "0_information"] ]
        else []).

(** A string without the underscore character. *)
Definition no_underscore (s : string) : Prop :=
  forall c, In c (list_ascii_of_string s) -> c <> "_"%char.

(** The parser holds what the space of compartment [cid] is built from:
    the species of the compartment, an amount for each of them, and a
    timing interval. *)
Definition has_space_data (the_parser : SBMLParser) (cid : string) : Prop :=
  exists species,
    dict_get (parse_compartments_species the_parser) cid = Some species /\
    incl (dict_keys species) (dict_keys (metabolite_amounts the_parser)) /\
    In cid (dict_keys (interval_times the_parser)).

(** What [generate_enzyme_set] hands to the parameter writer for the
    groups numbered from [port] on: one router per group, named
    [cid_esn_port], that numbers the enzymes of the group from 0. *)
Fixpoint group_routers (cid esn : string) (port : Z) (groups : list (list string))
  : list pw_call :=
  match groups with
  | [] => []
  | enzyme_ids :: rest =>
      AddRouter (String.concat "_" [cid; esn; str port])
                (combine enzyme_ids (ports (length enzyme_ids)))
        :: group_routers cid esn (port + 1) rest
  end.

(** The routing table of a reaction set: every enzyme id with the number
    of its group, the groups being numbered from [port] on. *)
Fixpoint set_routing (port : Z) (groups : list (list string)) : dict string Z :=
  match groups with
  | [] => []
  | enzyme_ids :: rest =>
      map (fun eid => (eid, port)) enzyme_ids ++ set_routing (port + 1) rest
  end.

(** The answers of the code writer to successive calls, the first one
    made after the calls [prev]. *)
Fixpoint enzyme_set_answers (prev calls : list cw_call) : list ModelInfo :=
  match calls with
  | [] => []
  | call :: rest =>
      coder_enzyme_set prev call :: enzyme_set_answers (prev ++ [call]) rest
  end.

(** A computation that, however it ends, keeps what the parameter writer
    had received and adds only calls that satisfy [P]. *)
Definition pw_adds {A : Type} (P : pw_call -> Prop) (m : M A) : Prop :=
  forall w, exists calls,
    pw_calls (snd (m w)) = pw_calls w ++ calls /\ Forall P calls.

(** A call of the parameter writer other than [save_xml]. *)
Definition not_save (call : pw_call) : Prop := call <> SaveXml.

(** A computation that saves the parameters as its last call on the
    parameter writer when it returns, and does not save them when it
    raises. *)
Definition saves_last {A : Type} (m : M A) : Prop :=
  forall w,
    match m w with
    | (Ok _, w') =>
        exists calls,
          pw_calls w' = pw_calls w ++ calls ++ [SaveXml] /\ Forall not_save calls
    | (Raise _, w') =>
        exists calls, pw_calls w' = pw_calls w ++ calls /\ Forall not_save calls
    end.

(** The ports that a routing table assigns to reaction sets of other
    compartments than [cid], in table order. *)
Definition foreign_ports (cid : string) (table : dict (string * string) Z) : list Z :=
  map snd (filter (fun item => negb (py_eqb (fst (fst item)) cid)) table).

(** The coupled model that [generate_bulk_compartment] describes for the
    compartment [cid] with space model [space] and bulk reaction-set
    model [bulk], the bulk being reached through [bulk_port_number] and
    the other compartments through [out_port_numbers]. *)
Definition bulk_coupled_model (cid space bulk : string) (bulk_port_number : Z)
           (out_port_numbers : list Z) : cw_call :=
  WriteCoupled
    cid [space; bulk]
    ([ [VStr "0_product"; VStr PRODUCT_MESSAGE_TYPE; VStr "in"];
       [VStr "0_information"; VStr INFORMATION_MESSAGE_TYPE; VStr "in"] ]
       ++ map (fun p => [VInt p; VStr REACTANT_MESSAGE_TYPE; VStr "out"])
              out_port_numbers)
    [ [VStr space; VStr (space_struct space); VStr "0_product"; VStr "0_product"];
      [VStr space; VStr (space_struct space); VStr "0_information";
       VStr "0_information"] ]
    (map (fun p => [VStr space; VStr (space_struct space); VInt p; VInt p])
         out_port_numbers)
    (ic_edges space bulk bulk_port_number).

(** * Facts *)

Unset Implicit Arguments.

(** ** Python equality *)

Lemma py_eqb_refl {K : Type} `{PyEq K} (a : K) : py_eqb a a = true.
Proof. apply py_eqb_eq; reflexivity. Qed.

Lemma py_eqb_neq {K : Type} `{PyEq K} (a b : K) : py_eqb a b = false <-> a <> b.
Proof.
  split.
  - intros E ->. rewrite py_eqb_refl in E. discriminate.
  - intros N. destruct (py_eqb a b) eqn:E; [|reflexivity].
    apply py_eqb_eq in E. contradiction.
Qed.

Lemma py_eq_dec {K : Type} `{PyEq K} (a b : K) : {a = b} + {a <> b}.
Proof.
  destruct (py_eqb a b) eqn:E.
  - left. apply py_eqb_eq. exact E.
  - right. apply py_eqb_neq. exact E.
Defined.

(** ** Facts about dictionaries *)

Section DictFacts.
Context {K V : Type} `{PyEq K}.

Lemma dict_get_not_in (d : dict K V) (k : K) :
  ~ In k (dict_keys d) -> dict_get d k = None.
Proof.
  induction d as [|[k' v'] d IH]; simpl; intros N; [reflexivity|].
  destruct (py_eqb k k') eqn:E.
  - apply py_eqb_eq in E. subst. exfalso. apply N. now left.
  - apply IH. intros I. apply N. now right.
Qed.

Lemma dict_get_some_in (d : dict K V) (k : K) (v : V) :
  dict_get d k = Some v -> In (k, v) d.
Proof.
  induction d as [|[k' v'] d IH]; simpl; [discriminate|].
  destruct (py_eqb k k') eqn:E.
  - apply py_eqb_eq in E. intros [= ->]. subst. now left.
  - intros G. right. now apply IH.
Qed.

Lemma dict_get_in_keys (d : dict K V) (k : K) :
  In k (dict_keys d) -> exists v, dict_get d k = Some v.
Proof.
  induction d as [|[k' v'] d IH]; simpl; [contradiction|].
  intros I. destruct (py_eqb k k') eqn:E; [now exists v'|].
  apply py_eqb_neq in E. destruct I as [->|I]; [contradiction|]. now apply IH.
Qed.

Lemma dict_get_in_wf (d : dict K V) (k : K) (v : V) :
  wf_dict d -> In (k, v) d -> dict_get d k = Some v.
Proof.
  unfold wf_dict.
  induction d as [|[k' v'] d IH]; simpl; intros W I; [contradiction|].
  inversion W as [|? ? N W']; subst.
  destruct I as [[= -> ->]|I].
  - now rewrite py_eqb_refl.
  - destruct (py_eqb k k') eqn:E.
    + apply py_eqb_eq in E. subst. exfalso. apply N.
      change k' with (fst (k', v)). now apply in_map.
    + now apply IH.
Qed.

Lemma dict_set_fresh (d : dict K V) (k : K) (v : V) :
  ~ In k (dict_keys d) -> dict_set d k v = d ++ [(k, v)].
Proof.
  induction d as [|[k' v'] d IH]; simpl; intros N; [reflexivity|].
  destruct (py_eqb k k') eqn:E.
  - apply py_eqb_eq in E. subst. exfalso. apply N. now left.
  - f_equal. apply IH. intros I. apply N. now right.
Qed.

Lemma dict_set_keys_in (d : dict K V) (k : K) (v : V) :
  In k (dict_keys d) -> dict_keys (dict_set d k v) = dict_keys d.
Proof.
  induction d as [|[k' v'] d IH]; simpl; intros I; [contradiction|].
  destruct (py_eqb k k') eqn:E; simpl; [reflexivity|].
  apply py_eqb_neq in E. destruct I as [->|I]; [contradiction|].
  f_equal. now apply IH.
Qed.

Lemma dict_set_length_in (d : dict K V) (k : K) (v : V) :
  In k (dict_keys d) -> length (dict_set d k v) = length d.
Proof.
  intros I. apply dict_set_keys_in with (v := v) in I.
  unfold dict_keys in I. apply (f_equal (@length K)) in I.
  now rewrite !length_map in I.
Qed.

Lemma dict_get_set_same (d : dict K V) (k : K) (v : V) :
  dict_get (dict_set d k v) k = Some v.
Proof.
  induction d as [|[k' v'] d IH]; simpl.
  - now rewrite py_eqb_refl.
  - destruct (py_eqb k k') eqn:E; simpl; now rewrite E.
Qed.

Lemma dict_get_set_other (d : dict K V) (k k0 : K) (v : V) :
  k0 <> k -> dict_get (dict_set d k v) k0 = dict_get d k0.
Proof.
  intros N. induction d as [|[k' v'] d IH]; simpl.
  - apply py_eqb_neq in N. now rewrite N.
  - destruct (py_eqb k k') eqn:E; simpl.
    + apply py_eqb_eq in E. subst. apply py_eqb_neq in N. now rewrite N.
    + now rewrite IH.
Qed.

Lemma dict_set_keys_incl (d : dict K V) (k k0 : K) (v : V) :
  In k0 (dict_keys (dict_set d k v)) <-> k0 = k \/ In k0 (dict_keys d).
Proof.
  destruct (in_dec py_eq_dec k (dict_keys d)) as [I|N].
  - rewrite dict_set_keys_in by assumption.
    split; [now right|]. intros [->|I0]; assumption.
  - rewrite dict_set_fresh by assumption.
    unfold dict_keys. rewrite map_app, in_app_iff. simpl.
    split; [intros [I|[E|[]]]; auto | intros [E|I]; auto].
Qed.

Lemma dict_update_fresh (kvs d : dict K V) :
  NoDup (dict_keys (d ++ kvs)) -> dict_update d kvs = d ++ kvs.
Proof.
  unfold dict_update.
  revert d. induction kvs as [|[k v] kvs IH]; simpl; intros d N.
  - now rewrite app_nil_r.
  - assert (F : ~ In k (dict_keys d)).
    { unfold dict_keys in *. rewrite map_app in N. simpl in N.
      apply NoDup_remove_2 in N. intros I. apply N.
      apply in_or_app. now left. }
    rewrite dict_set_fresh by exact F.
    rewrite IH; rewrite <- app_assoc; [reflexivity|exact N].
Qed.

Lemma dict_of_pairs_fresh (kvs : dict K V) :
  wf_dict kvs -> dict_of_pairs kvs = kvs.
Proof. intros W. apply (dict_update_fresh kvs []). exact W. Qed.

Lemma dict_comp_getitem_fresh (data seg acc : dict K V) :
  (forall k v, In (k, v) seg -> dict_get data k = Some v) ->
  NoDup (dict_keys (acc ++ seg)) ->
  dict_comp_getitem data (dict_keys seg) acc = Ok (acc ++ seg).
Proof.
  revert acc. induction seg as [|[k v] seg IH]; simpl; intros acc G N.
  - now rewrite app_nil_r.
  - unfold dict_getitem. rewrite (G k v) by now left. simpl.
    assert (F : ~ In k (dict_keys acc)).
    { unfold dict_keys in *. rewrite map_app in N. simpl in N.
      apply NoDup_remove_2 in N. intros I. apply N.
      apply in_or_app. now left. }
    rewrite dict_set_fresh by exact F.
    rewrite IH.
    + now rewrite <- app_assoc.
    + intros k0 v0 I. apply G. now right.
    + rewrite <- app_assoc. exact N.
Qed.
End DictFacts.

(** ** Facts about [range] and [chunks] *)

Lemma range_list_length (start stop step : Z) :
  length (range_list start stop step) = Z.to_nat (range_length start stop step).
Proof. unfold range_list. now rewrite length_map, length_seq. Qed.

Lemma range_length_ceil (n s : Z) :
  0 <= n -> 0 < s -> range_length 0 n s = ceil_div n s.
Proof.
  intros Hn Hs. unfold range_length, ceil_div.
  destruct (0 <? s) eqn:E; [|apply Z.ltb_ge in E; lia].
  pose proof (Z.div_mod n s ltac:(lia)) as D.
  pose proof (Z.mod_pos_bound n s Hs) as B.
  destruct (0 <? n) eqn:E0.
  - apply Z.ltb_lt in E0.
    destruct (n mod s =? 0) eqn:Em.
    + apply Z.eqb_eq in Em.
      assert (Q : (n - 0 - 1) / s = n / s - 1).
      { symmetry. apply Z.div_unique with (r := s - 1); [lia|nia]. }
      lia.
    + apply Z.eqb_neq in Em.
      assert (Q : (n - 0 - 1) / s = n / s).
      { symmetry. apply Z.div_unique with (r := n mod s - 1); [lia|nia]. }
      lia.
  - apply Z.ltb_ge in E0. assert (n = 0) by lia. subst n.
    now rewrite Z.div_0_l, Z.mod_0_l by lia.
Qed.

Lemma ceil_div_covers (n s : Z) :
  0 <= n -> 0 < s -> 0 <= ceil_div n s /\ n <= ceil_div n s * s.
Proof.
  intros Hn Hs. unfold ceil_div.
  pose proof (Z.div_mod n s ltac:(lia)) as D.
  pose proof (Z.mod_pos_bound n s Hs) as B.
  pose proof (Z.div_pos n s Hn Hs) as P.
  destruct (n mod s =? 0) eqn:Em.
  - apply Z.eqb_eq in Em. split; nia.
  - split; nia.
Qed.

Section GroupsFacts.
Context {A : Type}.

Lemma groups_of_length (n m : nat) (l : list A) :
  length (groups_of n m l) = m.
Proof. revert l. induction m; simpl; intros; [reflexivity|now rewrite IHm]. Qed.

Lemma groups_of_concat (n m : nat) (l : list A) :
  concat (groups_of n m l) = firstn (m * n) l.
Proof.
  revert l. induction m as [|m IH]; simpl; intros l; [reflexivity|].
  rewrite IH. rewrite <- (firstn_skipn n l) at 3.
  rewrite firstn_app, length_firstn.
  destruct (Nat.le_gt_cases n (length l)) as [L|L].
  - rewrite Nat.min_l by assumption.
    replace (n + m * n - n)%nat with (m * n)%nat by lia.
    rewrite firstn_firstn. f_equal. f_equal. lia.
  - rewrite Nat.min_r by lia.
    rewrite (skipn_all2 l) by lia. rewrite !firstn_nil, !app_nil_r.
    rewrite firstn_firstn. f_equal. lia.
Qed.

Lemma groups_of_bound (n m : nat) (l : list A) :
  Forall (fun g => (length g <= n)%nat) (groups_of n m l).
Proof.
  revert l. induction m as [|m IH]; simpl; intros l; constructor.
  - apply firstn_le_length.
  - apply IH.
Qed.

Lemma groups_of_nil (n m : nat) :
  (0 < n)%nat -> concat (groups_of n m (@nil A)) = [].
Proof. intros _. rewrite groups_of_concat. apply firstn_nil. Qed.

Lemma NoDup_app_disjoint (l1 l2 : list A) (a : A) :
  NoDup (l1 ++ l2) -> In a l1 -> In a l2 -> False.
Proof.
  induction l1 as [|b l1 IH]; simpl; intros N I1 I2; [contradiction|].
  inversion N as [|? ? Nb N']; subst.
  destruct I1 as [->|I1].
  - apply Nb. apply in_or_app. now right.
  - now apply IH.
Qed.

(** An element of a duplicate-free concatenation lies in one group only. *)
Lemma concat_NoDup_unique (ls : list (list A)) (x : A) (i j : nat) (a b : list A) :
  NoDup (concat ls) ->
  nth_error ls i = Some a -> nth_error ls j = Some b ->
  In x a -> In x b -> i = j.
Proof.
  revert i j. induction ls as [|l ls IH]; intros i j N Hi Hj Ia Ib.
  - destruct i; discriminate.
  - simpl in N. pose proof (NoDup_app_disjoint _ _ x N) as D.
    apply NoDup_app_remove_l in N.
    assert (T : forall k c, nth_error ls k = Some c -> In x c -> In x (concat ls)).
    { intros k c Hk Ic. apply in_concat. exists c. split; [|exact Ic].
      eapply nth_error_In. exact Hk. }
    destruct i as [|i], j as [|j]; simpl in Hi, Hj.
    + reflexivity.
    + injection Hi as <-. exfalso. apply (D Ia). eapply T; eauto.
    + injection Hj as <-. exfalso. apply (D Ib). eapply T; eauto.
    + f_equal. eapply IH; eauto.
Qed.
End GroupsFacts.

(** [islice] accepts the stop arguments in [0, sys.maxsize] and refuses
    the larger ones. *)
Lemma islice_ok {A : Type} (it : list A) (n : Z) :
  0 <= n -> n <= sys_maxsize ->
  islice it n = Ok (firstn (Z.to_nat n) it, skipn (Z.to_nat n) it).
Proof.
  intros L U. unfold islice.
  destruct (n <? 0) eqn:E1; [apply Z.ltb_lt in E1; lia|].
  destruct (sys_maxsize <? n) eqn:E2; [apply Z.ltb_lt in E2; lia|].
  reflexivity.
Qed.

Lemma islice_over_maxsize {A : Type} (it : list A) (n : Z) :
  sys_maxsize < n -> islice it n = Raise ValueError.
Proof.
  intros U. unfold islice. apply Z.ltb_lt in U. rewrite U, orb_true_r. reflexivity.
Qed.

Section ChunksFacts.
Context {K V : Type} `{PyEq K}.

Lemma dict_len_nonneg (d : dict K V) : 0 <= dict_len d.
Proof. unfold dict_len. lia. Qed.

Lemma dict_keys_concat (ds : list (dict K V)) :
  concat (map dict_keys ds) = dict_keys (concat ds).
Proof.
  induction ds as [|d ds IH]; simpl; [reflexivity|].
  unfold dict_keys at 3. rewrite map_app. now rewrite IH.
Qed.

(** Run on the keys of a suffix of a well-formed [data], the loop
    yields the successive groups of that suffix. *)
Lemma chunks_loop_groups (data : dict K V) (SIZE : Z) :
  wf_dict data -> 0 <= SIZE -> SIZE <= sys_maxsize ->
  forall (rng : list Z) (done rest : dict K V),
    data = done ++ rest ->
    chunks_loop data SIZE rng (dict_keys rest)
    = Ok (groups_of (Z.to_nat SIZE) (length rng) rest).
Proof.
  intros W HS HM. induction rng as [|i rng IH]; intros done rest E; simpl.
  - reflexivity.
  - rewrite islice_ok by assumption.
    simpl. unfold dict_keys at 1. rewrite firstn_map.
    change (map fst (firstn (Z.to_nat SIZE) rest))
      with (dict_keys (firstn (Z.to_nat SIZE) rest)).
    rewrite (dict_comp_getitem_fresh data (firstn (Z.to_nat SIZE) rest) []).
    + simpl. unfold dict_keys at 1. rewrite skipn_map.
      change (map fst (skipn (Z.to_nat SIZE) rest))
        with (dict_keys (skipn (Z.to_nat SIZE) rest)).
      rewrite (IH (done ++ firstn (Z.to_nat SIZE) rest)).
      * reflexivity.
      * rewrite <- app_assoc, firstn_skipn. exact E.
    + intros k v I. apply dict_get_in_wf; [exact W|].
      subst data. apply in_or_app. right.
      rewrite <- (firstn_skipn (Z.to_nat SIZE) rest).
      apply in_or_app. now left.
    + simpl. unfold wf_dict in W. subst data.
      unfold dict_keys in *. rewrite map_app in W.
      apply NoDup_app_remove_l in W.
      rewrite <- (firstn_skipn (Z.to_nat SIZE) rest), map_app in W.
      now apply NoDup_app_remove_r in W.
Qed.

Lemma chunks_groups (data : dict K V) (SIZE : Z) :
  wf_dict data -> 0 < SIZE -> SIZE <= sys_maxsize ->
  chunks data SIZE
  = Ok (groups_of (Z.to_nat SIZE) (Z.to_nat (ceil_div (dict_len data) SIZE)) data).
Proof.
  intros W HS HM. unfold chunks, py_range.
  destruct (SIZE =? 0) eqn:E; [apply Z.eqb_eq in E; lia|]. simpl.
  rewrite (chunks_loop_groups data SIZE W (Z.lt_le_incl _ _ HS) HM _ [] data eq_refl).
  rewrite range_list_length, range_length_ceil; auto using dict_len_nonneg.
Qed.
(** A positive [SIZE] above [sys.maxsize] is refused by [islice] in the
    first iteration; an empty [data] has no iteration. *)
Lemma chunks_over_maxsize (data : dict K V) (SIZE : Z) :
  0 < SIZE -> sys_maxsize < SIZE ->
  chunks data SIZE = match data with
                     | [] => Ok []
                     | _ :: _ => Raise ValueError
                     end.
Proof.
  intros HS HM. unfold chunks, py_range.
  destruct (SIZE =? 0) eqn:E; [apply Z.eqb_eq in E; lia|]. cbn [rbind].
  unfold range_list, range_length.
  destruct (0 <? SIZE) eqn:P; [|apply Z.ltb_ge in P; lia].
  destruct data as [|kv data].
  - reflexivity.
  - assert (L : 0 < dict_len (kv :: data)) by (unfold dict_len; simpl; lia).
    destruct (0 <? dict_len (kv :: data)) eqn:Q; [|apply Z.ltb_ge in Q; lia].
    assert (Hq : 0 <= (dict_len (kv :: data) - 0 - 1) / SIZE)
      by (apply Z.div_pos; lia).
    destruct (Z.to_nat ((dict_len (kv :: data) - 0 - 1) / SIZE + 1)) as [|r] eqn:R; [lia|].
    cbn [seq map chunks_loop]. rewrite islice_over_maxsize by exact HM. reflexivity.
Qed.
End ChunksFacts.

(** C2 (amended). For a dictionary [data] and a positive [SIZE] not
    above [sys.maxsize], [chunks] yields [ceil(len(data) / SIZE)] groups
    of at most [SIZE] entries each; the groups concatenated in yield
    order are [data] itself, every key of [data] lies in exactly one
    group, and an empty [data] yields no group. For a [SIZE] above
    [sys.maxsize], [chunks] raises [ValueError] (from [islice]) unless
    [data] is empty. *)
Theorem chunks_partition {K V : Type} `{PyEq K} (data : dict K V) (SIZE : Z) :
  wf_dict data -> 0 < SIZE ->
  (SIZE <= sys_maxsize ->
   exists groups : list (dict K V),
     chunks data SIZE = Ok groups /\
     Z.of_nat (length groups) = ceil_div (dict_len data) SIZE /\
     Forall (fun g => dict_len g <= SIZE) groups /\
     concat groups = data /\
     (forall k, In k (dict_keys data) ->
        exists i g, nth_error groups i = Some g /\ In k (dict_keys g) /\
          forall j g', nth_error groups j = Some g' -> In k (dict_keys g') -> j = i) /\
     (data = [] -> groups = [])) /\
  (sys_maxsize < SIZE ->
   chunks data SIZE = if dict_len data =? 0 then Ok [] else Raise ValueError).
Proof.
  intros W HS. split.
  2:{ intros HM. rewrite (chunks_over_maxsize data SIZE HS HM).
      destruct data; reflexivity. }
  intros HM.
  destruct (ceil_div_covers _ _ (dict_len_nonneg data) HS) as [C0 C1].
  set (n := Z.to_nat SIZE). set (m := Z.to_nat (ceil_div (dict_len data) SIZE)).
  assert (Hc : concat (groups_of n m data) = data).
  { rewrite groups_of_concat. apply firstn_all2. apply Nat2Z.inj_le.
    rewrite Nat2Z.inj_mul. subst n m. rewrite !Z2Nat.id by lia. exact C1. }
  exists (groups_of n m data). split; [|split; [|split; [|split; [|split]]]].
  - apply chunks_groups; assumption.
  - unfold dict. rewrite groups_of_length. subst m. lia.
  - eapply Forall_impl; [|apply groups_of_bound].
    intros g L. unfold dict_len. subst n. simpl in L. lia.
  - exact Hc.
  - intros k Ik.
    assert (Ik' : In k (concat (map dict_keys (groups_of n m data)))).
    { rewrite dict_keys_concat, Hc. exact Ik. }
    apply in_concat in Ik'. destruct Ik' as (ks & Iks & Ikk).
    apply in_map_iff in Iks. destruct Iks as (g & <- & Ig).
    apply In_nth_error in Ig. destruct Ig as [i Hi].
    exists i, g. split; [exact Hi|]. split; [exact Ikk|].
    intros j g' Hj Ik2.
    apply (@concat_NoDup_unique K (map dict_keys (groups_of n m data)) k j i
                                (dict_keys g') (dict_keys g)); auto.
    + rewrite dict_keys_concat, Hc. exact W.
    + now rewrite nth_error_map, Hj.
    + now rewrite nth_error_map, Hi.
  - intros ->.
    assert (Em : m = 0%nat).
    { subst m. change (dict_len (@nil (K * V))) with 0. unfold ceil_div.
      rewrite Z.div_0_l, Z.mod_0_l by lia. reflexivity. }
    rewrite Em. reflexivity.
Qed.

(** ** Facts about [ModelStructure.__init__] *)

Section CombineFacts.
Context {A B : Type}.

Lemma combine_app (l1 l2 : list A) (r1 r2 : list B) :
  length l1 = length r1 ->
  combine (l1 ++ l2) (r1 ++ r2) = combine l1 r1 ++ combine l2 r2.
Proof.
  revert r1. induction l1 as [|a l1 IH]; intros [|b r1] E; simpl in *;
    try discriminate; [reflexivity|].
  f_equal. apply IH. now injection E.
Qed.

Lemma map_fst_combine (l : list A) (r : list B) :
  length l = length r -> map fst (combine l r) = l.
Proof.
  revert r. induction l as [|a l IH]; intros [|b r] E; simpl in *;
    try discriminate; [reflexivity|].
  f_equal. apply IH. now injection E.
Qed.

Lemma map_snd_combine (l : list A) (r : list B) :
  length l = length r -> map snd (combine l r) = r.
Proof.
  revert r. induction l as [|a l IH]; intros [|b r] E; simpl in *;
    try discriminate; [reflexivity|].
  f_equal. apply IH. now injection E.
Qed.
End CombineFacts.

Lemma ports_length (n : nat) : length (ports n) = n.
Proof. unfold ports. now rewrite length_map, length_seq. Qed.

Lemma py_range1_ports (n : nat) : py_range1 (Z.of_nat n) = ports n.
Proof.
  unfold py_range1, range_list, ports, range_length.
  change (0 <? 1) with true. cbv iota.
  replace (Z.to_nat (if 0 <? Z.of_nat n then (Z.of_nat n - 0 - 1) / 1 + 1 else 0))
    with n.
  - apply map_ext. intros i. lia.
  - destruct (0 <? Z.of_nat n) eqn:E.
    + rewrite Z.div_1_r. lia.
    + apply Z.ltb_ge in E. lia.
Qed.

Lemma py_range2_from (start stop : Z) :
  py_range2 start stop = map (fun i => start + Z.of_nat i) (seq 0 (Z.to_nat (stop - start))).
Proof.
  unfold py_range2, range_list, range_length.
  change (0 <? 1) with true. cbv iota.
  replace (Z.to_nat (if start <? stop then (stop - start - 1) / 1 + 1 else 0))
    with (Z.to_nat (stop - start)).
  - apply map_ext. intros i. lia.
  - destruct (start <? stop) eqn:E.
    + rewrite Z.div_1_r. lia.
    + apply Z.ltb_ge in E. lia.
Qed.

Lemma internal_routing_table_fresh (cid : string) (l : list string) :
  NoDup (map (pair cid) l) ->
  internal_routing_table cid l = combine (map (pair cid) l) (ports (length l)).
Proof.
  intros N. unfold internal_routing_table. rewrite py_range1_ports.
  assert (E : forall r : list Z,
             map (fun '(esn, port) => ((cid, esn), port)) (combine l r)
             = combine (map (pair cid) l) r).
  { induction l as [|a l IH]; intros [|b r]; simpl; try reflexivity.
    f_equal. apply IH. now inversion N. }
  rewrite E. apply dict_of_pairs_fresh. unfold wf_dict, dict_keys.
  rewrite map_fst_combine; [exact N|].
  now rewrite length_map, ports_length.
Qed.

Lemma external_sets_fresh (external_cid : string) (reaction_sets : list string) :
  forall (table : dict (string * string) Z) (n : nat),
    NoDup (dict_keys table ++ map (pair external_cid) reaction_sets) ->
    fold_left
      (fun '(table, port_number) reaction_set =>
         (dict_set table (external_cid, reaction_set) port_number, port_number + 1))
      reaction_sets (table, Z.of_nat n)
    = (table ++ combine (map (pair external_cid) reaction_sets)
                        (map Z.of_nat (seq n (length reaction_sets))),
       Z.of_nat (n + length reaction_sets)).
Proof.
  induction reaction_sets as [|r rs IH]; intros table n N; simpl.
  - now rewrite app_nil_r, Nat.add_0_r.
  - assert (F : ~ In (external_cid, r) (dict_keys table)).
    { apply NoDup_remove_2 in N. intros I. apply N. apply in_or_app. now left. }
    rewrite dict_set_fresh by exact F.
    replace (Z.of_nat n + 1) with (Z.of_nat (S n)) by lia.
    rewrite IH.
    + rewrite <- app_assoc. simpl. f_equal. f_equal. lia.
    + unfold dict_keys in *. rewrite map_app, <- app_assoc. exact N.
Qed.

Lemma external_routing_table_fresh (ext : dict string (list string)) :
  forall (table : dict (string * string) Z) (n : nat),
    NoDup (dict_keys table ++ external_keys ext) ->
    external_routing_table ext (table, Z.of_nat n)
    = (table ++ combine (external_keys ext)
                        (map Z.of_nat (seq n (length (external_keys ext)))),
       Z.of_nat (n + length (external_keys ext))).
Proof.
  unfold external_routing_table.
  induction ext as [|[external_cid reaction_sets] ext IH]; intros table n N; simpl.
  - now rewrite app_nil_r, Nat.add_0_r.
  - simpl in N. rewrite app_assoc in N.
    rewrite external_sets_fresh by (now apply NoDup_app_remove_r in N).
    rewrite IH.
    + rewrite <- app_assoc, length_app, seq_app, map_app.
      rewrite combine_app by (now rewrite !length_map, length_seq).
      rewrite !length_map. f_equal. f_equal. lia.
    + unfold dict_keys in *. rewrite map_app.
      rewrite map_fst_combine by (now rewrite !length_map, length_seq).
      exact N.
Qed.

Lemma external_keys_length (ext : dict string (list string)) :
  length (external_keys ext)
  = list_sum (map (fun '(_, reaction_sets) => length reaction_sets) ext).
Proof.
  unfold external_keys. induction ext as [|[c l] ext IH]; simpl; [reflexivity|].
  now rewrite length_app, length_map, IH.
Qed.

(** With pairwise distinct keys, [__init__] numbers the keys in order. *)
Lemma ModelStructure_init_tables (cid : string) (the_parser : SBMLParser)
      (membranes : option (list string))
      (external_enzyme_sets : option (dict string (list string)))
      (c : ModelStructure) :
  let ms := or_default membranes [] in
  let es := or_default external_enzyme_sets [] in
  NoDup (routing_keys cid ms es) ->
  ModelStructure_init cid the_parser membranes external_enzyme_sets = Ok c ->
  id c = cid /\
  membrane_eic c = combine ms (ports (length ms)) /\
  routing_table c
  = combine (routing_keys cid ms es) (ports (length (routing_keys cid ms es))).
Proof.
  intros ms es N. unfold ModelStructure_init. fold ms es.
  unfold routing_keys in *.
  assert (Ni : NoDup (map (pair cid) (BULK :: ms))).
  { simpl. rewrite app_comm_cons in N. now apply NoDup_app_remove_r in N. }
  rewrite (internal_routing_table_fresh cid (BULK :: ms) Ni).
  unfold dict_len. rewrite length_combine, length_map, ports_length, Nat.min_id.
  rewrite external_routing_table_fresh.
  - destruct (dict_getitem (parse_compartments_species the_parser) cid); simpl;
      [|discriminate].
    destruct (dict_comp_getitem _ _ _); simpl; [|discriminate].
    destruct (dict_getitem (interval_times the_parser) cid); simpl; [|discriminate].
    intros [= <-]. simpl. split; [reflexivity|]. split.
    + rewrite py_range1_ports. apply dict_of_pairs_fresh.
      unfold wf_dict, dict_keys. rewrite map_fst_combine by now rewrite ports_length.
      simpl in Ni. inversion Ni as [|? ? _ Nm]; subst.
      apply NoDup_map_inv in Nm. exact Nm.
    + f_equal. rewrite length_app, length_map, seq_app, map_app.
      rewrite combine_app by (now rewrite !length_map, length_seq).
      reflexivity.
  - unfold dict_keys. rewrite map_fst_combine by (now rewrite length_map, ports_length).
    exact N.
Qed.

Lemma combine_ports_nth {A : Type} (keys : list A) :
  forall (start i : nat) (k : A),
    nth_error keys i = Some k ->
    In (k, Z.of_nat (start + i)) (combine keys (map Z.of_nat (seq start (length keys)))).
Proof.
  induction keys as [|a keys IH]; intros start i k E.
  - destruct i; discriminate.
  - destruct i as [|i]; simpl in *.
    + injection E as ->. left. now rewrite Nat.add_0_r.
    + right. replace (start + S i)%nat with (S start + i)%nat by lia. now apply IH.
Qed.

(** C1 (amended). When the routing keys -- (own id, BULK), (own id, m)
    for the membranes m in declared order, then the external (supplier,
    set) pairs in supplier-iteration order -- are pairwise distinct,
    [ModelStructure.__init__] maps the i-th membrane to port i in
    [membrane_eic] and the i-th routing key to port i in [routing_table]:
    the table has 1 + |membranes| + (sum of the external set counts)
    entries and its ports are the contiguous range [0, N) without gap or
    duplicate. For membranes [OUTER, INNER, TRANS] and no external set
    the two tables are the ones of the concrete scenario. *)
Theorem ModelStructure_init_routing (cid : string) (the_parser : SBMLParser)
        (membranes : option (list string))
        (external_enzyme_sets : option (dict string (list string)))
        (c : ModelStructure) :
  NoDup (routing_keys cid (or_default membranes [])
                      (or_default external_enzyme_sets [])) ->
  ModelStructure_init cid the_parser membranes external_enzyme_sets = Ok c ->
  (forall i m, nth_error (or_default membranes []) i = Some m ->
               dict_get (membrane_eic c) m = Some (Z.of_nat i)) /\
  dict_keys (membrane_eic c) = or_default membranes [] /\
  (forall i k, nth_error (routing_keys cid (or_default membranes [])
                                       (or_default external_enzyme_sets [])) i = Some k ->
               dict_get (routing_table c) k = Some (Z.of_nat i)) /\
  dict_keys (routing_table c)
  = routing_keys cid (or_default membranes []) (or_default external_enzyme_sets []) /\
  length (routing_table c)
  = (1 + length (or_default membranes [])
     + list_sum (map (fun '(_, reaction_sets) => length reaction_sets)
                     (or_default external_enzyme_sets [])))%nat /\
  dict_values (routing_table c) = ports (length (routing_table c)) /\
  (or_default membranes [] = [OUTER; INNER; TRANS] ->
   or_default external_enzyme_sets [] = [] ->
   membrane_eic c = [(OUTER, 0); (INNER, 1); (TRANS, 2)] /\
   routing_table c
   = [((cid, BULK), 0); ((cid, OUTER), 1); ((cid, INNER), 2); ((cid, TRANS), 3)]).
Proof.
  intros N E.
  destruct (ModelStructure_init_tables cid the_parser membranes external_enzyme_sets
                                      c N E) as (_ & Hm & Hr).
  set (ms := or_default membranes []) in *.
  set (es := or_default external_enzyme_sets []) in *.
  assert (Nm : NoDup ms).
  { unfold routing_keys in N. inversion N as [|? ? _ N']; subst.
    apply NoDup_app_remove_r in N'. now apply NoDup_map_inv in N'. }
  assert (Lk : length (routing_keys cid ms es)
               = (1 + length ms + length (external_keys es))%nat).
  { unfold routing_keys. simpl. now rewrite length_app, length_map. }
  split; [|split; [|split; [|split; [|split; [|split]]]]].
  - intros i m Hi. rewrite Hm. apply dict_get_in_wf.
    + unfold wf_dict, dict_keys. now rewrite map_fst_combine by now rewrite ports_length.
    + apply (combine_ports_nth ms 0%nat i m Hi).
  - rewrite Hm. unfold dict_keys. now rewrite map_fst_combine by now rewrite ports_length.
  - intros i k Hi. rewrite Hr. apply dict_get_in_wf.
    + unfold wf_dict, dict_keys. now rewrite map_fst_combine by now rewrite ports_length.
    + apply (combine_ports_nth (routing_keys cid ms es) 0%nat i k Hi).
  - rewrite Hr. unfold dict_keys. now rewrite map_fst_combine by now rewrite ports_length.
  - rewrite Hr, length_combine, ports_length, Nat.min_id, Lk.
    now rewrite external_keys_length.
  - rewrite Hr at 1. unfold dict_values.
    rewrite map_snd_combine by now rewrite ports_length.
    now rewrite Hr, length_combine, ports_length, Nat.min_id.
  - intros Em Ee. rewrite Hm, Hr, Em, Ee. split; reflexivity.
Qed.

(** ** Running the writer monad *)

Lemma bind_ok {A B : Type} (m : M A) (k : A -> M B) (w w' : World) (a : A) :
  m w = (Ok a, w') -> bind m k w = k a w'.
Proof. intros E. unfold bind. now rewrite E. Qed.

Lemma bind_raise {A B : Type} (m : M A) (k : A -> M B) (w w' : World) (e : exn) :
  m w = (Raise e, w') -> bind m k w = (Raise e, w').
Proof. intros E. unfold bind. now rewrite E. Qed.

(** Run the first action of a sequence when it computes to a result. *)
Ltac run_bind := erewrite bind_ok by reflexivity; cbv beta iota.

(** ** [generate_enzyme_set] never checks the size of the enzyme set *)

Section ChunksTotal.
Context {K V : Type} `{PyEq K}.

Lemma firstn_incl {A : Type} (n : nat) (l : list A) : incl (firstn n l) l.
Proof.
  intros x I. rewrite <- (firstn_skipn n l). apply in_or_app. now left.
Qed.

Lemma skipn_incl {A : Type} (n : nat) (l : list A) : incl (skipn n l) l.
Proof.
  intros x I. rewrite <- (firstn_skipn n l). apply in_or_app. now right.
Qed.

Lemma dict_comp_getitem_ok (data : dict K V) (ks : list K) :
  incl ks (dict_keys data) ->
  forall acc, exists d, dict_comp_getitem data ks acc = Ok d.
Proof.
  induction ks as [|k ks IH]; intros I acc; simpl.
  - now exists acc.
  - destruct (dict_get_in_keys data k (I k (or_introl eq_refl))) as [v G].
    unfold dict_getitem. rewrite G. simpl. apply IH.
    intros x Hx. apply I. now right.
Qed.

Lemma chunks_loop_ok (data : dict K V) (SIZE : Z) :
  0 <= SIZE -> SIZE <= sys_maxsize ->
  forall (rng : list Z) (it : list K),
    incl it (dict_keys data) ->
    exists groups, chunks_loop data SIZE rng it = Ok groups.
Proof.
  intros HS HM. induction rng as [|i rng IH]; intros it I; simpl.
  - now exists [].
  - rewrite islice_ok by assumption. simpl.
    destruct (dict_comp_getitem_ok data (firstn (Z.to_nat SIZE) it)) with (acc := @nil (K * V))
      as [g Eg].
    { intros x Hx. apply I. eapply firstn_incl. exact Hx. }
    rewrite Eg. simpl.
    destruct (IH (skipn (Z.to_nat SIZE) it)) as [gs Egs].
    { intros x Hx. apply I. eapply skipn_incl. exact Hx. }
    rewrite Egs. simpl. now exists (g :: gs).
Qed.

(** A non-zero [SIZE] up to [sys.maxsize] never makes [chunks] raise. *)
Lemma chunks_ok (data : dict K V) (SIZE : Z) :
  SIZE <> 0 -> SIZE <= sys_maxsize -> exists groups, chunks data SIZE = Ok groups.
Proof.
  intros NZ HM. unfold chunks, py_range.
  destruct (SIZE =? 0) eqn:E; [apply Z.eqb_eq in E; contradiction|]. simpl.
  destruct (Z.lt_ge_cases SIZE 0) as [Neg|Pos].
  - unfold range_list, range_length.
    destruct (0 <? SIZE) eqn:P; [apply Z.ltb_lt in P; lia|].
    destruct (dict_len data <? 0) eqn:Q;
      [apply Z.ltb_lt in Q; pose proof (dict_len_nonneg data); lia|].
    simpl. now exists [].
  - apply chunks_loop_ok; [exact Pos|exact HM|apply incl_refl].
Qed.
End ChunksTotal.

Lemma enzyme_set_groups_loop_run (cid esn : string) (groups : list (dict string Obj)) :
  forall (st : list (list string) * dict string Z * Z) (w : World),
  exists (table : dict string Z) (port : Z) (w' : World),
    foldM (enzyme_set_group_step cid esn) groups st w
    = (Ok (fst (fst st) ++ map dict_keys groups, table, port), w') /\
    cw_calls w' = cw_calls w.
Proof.
  induction groups as [|g groups IH]; intros [[ids table] port] w.
  - exists table, port, w. simpl. unfold ret. now rewrite app_nil_r.
  - cbn [foldM]. erewrite bind_ok by reflexivity.
    match goal with
    | |- context [foldM _ groups ?st ?w1] => destruct (IH st w1) as (t' & p' & w' & E & C)
    end.
    exists t', p', w'. split.
    + etransitivity; [exact E|]. cbn [fst map]. now rewrite <- app_assoc.
    + rewrite C. reflexivity.
Qed.

Lemma generate_enzyme_set_run (self : ModelGenerator) (cid esn : string)
      (enzyme_set : dict string Obj) (w : World) (groups : list (dict string Obj)) :
  chunks enzyme_set (groups_size self) = Ok groups ->
  exists w',
    generate_enzyme_set self cid esn enzyme_set w
    = (Ok (coder_enzyme_set (cw_calls w) (WriteEnzymeSet cid esn (map dict_keys groups))),
       w') /\
    cw_calls w' = cw_calls w ++ [WriteEnzymeSet cid esn (map dict_keys groups)].
Proof.
  intros E. unfold generate_enzyme_set. rewrite E.
  erewrite bind_ok by reflexivity.
  destruct (enzyme_set_groups_loop_run cid esn groups ([], [], 0) w)
    as (table & port & w1 & E1 & C1).
  unfold enzyme_set_groups_loop. erewrite bind_ok by exact E1.
  cbn [fst]. erewrite bind_ok by reflexivity.
  unfold write_enzyme_set, cw_record. cbn [cw_calls pw_calls]. rewrite C1.
  eexists. split; reflexivity.
Qed.

(** C3 (amended). [generate_enzyme_set] does not compare the number of
    enzymes with [groups_size * groups_size]: for a positive [groups_size]
    that [islice] accepts (at most [sys.maxsize]) it returns normally on
    every enzyme set and hands the code writer [ceil(n / groups_size)]
    groups, which are more than [groups_size] groups as soon as the set
    holds more than [groups_size * groups_size] enzymes. *)
Theorem generate_enzyme_set_no_limit (self : ModelGenerator) (cid esn : string)
        (enzyme_set : dict string Obj) (w : World) :
  wf_dict enzyme_set -> 0 < groups_size self -> groups_size self <= sys_maxsize ->
  exists (groups : list (list string)) (w' : World),
    generate_enzyme_set self cid esn enzyme_set w
    = (Ok (coder_enzyme_set (cw_calls w) (WriteEnzymeSet cid esn groups)), w') /\
    cw_calls w' = cw_calls w ++ [WriteEnzymeSet cid esn groups] /\
    concat groups = dict_keys enzyme_set /\
    Z.of_nat (length groups) = ceil_div (dict_len enzyme_set) (groups_size self) /\
    (groups_size self * groups_size self < dict_len enzyme_set ->
     groups_size self < Z.of_nat (length groups)).
Proof.
  intros W HS HM.
  pose proof (chunks_groups enzyme_set (groups_size self) W HS HM) as E.
  destruct (ceil_div_covers _ _ (dict_len_nonneg enzyme_set) HS) as [C0 C1].
  destruct (generate_enzyme_set_run self cid esn enzyme_set w _ E) as (w' & R & C).
  eexists. exists w'. split; [exact R|]. split; [exact C|].
  split; [|split].
  - rewrite dict_keys_concat, groups_of_concat. f_equal. apply firstn_all2.
    apply Nat2Z.inj_le. rewrite Nat2Z.inj_mul, !Z2Nat.id by lia. exact C1.
  - rewrite length_map. unfold dict. rewrite groups_of_length. lia.
  - intros Big. rewrite length_map. unfold dict. rewrite groups_of_length. nia.
Qed.

(** ** [generate_top_bulk_ic] *)

Lemma Forall2_in_left {A B : Type} (R : A -> B -> Prop) (l : list A) (l' : list B)
      (a : A) :
  Forall2 R l l' -> In a l -> exists b, In b l' /\ R a b.
Proof.
  induction 1 as [|x y l l' Hxy _ IH]; intros I; [contradiction|].
  destruct I as [<-|I].
  - exists y. split; [now left|exact Hxy].
  - destruct (IH I) as (b & Ib & Rb). exists b. split; [now right|exact Rb].
Qed.

Lemma top_bulk_ic_loop_spec (self : ModelGenerator) (bulk_model bulk_cid : string)
      (periplasm_model : string) (table : dict (string * string) Z) :
  forall ic,
    match rfold (top_bulk_ic_step self bulk_model bulk_cid periplasm_model) table ic with
    | Ok ic' =>
        exists contribs,
          ic' = ic ++ concat contribs /\
          Forall2 (bulk_entry_edges self bulk_model bulk_cid periplasm_model)
                  table contribs
    | Raise e =>
        e = KeyError /\
        exists esn p, In ((id (periplasm self), esn), p) table /\
          id (periplasm self) <> bulk_cid /\
          dict_get (membrane_eic (periplasm self)) esn = None
    end.
Proof.
  induction table as [|[[cid esn] p] table IH]; intros ic.
  - exists []. simpl. rewrite app_nil_r. split; [reflexivity|constructor].
  - cbn [rfold]. unfold top_bulk_ic_step at 1.
    assert (Skip :
              cid = bulk_cid \/ cid <> id (periplasm self) ->
              match rfold (top_bulk_ic_step self bulk_model bulk_cid periplasm_model)
                          table ic with
              | Ok ic' =>
                  exists contribs,
                    ic' = ic ++ concat contribs /\
                    Forall2 (bulk_entry_edges self bulk_model bulk_cid periplasm_model)
                            (((cid, esn), p) :: table) contribs
              | Raise e =>
                  e = KeyError /\
                  exists esn0 p0,
                    In ((id (periplasm self), esn0), p0) (((cid, esn), p) :: table) /\
                    id (periplasm self) <> bulk_cid /\
                    dict_get (membrane_eic (periplasm self)) esn0 = None
              end).
    { intros Hs. specialize (IH ic). destruct (rfold _ table ic).
      - destruct IH as (cs & E & F). exists ([] :: cs). split; [exact E|].
        constructor; [|exact F]. split; [|reflexivity].
        intros Ep Nb. destruct Hs as [Hs|Hs]; contradiction.
      - destruct IH as (-> & e0 & p0 & I & N & G). split; [reflexivity|].
        exists e0, p0. split; [now right|]. now split. }
    destruct (py_eqb cid bulk_cid) eqn:Eb.
    { apply py_eqb_eq in Eb. cbn [rbind]. apply Skip. now left. }
    apply py_eqb_neq in Eb.
    destruct (py_eqb cid (id (periplasm self))) eqn:Ep.
    2:{ apply py_eqb_neq in Ep. cbn [rbind]. apply Skip. now right. }
    apply py_eqb_eq in Ep. subst cid. unfold dict_getitem.
    destruct (dict_get (membrane_eic (periplasm self)) esn) as [q|] eqn:G; cbn [rbind].
    + specialize (IH (ic ++ [port_edge bulk_model p periplasm_model q])).
      destruct (rfold _ table _).
      * destruct IH as (cs & -> & F).
        exists ([port_edge bulk_model p periplasm_model q] :: cs). split.
        -- cbn [concat]. now rewrite <- app_assoc.
        -- constructor; [|exact F]. split.
           ++ intros _ _. now exists q.
           ++ intros [C|C]; [contradiction|now contradiction C].
      * destruct IH as (-> & e0 & p0 & I & N & G0). split; [reflexivity|].
        exists e0, p0. split; [now right|]. now split.
    + split; [reflexivity|]. exists esn, p. split; [now left|]. now split.
Qed.

(** Whatever the table, the loop only appends numbered-port edges, and
    it raises only [KeyError], on a periplasm entry whose reaction set
    has no membrane input port. *)
Lemma top_bulk_ic_loop_result (self : ModelGenerator) (bulk_model bulk_cid : string)
      (periplasm_model : string) (table : dict (string * string) Z) :
  forall ic,
    match rfold (top_bulk_ic_step self bulk_model bulk_cid periplasm_model) table ic with
    | Ok ic' =>
        exists rest, ic' = ic ++ rest /\
          Forall (fun e => exists p q, e = port_edge bulk_model p periplasm_model q) rest
    | Raise e =>
        e = KeyError /\
        exists esn p, In ((id (periplasm self), esn), p) table /\
          id (periplasm self) <> bulk_cid /\
          dict_get (membrane_eic (periplasm self)) esn = None
    end.
Proof.
  induction table as [|[[cid esn] p] table IH]; intros ic.
  - simpl. exists []. rewrite app_nil_r. split; [reflexivity|constructor].
  - cbn [rfold]. unfold top_bulk_ic_step at 1.
    assert (Keep :
              match rfold (top_bulk_ic_step self bulk_model bulk_cid periplasm_model)
                          table ic with
              | Ok ic' =>
                  exists rest, ic' = ic ++ rest /\
                    Forall (fun e => exists p q,
                                e = port_edge bulk_model p periplasm_model q) rest
              | Raise e =>
                  e = KeyError /\
                  exists esn0 p0,
                    In ((id (periplasm self), esn0), p0) (((cid, esn), p) :: table) /\
                    id (periplasm self) <> bulk_cid /\
                    dict_get (membrane_eic (periplasm self)) esn0 = None
              end).
    { specialize (IH ic). destruct (rfold _ table ic); [exact IH|].
      destruct IH as (-> & e0 & p0 & I & N & G). split; [reflexivity|].
      exists e0, p0. split; [now right|]. now split. }
    destruct (py_eqb cid bulk_cid) eqn:Eb; [exact Keep|].
    apply py_eqb_neq in Eb.
    destruct (py_eqb cid (id (periplasm self))) eqn:Ep; [|exact Keep].
    apply py_eqb_eq in Ep. subst cid. unfold dict_getitem.
    destruct (dict_get (membrane_eic (periplasm self)) esn) as [q|] eqn:G; cbn [rbind].
    + specialize (IH (ic ++ [port_edge bulk_model p periplasm_model q])).
      destruct (rfold _ table _).
      * destruct IH as (rest & -> & F).
        exists (port_edge bulk_model p periplasm_model q :: rest). split.
        -- now rewrite <- app_assoc.
        -- constructor; [now exists p, q|exact F].
      * destruct IH as (-> & e0 & p0 & I & N & G0). split; [reflexivity|].
        exists e0, p0. split; [now right|]. now split.
    + split; [reflexivity|]. exists esn, p. split; [now left|]. now split.
Qed.


(** C8 (amended). [generate_top_bulk_ic] walks the bulk routing table
    in order after the two periplasm output edges. An entry
    ((cid, esn) -> p) whose cid is the periplasm id, the periplasm not
    being the bulk compartment itself, contributes exactly the one edge
    from the bulk model's output port p to the periplasm model's input
    port [membrane_eic[esn]]; an entry whose cid is the bulk compartment's
    own id or any other non-periplasm id contributes no edge. The
    function raises [KeyError], and returns no list, exactly when some
    periplasm entry names a reaction set without membrane input port. *)
Theorem generate_top_bulk_ic_routing (self : ModelGenerator)
        (bulk_model bulk_cid : string) (bulk_routing_table : dict (string * string) Z)
        (periplasm_model : string) :
  exists n : Z,
    (bulk_cid = id (cytoplasm self) /\ n = 1 \/
     bulk_cid <> id (cytoplasm self) /\ n = 2) /\
    match generate_top_bulk_ic self bulk_model bulk_cid bulk_routing_table
                               periplasm_model with
    | Ok ic =>
        (forall esn p, In ((id (periplasm self), esn), p) bulk_routing_table ->
                       id (periplasm self) <> bulk_cid ->
                       In esn (dict_keys (membrane_eic (periplasm self)))) /\
        exists contribs : list (list tuple),
          ic = [VStr periplasm_model; VStr periplasm_model;
                VStr (str n ++ "_product");
                VStr bulk_model; VStr bulk_model; VStr "0_product"]
               :: [VStr periplasm_model; VStr periplasm_model;
                   VStr (str n ++ "_information");
                   VStr bulk_model; VStr bulk_model; VStr "0_information"]
               :: concat contribs /\
          Forall2 (bulk_entry_edges self bulk_model bulk_cid periplasm_model)
                  bulk_routing_table contribs
    | Raise e =>
        e = KeyError /\
        exists esn p,
          In ((id (periplasm self), esn), p) bulk_routing_table /\
          id (periplasm self) <> bulk_cid /\
          dict_get (membrane_eic (periplasm self)) esn = None
    end.
Proof.
  unfold generate_top_bulk_ic.
  set (n := if py_eqb bulk_cid (id (cytoplasm self)) then 1 else 2).
  exists n. split.
  - subst n. destruct (py_eqb bulk_cid (id (cytoplasm self))) eqn:E.
    + left. apply py_eqb_eq in E. now split.
    + right. apply py_eqb_neq in E. now split.
  - cbn [app].
    match goal with
    | |- context [rfold _ _ ?ic0] =>
        pose proof (top_bulk_ic_loop_spec self bulk_model bulk_cid periplasm_model
                      bulk_routing_table ic0) as R
    end.
    destruct (rfold _ bulk_routing_table _) as [ic|e]; [|exact R].
    destruct R as (cs & -> & F). split.
    + intros esn p I N.
      destruct (Forall2_in_left _ _ _ _ F I) as (edges & _ & He).
      destruct He as [He _]. destruct (He eq_refl N) as (q & G & _).
      apply dict_get_some_in in G. unfold dict_keys.
      change esn with (fst (esn, q)). now apply in_map.
    + exists cs. split; [reflexivity|exact F].
Qed.

(** ** More facts about dictionaries *)

Section DictKeysFacts.
Context {K V : Type} `{PyEq K}.

Lemma dict_set_wf (d : dict K V) (k : K) (v : V) :
  wf_dict d -> wf_dict (dict_set d k v).
Proof.
  intros W. unfold wf_dict in *.
  destruct (in_dec py_eq_dec k (dict_keys d)) as [I|N].
  - now rewrite dict_set_keys_in.
  - rewrite dict_set_fresh by assumption. unfold dict_keys in *.
    rewrite map_app. simpl. apply NoDup_app; [exact W|repeat constructor; auto|].
    intros a Ia [<-|[]]. contradiction.
Qed.

Lemma dict_set_app_r (d1 d2 : dict K V) (k : K) (v : V) :
  ~ In k (dict_keys d1) -> dict_set (d1 ++ d2) k v = d1 ++ dict_set d2 k v.
Proof.
  induction d1 as [|[k' v'] d1 IH]; simpl; intros N; [reflexivity|].
  destruct (py_eqb k k') eqn:E.
  - apply py_eqb_eq in E. subst. exfalso. apply N. now left.
  - f_equal. apply IH. intros I. apply N. now right.
Qed.

Lemma dict_update_keys (kvs d : dict K V) (k : K) :
  In k (dict_keys (dict_update d kvs)) <-> In k (dict_keys d) \/ In k (dict_keys kvs).
Proof.
  unfold dict_update. revert d. induction kvs as [|[k0 v0] kvs IH]; intros d; simpl.
  - tauto.
  - rewrite IH, dict_set_keys_incl. intuition (subst; auto).
Qed.

Lemma dict_update_wf (kvs d : dict K V) : wf_dict d -> wf_dict (dict_update d kvs).
Proof.
  unfold dict_update. revert d. induction kvs as [|[k0 v0] kvs IH]; intros d W; simpl.
  - exact W.
  - apply IH. now apply dict_set_wf.
Qed.

Lemma dict_get_getitem (d : dict K V) (k : K) :
  In k (dict_keys d) -> exists v, dict_getitem d k = Ok v /\ dict_get d k = Some v.
Proof.
  intros I. destruct (dict_get_in_keys d k I) as [v G]. exists v.
  unfold dict_getitem. now rewrite G.
Qed.

Lemma dict_get_some_key (d : dict K V) (k : K) (v : V) :
  dict_get d k = Some v -> In k (dict_keys d).
Proof.
  intros G. apply dict_get_some_in in G. unfold dict_keys.
  change k with (fst (k, v)). now apply in_map.
Qed.
End DictKeysFacts.

Lemma rfold_app {A S : Type} (body : S -> A -> result S) (l1 l2 : list A) (s : S) :
  rfold body (l1 ++ l2) s = rbind (rfold body l1 s) (rfold body l2).
Proof.
  revert s. induction l1 as [|a l1 IH]; intros s; simpl; [reflexivity|].
  destruct (body s a); simpl; [apply IH|reflexivity].
Qed.

(** ** The structures built by [ModelStructure.__init__] *)

Lemma ModelStructure_init_fields (cid : string) (the_parser : SBMLParser)
      (membranes : option (list string))
      (external_enzyme_sets : option (dict string (list string)))
      (c : ModelStructure) :
  ModelStructure_init cid the_parser membranes external_enzyme_sets = Ok c ->
  id c = cid /\
  routing_table c
  = fst (external_routing_table
           (or_default external_enzyme_sets [])
           (internal_routing_table cid (BULK :: or_default membranes []),
            dict_len (internal_routing_table cid (BULK :: or_default membranes [])))) /\
  membrane_eic c
  = dict_of_pairs (combine (or_default membranes [])
                           (py_range1 (Z.of_nat (length (or_default membranes []))))) /\
  enzyme_sets c
  = fold_left (fun acc enzyme_set =>
                 dict_set acc enzyme_set (get_enzyme_set the_parser cid enzyme_set))
              (BULK :: or_default membranes []) [].
Proof.
  unfold ModelStructure_init.
  destruct (external_routing_table _ _) as [table port] eqn:Et.
  destruct (dict_getitem (parse_compartments_species the_parser) cid); simpl;
    [|discriminate].
  destruct (dict_comp_getitem _ _ _); simpl; [|discriminate].
  destruct (dict_getitem (interval_times the_parser) cid); simpl; [|discriminate].
  intros [= <-]. simpl. repeat split; reflexivity.
Qed.

Lemma internal_routing_table_keys (cid : string) (l : list string) (k : string * string) :
  In k (dict_keys (internal_routing_table cid l)) <-> In k (map (pair cid) l).
Proof.
  unfold internal_routing_table, dict_of_pairs.
  rewrite dict_update_keys, py_range1_ports. simpl.
  assert (E : forall r : list Z,
             length l = length r ->
             dict_keys (map (fun '(esn, port) => ((cid, esn), port)) (combine l r))
             = map (pair cid) l).
  { induction l as [|a l IH]; intros [|b r] L; simpl in *; try discriminate;
      [reflexivity|].
    f_equal. apply IH. now injection L. }
  rewrite E by (now rewrite ports_length).
  tauto.
Qed.

Lemma internal_routing_table_wf (cid : string) (l : list string) :
  wf_dict (internal_routing_table cid l).
Proof.
  unfold internal_routing_table, dict_of_pairs. apply dict_update_wf. constructor.
Qed.

(** The external loop only appends to the part of the table that
    follows the keys it never assigns. *)
Lemma external_sets_app (external_cid : string) (reaction_sets : list string)
      (t0 : dict (string * string) Z) :
  (forall r, In r reaction_sets -> ~ In (external_cid, r) (dict_keys t0)) ->
  forall (acc : dict (string * string) Z) (n : Z),
  exists acc' n',
    fold_left
      (fun '(table, port_number) reaction_set =>
         (dict_set table (external_cid, reaction_set) port_number, port_number + 1))
      reaction_sets (t0 ++ acc, n)
    = (t0 ++ acc', n') /\
    (forall k, In k (dict_keys acc') <->
               In k (dict_keys acc) \/ In k (map (pair external_cid) reaction_sets)).
Proof.
  induction reaction_sets as [|r rs IH]; intros F acc n; simpl.
  - exists acc, n. split; [reflexivity|]. intros k. tauto.
  - rewrite dict_set_app_r by (apply F; now left).
    destruct (IH (fun r0 I => F r0 (or_intror I)) (dict_set acc (external_cid, r) n)
                 (n + 1)) as (acc' & n' & E & Hk).
    exists acc', n'. split; [exact E|].
    intros k. rewrite Hk, dict_set_keys_incl. intuition auto.
Qed.

Lemma external_routing_table_app (ext : dict string (list string))
      (t0 : dict (string * string) Z) :
  (forall k, In k (external_keys ext) -> ~ In k (dict_keys t0)) ->
  forall (acc : dict (string * string) Z) (n : Z),
  exists acc' n',
    external_routing_table ext (t0 ++ acc, n) = (t0 ++ acc', n') /\
    (forall k, In k (dict_keys acc') <-> In k (dict_keys acc) \/ In k (external_keys ext)).
Proof.
  unfold external_routing_table.
  induction ext as [|[external_cid reaction_sets] ext IH]; intros F acc n; simpl.
  - exists acc, n. split; [reflexivity|]. intros k. tauto.
  - simpl in F.
    destruct (external_sets_app external_cid reaction_sets t0) with (acc := acc) (n := n)
      as (acc1 & n1 & E1 & H1).
    { intros r I. apply F. apply in_or_app. left. now apply in_map. }
    rewrite E1.
    destruct (IH (fun k I => F k (in_or_app _ _ _ (or_intror I))) acc1 n1)
      as (acc' & n' & E & Hk).
    exists acc', n'. split; [exact E|].
    intros k. rewrite Hk, H1, in_app_iff. tauto.
Qed.

(** The routing table of a compartment whose external suppliers are
    other compartments: the internal table, then a part whose keys are
    the external pairs. *)
Lemma ModelStructure_init_routing_split (cid : string) (the_parser : SBMLParser)
      (membranes : option (list string))
      (external_enzyme_sets : option (dict string (list string)))
      (c : ModelStructure) :
  ModelStructure_init cid the_parser membranes external_enzyme_sets = Ok c ->
  (forall supplier reaction_sets,
      In (supplier, reaction_sets) (or_default external_enzyme_sets []) ->
      supplier <> cid) ->
  exists external_part,
    routing_table c
    = internal_routing_table cid (BULK :: or_default membranes []) ++ external_part /\
    (forall k, In k (dict_keys external_part) <->
               In k (external_keys (or_default external_enzyme_sets []))) /\
    (forall k, In k (dict_keys external_part) -> fst k <> cid).
Proof.
  intros E Hs. destruct (ModelStructure_init_fields _ _ _ _ _ E) as (_ & Hr & _).
  set (es := or_default external_enzyme_sets []) in *.
  set (t0 := internal_routing_table cid (BULK :: or_default membranes [])) in *.
  assert (Fk : forall k, In k (external_keys es) -> fst k <> cid).
  { intros k I. unfold external_keys in I. apply in_flat_map in I.
    destruct I as ([s l] & Is & Ik). apply in_map_iff in Ik.
    destruct Ik as (r & <- & _). simpl. now apply (Hs s l). }
  destruct (external_routing_table_app es t0) with (acc := @nil (string * string * Z))
                                                   (n := dict_len t0)
    as (acc' & n' & Ea & Hk).
  { intros k I J. apply internal_routing_table_keys in J.
    apply in_map_iff in J. destruct J as (esn & <- & _).
    now apply (Fk _ I). }
  rewrite app_nil_r in Ea.
  assert (Hr' : routing_table c = t0 ++ acc') by (rewrite Hr; exact (f_equal fst Ea)).
  exists acc'. split; [exact Hr'|]. split.
  - intros k. rewrite Hk. simpl. tauto.
  - intros k I. apply Fk. apply Hk in I. simpl in I. tauto.
Qed.

Lemma ModelStructure_init_enzyme_sets_keys (cid : string) (the_parser : SBMLParser)
      (l : list string) :
  forall acc : dict string (dict string Obj),
    wf_dict acc ->
    wf_dict (fold_left (fun acc enzyme_set =>
                          dict_set acc enzyme_set (get_enzyme_set the_parser cid enzyme_set))
                       l acc) /\
    forall esn,
      In esn (dict_keys (fold_left
                           (fun acc enzyme_set =>
                              dict_set acc enzyme_set
                                       (get_enzyme_set the_parser cid enzyme_set))
                           l acc))
      <-> In esn (dict_keys acc) \/ In esn l.
Proof.
  induction l as [|a l IH]; intros acc W; simpl.
  - split; [exact W|]. intros esn. tauto.
  - destruct (IH (dict_set acc a (get_enzyme_set the_parser cid a))
                 (dict_set_wf _ _ _ W)) as [W' Hk].
    split; [exact W'|]. intros esn. rewrite Hk, dict_set_keys_incl.
    intuition auto.
Qed.

Lemma ModelStructure_init_membrane_eic_keys (ms : list string) (m : string) :
  In m (dict_keys (dict_of_pairs (combine ms (py_range1 (Z.of_nat (length ms))))))
  <-> In m ms.
Proof.
  unfold dict_of_pairs. rewrite dict_update_keys, py_range1_ports. simpl.
  unfold dict_keys. rewrite map_fst_combine by (now rewrite ports_length). tauto.
Qed.

(** ** Running [generate_enzyme_sets] and the compartment generators *)

Lemma NoDup_map_pair {A B : Type} (a : A) (l : list B) :
  NoDup l -> NoDup (map (pair a) l).
Proof.
  induction 1 as [|b l N _ IH]; simpl; constructor; [|exact IH].
  intros I. apply in_map_iff in I. destruct I as (b' & [= ->] & I). contradiction.
Qed.

(** A run of the comprehension that returns has written enzyme sets
    only, one per reaction set, and its keys are the reaction sets. *)
Lemma generate_enzyme_sets_fold_returned (self : ModelGenerator) (cid : string) :
  forall (items : dict string (dict string Obj))
         (acc es : dict (string * string) ModelInfo) (w w' : World),
    foldM (generate_enzyme_sets_step self cid) items acc w = (Ok es, w') ->
    exists calls,
      cw_calls w' = cw_calls w ++ calls /\
      Forall is_enzyme_set_call calls /\
      (forall k, In k (dict_keys es) <->
                 In k (dict_keys acc) \/ In k (map (pair cid) (dict_keys items))) /\
      (NoDup (dict_keys acc ++ map (pair cid) (dict_keys items)) ->
       dict_keys es = dict_keys acc ++ map (pair cid) (dict_keys items)).
Proof.
  induction items as [|[esn enzyme_set] items IH]; intros acc es w w' E.
  - simpl in E. unfold ret in E. injection E as <- <-.
    exists []. simpl. rewrite !app_nil_r. repeat split; auto; tauto.
  - cbn [foldM] in E. unfold generate_enzyme_sets_step at 1 in E.
    destruct (chunks enzyme_set (groups_size self)) as [groups|e] eqn:Eg.
    + destruct (generate_enzyme_set_run self cid esn enzyme_set w groups Eg)
        as (w1 & R & C1).
      erewrite bind_ok in E; [|erewrite bind_ok by exact R; reflexivity].
      destruct (IH _ _ _ _ E) as (calls & C & F & Hk & Hn).
      exists (WriteEnzymeSet cid esn (map dict_keys groups) :: calls).
      split; [|split; [|split]].
      * rewrite C, C1, <- app_assoc. reflexivity.
      * constructor; [exact I|exact F].
      * intros k. rewrite Hk, dict_set_keys_incl. simpl. intuition (subst; auto).
      * intros N. simpl in N.
        assert (Fr : ~ In (cid, esn) (dict_keys acc)).
        { apply NoDup_remove_2 in N. intros J. apply N. apply in_or_app. now left. }
        rewrite Hn.
        -- rewrite dict_set_fresh by exact Fr. unfold dict_keys. rewrite map_app.
           simpl. now rewrite <- app_assoc.
        -- rewrite dict_set_fresh by exact Fr. unfold dict_keys in *.
           rewrite map_app, <- app_assoc. exact N.
    + exfalso. unfold generate_enzyme_set in E. rewrite Eg in E.
      erewrite bind_raise in E; [discriminate E|].
      erewrite bind_raise; [reflexivity|].
      erewrite bind_raise; reflexivity.
Qed.

(** With a group size that [range] and [islice] accept, every reaction
    set is generated. *)
Lemma generate_enzyme_sets_fold_ok (self : ModelGenerator) (cid : string) :
  groups_size self <> 0 -> groups_size self <= sys_maxsize ->
  forall (items : dict string (dict string Obj))
         (acc : dict (string * string) ModelInfo) (w : World),
  exists es w', foldM (generate_enzyme_sets_step self cid) items acc w = (Ok es, w').
Proof.
  intros NZ HM. induction items as [|[esn enzyme_set] items IH]; intros acc w.
  - now exists acc, w.
  - cbn [foldM]. unfold generate_enzyme_sets_step at 1.
    destruct (chunks_ok enzyme_set (groups_size self) NZ HM) as [groups Eg].
    destruct (generate_enzyme_set_run self cid esn enzyme_set w groups Eg)
      as (w1 & R & C1).
    erewrite bind_ok; [|erewrite bind_ok by exact R; reflexivity].
    apply IH.
Qed.

Lemma generate_enzyme_sets_returned (self : ModelGenerator) (c : ModelStructure)
      (w w1 : World) (es : dict (string * string) ModelInfo) :
  generate_enzyme_sets self c w = (Ok es, w1) ->
  exists calls,
    cw_calls w1 = cw_calls w ++ calls /\
    Forall is_enzyme_set_call calls /\
    (forall k, In k (dict_keys es) <->
               In k (map (pair (id c)) (dict_keys (enzyme_sets c)))) /\
    (wf_dict (enzyme_sets c) ->
     dict_keys es = map (pair (id c)) (dict_keys (enzyme_sets c))).
Proof.
  intros E. unfold generate_enzyme_sets in E.
  destruct (generate_enzyme_sets_fold_returned self (id c) _ _ _ _ _ E)
    as (calls & C & F & Hk & Hn).
  exists calls. repeat split; auto.
  - intros I. apply Hk in I. simpl in I. tauto.
  - intros I. apply Hk. now right.
  - intros W. apply Hn. simpl. apply NoDup_map_pair. exact W.
Qed.

Lemma generate_enzyme_sets_run (self : ModelGenerator) (c : ModelStructure) (w : World) :
  groups_size self <> 0 -> groups_size self <= sys_maxsize ->
  exists es w' calls,
    generate_enzyme_sets self c w = (Ok es, w') /\
    cw_calls w' = cw_calls w ++ calls /\
    Forall is_enzyme_set_call calls /\
    (forall k, In k (dict_keys es) <->
               In k (map (pair (id c)) (dict_keys (enzyme_sets c)))) /\
    (wf_dict (enzyme_sets c) ->
     dict_keys es = map (pair (id c)) (dict_keys (enzyme_sets c))).
Proof.
  intros NZ HM.
  destruct (generate_enzyme_sets_fold_ok self (id c) NZ HM (enzyme_sets c) [] w)
    as (es & w' & E).
  destruct (generate_enzyme_sets_returned self c w w' es E) as (calls & C & F & Hk & Hn).
  exists es, w', calls. repeat split; auto; apply Hk.
Qed.

(** With a zero [groups_size] the first enzyme set already raises. *)
Lemma generate_enzyme_sets_nonzero (self : ModelGenerator) (c : ModelStructure)
      (w w1 : World) (es : dict (string * string) ModelInfo) :
  generate_enzyme_sets self c w = (Ok es, w1) ->
  enzyme_sets c <> [] ->
  groups_size self <> 0.
Proof.
  intros E Hne Z0. unfold generate_enzyme_sets in E.
  destruct (enzyme_sets c) as [|[esn0 s0] rest]; [contradiction|].
  cbn [foldM] in E. unfold generate_enzyme_sets_step at 1 in E.
  unfold generate_enzyme_set, chunks, py_range in E. rewrite Z0 in E.
  discriminate E.
Qed.

(** However it ends, the run of [generate_enzyme_sets] only writes
    enzyme sets. *)
Lemma generate_enzyme_sets_calls (self : ModelGenerator) (cid : string) :
  forall (items : dict string (dict string Obj))
         (acc : dict (string * string) ModelInfo) (w : World),
  exists calls,
    cw_calls (snd (foldM (generate_enzyme_sets_step self cid) items acc w))
    = cw_calls w ++ calls /\
    Forall is_enzyme_set_call calls.
Proof.
  induction items as [|[esn enzyme_set] items IH]; intros acc w.
  - exists []. simpl. now rewrite app_nil_r.
  - cbn [foldM]. unfold generate_enzyme_sets_step at 1.
    unfold generate_enzyme_set.
    destruct (chunks enzyme_set (groups_size self)) as [groups|e] eqn:Eg.
    + destruct (generate_enzyme_set_run self cid esn enzyme_set w groups Eg)
        as (w1 & R & C1).
      unfold generate_enzyme_set in R. rewrite Eg in R.
      erewrite bind_ok; [|erewrite bind_ok by exact R; reflexivity].
      match goal with
      | |- context [foldM _ items ?a ?w0] => destruct (IH a w0) as (calls & C & F)
      end.
      exists (WriteEnzymeSet cid esn (map dict_keys groups) :: calls).
      split; [|constructor; [exact I|exact F]].
      rewrite C, C1, <- app_assoc. reflexivity.
    + exists []. rewrite app_nil_r. split; [|constructor].
      erewrite bind_raise; [reflexivity|].
      erewrite bind_raise; [reflexivity|].
      erewrite bind_raise; reflexivity.
Qed.

Lemma external_routing_table_keys (ext : dict string (list string)) :
  forall (table : dict (string * string) Z) (n : Z) (k : string * string),
    In k (dict_keys (fst (external_routing_table ext (table, n))))
    <-> In k (dict_keys table) \/ In k (external_keys ext).
Proof.
  unfold external_routing_table.
  induction ext as [|[external_cid reaction_sets] ext IH]; intros table n k; simpl.
  - tauto.
  - assert (Inner : forall (rs : list string) (t : dict (string * string) Z) (m : Z),
               exists t' m',
                 fold_left
                   (fun '(table, port_number) reaction_set =>
                      (dict_set table (external_cid, reaction_set) port_number,
                       port_number + 1))
                   rs (t, m) = (t', m') /\
                 forall k, In k (dict_keys t') <->
                           In k (dict_keys t) \/ In k (map (pair external_cid) rs)).
    { induction rs as [|r rs IHr]; intros t m; simpl.
      - exists t, m. split; [reflexivity|]. intros; tauto.
      - destruct (IHr (dict_set t (external_cid, r) m) (m + 1)) as (t' & m' & E & Hk).
        exists t', m'. split; [exact E|]. intros k0.
        rewrite Hk, dict_set_keys_incl. intuition (subst; auto). }
    destruct (Inner reaction_sets table n) as (t' & m' & E & Hk).
    rewrite E, IH, Hk, in_app_iff. tauto.
Qed.

Lemma ModelStructure_init_bulk_key (cid : string) (the_parser : SBMLParser)
      (membranes : option (list string))
      (external_enzyme_sets : option (dict string (list string)))
      (c : ModelStructure) :
  ModelStructure_init cid the_parser membranes external_enzyme_sets = Ok c ->
  id c = cid /\
  In (cid, BULK) (dict_keys (routing_table c)) /\
  wf_dict (enzyme_sets c) /\
  (forall esn, In esn (dict_keys (enzyme_sets c))
               <-> In esn (BULK :: or_default membranes [])) /\
  (forall m, In m (dict_keys (membrane_eic c)) <-> In m (or_default membranes [])).
Proof.
  intros E. destruct (ModelStructure_init_fields _ _ _ _ _ E) as (Hi & Hr & Hm & He).
  split; [exact Hi|]. split; [|split; [|split]].
  - rewrite Hr. apply external_routing_table_keys. left.
    apply internal_routing_table_keys. now left.
  - rewrite He. apply ModelStructure_init_enzyme_sets_keys. constructor.
  - intros esn. rewrite He.
    destruct (ModelStructure_init_enzyme_sets_keys
                cid the_parser (BULK :: or_default membranes []) []) as [_ Hk].
    { constructor. }
    rewrite Hk. simpl. tauto.
  - intros m. rewrite Hm. apply ModelStructure_init_membrane_eic_keys.
Qed.

Lemma py_max_ok (xs : list Z) : xs <> [] -> exists m, py_max xs = Ok m.
Proof. destruct xs as [|x xs]; [contradiction|]. intros _. now eexists. Qed.

(** *** [generate_bulk_compartment] *)

Lemma generate_bulk_compartment_fails (self : ModelGenerator) (c : ModelStructure)
      (w w1 : World) (es : dict (string * string) ModelInfo) :
  generate_enzyme_sets self c w = (Ok es, w1) ->
  dict_len es <> 1 ->
  generate_bulk_compartment self c w = (Raise AssertionError, w1).
Proof.
  intros E N. unfold generate_bulk_compartment.
  erewrite bind_ok by exact E.
  apply Z.eqb_neq in N. rewrite N. reflexivity.
Qed.

Lemma generate_bulk_compartment_run (self : ModelGenerator) (c : ModelStructure)
      (w w1 : World) (es : dict (string * string) ModelInfo)
      (bulk : string) (x : Obj) (n max_port bulk_port_number : Z) :
  generate_enzyme_sets self c w = (Ok es, w1) ->
  dict_len es = 1 ->
  dict_get es (id c, BULK) = Some (bulk, x, n) ->
  py_max (dict_values (routing_table c)) = Ok max_port ->
  dict_get (routing_table c) (id c, BULK) = Some bulk_port_number ->
  exists space_call space ports eic eoc ic,
    space_call = WriteSpaceAtomic (id c) [id c] (max_port + 1) 1
                                  PRODUCT_MESSAGE_TYPE REACTANT_MESSAGE_TYPE
                                  INFORMATION_MESSAGE_TYPE /\
    space = coder_space (cw_calls w1) space_call /\
    ic = ic_edges space bulk bulk_port_number /\
    generate_bulk_compartment self c w
    = (Ok (coder_coupled (cw_calls w1 ++ [space_call])
                         (WriteCoupled (id c) [space; bulk] ports eic eoc ic)),
       {| pw_calls := pw_calls w1 ++ [AddSpace (id c) (space_parameters c)
                                               (routing_table c)];
          cw_calls := (cw_calls w1 ++ [space_call])
                        ++ [WriteCoupled (id c) [space; bulk] ports eic eoc ic] |}).
Proof.
  intros E L Gb Mx Gp. unfold generate_bulk_compartment.
  erewrite bind_ok by exact E.
  apply Z.eqb_eq in L. rewrite L.
  erewrite bind_ok by reflexivity.
  unfold dict_getitem. rewrite Gb, Gp, Mx.
  do 5 run_bind.
  destruct (bulk_eoc _ _ _) as [out_ports eoc] eqn:Eo.
  do 6 eexists. split; [reflexivity|]. split; [reflexivity|]. split; [reflexivity|].
  unfold write_coupled_model, cw_record. cbn [cw_calls pw_calls].
  reflexivity.
Qed.

(** For a compartment built by [__init__] the lookups that follow the
    assertion succeed. *)
Lemma generate_bulk_compartment_passes
      (self : ModelGenerator) (cid : string) (the_parser : SBMLParser)
      (membranes : option (list string))
      (external_enzyme_sets : option (dict string (list string)))
      (c : ModelStructure) (w w1 : World)
      (es : dict (string * string) ModelInfo) :
  ModelStructure_init cid the_parser membranes external_enzyme_sets = Ok c ->
  generate_enzyme_sets self c w = (Ok es, w1) ->
  dict_len es = 1 ->
  exists space_call sub_models ports eic eoc ic w',
    generate_bulk_compartment self c w
    = (Ok (coder_coupled (cw_calls w1 ++ [space_call])
                         (WriteCoupled (id c) sub_models ports eic eoc ic)), w') /\
    cw_calls w'
    = cw_calls w1 ++ [space_call; WriteCoupled (id c) sub_models ports eic eoc ic].
Proof.
  intros Ei Ee L.
  destruct (ModelStructure_init_bulk_key _ _ _ _ _ Ei) as (Hid & Hb & Hw & Hk & _).
  assert (Ib : In (id c, BULK) (dict_keys es)).
  { destruct (generate_enzyme_sets_returned self c w w1 es Ee) as (_ & _ & _ & Hk' & _).
    apply Hk'. apply in_map. apply Hk. now left. }
  destruct (dict_get_in_keys es _ Ib) as [[[bulk x] n] Gb].
  rewrite <- Hid in Hb.
  destruct (dict_get_in_keys (routing_table c) _ Hb) as [bp Gp].
  destruct (py_max_ok (dict_values (routing_table c))) as [mx Mx].
  { intros En. apply dict_get_some_in in Gp. unfold dict_values in En.
    apply map_eq_nil in En. rewrite En in Gp. contradiction. }
  destruct (generate_bulk_compartment_run self c w w1 es bulk x n mx bp
              Ee L Gb Mx Gp) as (sc & sp & ports & eic & eoc & ic & _ & _ & _ & R).
  exists sc, [sp; bulk], ports, eic, eoc, ic. eexists. split; [exact R|].
  cbn [cw_calls]. now rewrite <- app_assoc.
Qed.

(** C4. For a compartment built by [ModelStructure.__init__],
    [generate_bulk_compartment] asserts that the generated enzyme-sets
    mapping has exactly one entry: with one entry the assertion passes
    and the coupled-model descriptor of the compartment is written and
    returned; with any other number of entries the function raises
    [AssertionError] right after the enzyme sets were generated, and no
    coupled model has been written. *)
Theorem generate_bulk_compartment_asserts_one_set
        (self : ModelGenerator) (cid : string) (the_parser : SBMLParser)
        (membranes : option (list string))
        (external_enzyme_sets : option (dict string (list string)))
        (c : ModelStructure) (w w1 : World)
        (es : dict (string * string) ModelInfo) :
  ModelStructure_init cid the_parser membranes external_enzyme_sets = Ok c ->
  generate_enzyme_sets self c w = (Ok es, w1) ->
  (dict_len es = 1 ->
   exists space_call sub_models ports eic eoc ic w',
     generate_bulk_compartment self c w
     = (Ok (coder_coupled (cw_calls w1 ++ [space_call])
                          (WriteCoupled (id c) sub_models ports eic eoc ic)), w') /\
     cw_calls w'
     = cw_calls w1 ++ [space_call; WriteCoupled (id c) sub_models ports eic eoc ic]) /\
  (dict_len es <> 1 ->
   generate_bulk_compartment self c w = (Raise AssertionError, w1) /\
   exists calls, cw_calls w1 = cw_calls w ++ calls /\ Forall is_enzyme_set_call calls).
Proof.
  intros Ei Ee. split.
  - intros L.
    exact (generate_bulk_compartment_passes self cid the_parser membranes
             external_enzyme_sets c w w1 es Ei Ee L).
  - intros N. split.
    + now apply generate_bulk_compartment_fails with (es := es).
    + destruct (generate_enzyme_sets_calls self (id c) (enzyme_sets c) [] w)
        as (calls & C & F).
      unfold generate_enzyme_sets in Ee. rewrite Ee in C. cbn [snd] in C.
      exists calls. split; [exact C|exact F].
Qed.

(** *** [generate_organelle_compartment] *)

Lemma generate_organelle_compartment_run (self : ModelGenerator) (c : ModelStructure)
      (w w1 : World) (es : dict (string * string) ModelInfo) :
  generate_enzyme_sets self c w = (Ok es, w1) ->
  exists space_call space w2,
    space_call = WriteSpaceAtomic (id c) [id c] (dict_len es) 1
                                  PRODUCT_MESSAGE_TYPE REACTANT_MESSAGE_TYPE
                                  INFORMATION_MESSAGE_TYPE /\
    space = coder_space (cw_calls w1) space_call /\
    w2 = {| pw_calls := pw_calls w1 ++ [AddSpace (id c) (space_parameters c)
                                                 (routing_table c)];
            cw_calls := cw_calls w1 ++ [space_call] |} /\
    generate_organelle_compartment self c w
    = match organelle_ic c space es with
      | Raise e => (Raise e, w2)
      | Ok ic =>
          match organelle_eic c es with
          | Raise e => (Raise e, w2)
          | Ok (in_ports, eic) =>
              let call :=
                WriteCoupled
                  (id c)
                  (space :: map (fun '(es_model_name, _, _) => es_model_name)
                                (dict_values es))
                  (snd (fst (organelle_eoc (dict_values es))) ++ in_ports)
                  eic
                  (snd (organelle_eoc (dict_values es)))
                  ic in
              (Ok (coder_coupled (cw_calls w2) call),
               {| pw_calls := pw_calls w2; cw_calls := cw_calls w2 ++ [call] |})
          end
      end.
Proof.
  intros E. do 3 eexists. split; [reflexivity|]. split; [reflexivity|].
  split; [reflexivity|].
  unfold generate_organelle_compartment.
  erewrite bind_ok by exact E. do 2 run_bind.
  cbn [cw_calls pw_calls].
  destruct (organelle_ic c _ es) as [ic|e] eqn:Ei.
  - run_bind.
    destruct (organelle_eoc (dict_values es)) as [[opn out_ports] eoc].
    destruct (organelle_eic c es) as [[in_ports eic]|e] eqn:Ee.
    + run_bind. reflexivity.
    + erewrite bind_raise by reflexivity. reflexivity.
  - erewrite bind_raise by reflexivity. reflexivity.
Qed.

Lemma organelle_ic_internal (c : ModelStructure) (space : string)
      (es : dict (string * string) ModelInfo) (table : dict (string * string) Z) :
  (forall k p, In (k, p) table -> fst k = id c /\ In k (dict_keys es)) ->
  forall ic, exists contribs,
    rfold (organelle_ic_step c space es) table ic = Ok (ic ++ concat contribs) /\
    Forall2 (organelle_entry_edges space es) table contribs.
Proof.
  unfold organelle_entry_edges.
  induction table as [|[k p] table IH]; intros Hk ic.
  - exists []. simpl. rewrite app_nil_r. split; [reflexivity|constructor].
  - destruct (Hk k p (or_introl eq_refl)) as [Eo Ik].
    destruct (dict_get_in_keys es k Ik) as [[[name x] n] G].
    cbn [rfold]. unfold organelle_ic_step at 1.
    rewrite Eo, py_eqb_refl. cbn [negb]. unfold dict_getitem. rewrite G. cbn [rbind].
    destruct (IH (fun k0 p0 I => Hk k0 p0 (or_intror I))
                 (ic ++ ic_edges space name p)) as (cs & E & F).
    exists (ic_edges space name p :: cs). split.
    + rewrite E. cbn [concat]. now rewrite <- app_assoc.
    + constructor; [|exact F]. now exists name, x, n.
Qed.

(** The loop never raises [AssertionError] on a table whose keys all
    carry the compartment's own id. *)
Lemma organelle_ic_own_keys (c : ModelStructure) (space : string)
      (es : dict (string * string) ModelInfo) (table : dict (string * string) Z) :
  (forall k p, In (k, p) table -> fst k = id c) ->
  forall ic, rfold (organelle_ic_step c space es) table ic <> Raise AssertionError.
Proof.
  induction table as [|[k p] table IH]; intros Hk ic; [discriminate|].
  cbn [rfold]. unfold organelle_ic_step at 1.
  rewrite (Hk k p (or_introl eq_refl)), py_eqb_refl. cbn [negb].
  unfold dict_getitem. destruct (dict_get es k) as [[[name x] n]|]; cbn [rbind].
  - apply IH. intros k0 p0 I. apply (Hk k0 p0). now right.
  - discriminate.
Qed.

Lemma organelle_eic_ok (c : ModelStructure) (es : dict (string * string) ModelInfo)
      (table : dict string Z) :
  (forall m p, In (m, p) table -> In (id c, m) (dict_keys es)) ->
  forall st, exists r, rfold (organelle_eic_step c es) table st = Ok r.
Proof.
  induction table as [|[m p] table IH]; intros Hk [in_ports eic].
  - now eexists.
  - destruct (dict_get_in_keys es _ (Hk m p (or_introl eq_refl))) as [[[name x] n] G].
    cbn [rfold]. unfold organelle_eic_step at 1. unfold dict_getitem. rewrite G.
    cbn [rbind]. apply IH. intros m0 p0 I. apply (Hk m0 p0). now right.
Qed.

(** The input port declarations all start with a port number. *)
Lemma organelle_eic_in_ports (c : ModelStructure) (es : dict (string * string) ModelInfo)
      (table : dict string Z) :
  forall st r,
    rfold (organelle_eic_step c es) table st = Ok r ->
    Forall (fun t => exists p rest, t = VInt p :: rest) (fst st) ->
    Forall (fun t => exists p rest, t = VInt p :: rest) (fst r).
Proof.
  induction table as [|[m p] table IH]; intros [in_ports eic] r E F.
  - simpl in E. injection E as <-. exact F.
  - cbn [rfold] in E. unfold organelle_eic_step at 1 in E.
    destruct (dict_getitem es (id c, m)) as [[[name x] n]|e]; cbn [rbind] in E;
      [|discriminate].
    apply (IH _ _ E). cbn [fst] in *. apply Forall_app. split; [exact F|].
    constructor; [|constructor]. now eexists _, _.
Qed.

Lemma is_enzyme_set_call_not_coupled (calls : list cw_call) :
  Forall is_enzyme_set_call calls -> Forall (fun call => ~ is_coupled_call call) calls.
Proof.
  apply Forall_impl. intros [cid esn g|cid cids o i p r f|n s p e o i]; simpl; tauto.
Qed.

(** The loop stops at the first entry that does not address a generated
    reaction set: with [AssertionError] when the entry carries another
    compartment's id, with [KeyError] when it carries the own id. *)
Lemma organelle_ic_foreign (c : ModelStructure) (space : string)
      (es : dict (string * string) ModelInfo)
      (pre post : dict (string * string) Z) (k : string * string) (p : Z) :
  (forall k0 p0, In (k0, p0) pre -> fst k0 = id c /\ In k0 (dict_keys es)) ->
  fst k <> id c ->
  rfold (organelle_ic_step c space es) (pre ++ (k, p) :: post) [] = Raise AssertionError.
Proof.
  intros Hpre N.
  destruct (organelle_ic_internal c space es pre Hpre []) as (cs & E & _).
  rewrite rfold_app, E. cbn [rbind rfold]. unfold organelle_ic_step at 1.
  apply py_eqb_neq in N. now rewrite N.
Qed.

Lemma organelle_ic_missing (c : ModelStructure) (space : string)
      (es : dict (string * string) ModelInfo)
      (pre post : dict (string * string) Z) (k : string * string) (p : Z) :
  (forall k0 p0, In (k0, p0) pre -> fst k0 = id c /\ In k0 (dict_keys es)) ->
  fst k = id c -> ~ In k (dict_keys es) ->
  rfold (organelle_ic_step c space es) (pre ++ (k, p) :: post) [] = Raise KeyError.
Proof.
  intros Hpre Own N.
  destruct (organelle_ic_internal c space es pre Hpre []) as (cs & E & _).
  rewrite rfold_app, E. cbn [rbind rfold]. unfold organelle_ic_step at 1.
  rewrite Own, py_eqb_refl. cbn [negb]. unfold dict_getitem.
  now rewrite (dict_get_not_in es k N).
Qed.

(** The keys of the generated mapping are the compartment's reaction
    sets under the compartment's id. *)
Lemma generated_key (self : ModelGenerator) (c : ModelStructure) (w w1 : World)
      (es : dict (string * string) ModelInfo) (k : string * string) :
  generate_enzyme_sets self c w = (Ok es, w1) ->
  In k (dict_keys es) <-> fst k = id c /\ In (snd k) (dict_keys (enzyme_sets c)).
Proof.
  intros Ee.
  destruct (generate_enzyme_sets_returned self c w w1 es Ee) as (_ & _ & _ & Hk & _).
  rewrite Hk, in_map_iff. destruct k as [k1 k2]. cbn [fst snd]. split.
  - intros (esn & [= <- <-] & I). now split.
  - intros [-> I]. now exists k2.
Qed.

(** A compartment built by [__init__] whose routing table addresses its
    own reaction sets only is generated. *)
Lemma generate_organelle_compartment_returns
      (self : ModelGenerator) (cid : string) (the_parser : SBMLParser)
      (membranes : option (list string))
      (external_enzyme_sets : option (dict string (list string)))
      (c : ModelStructure) (w w1 : World) (es : dict (string * string) ModelInfo) :
  ModelStructure_init cid the_parser membranes external_enzyme_sets = Ok c ->
  generate_enzyme_sets self c w = (Ok es, w1) ->
  (forall k p, In (k, p) (routing_table c) ->
               fst k = id c /\ In (snd k) (dict_keys (enzyme_sets c))) ->
  exists space_call space w2 sub_models ports eic eoc contribs,
    space_call = WriteSpaceAtomic (id c) [id c] (dict_len es) 1
                                  PRODUCT_MESSAGE_TYPE REACTANT_MESSAGE_TYPE
                                  INFORMATION_MESSAGE_TYPE /\
    space = coder_space (cw_calls w1) space_call /\
    w2 = {| pw_calls := pw_calls w1 ++ [AddSpace (id c) (space_parameters c)
                                                 (routing_table c)];
            cw_calls := cw_calls w1 ++ [space_call] |} /\
    generate_organelle_compartment self c w
    = (Ok (coder_coupled (cw_calls w2)
                         (WriteCoupled (id c) sub_models ports eic eoc
                                       (concat contribs))),
       {| pw_calls := pw_calls w2;
          cw_calls := cw_calls w2
                        ++ [WriteCoupled (id c) sub_models ports eic eoc
                                         (concat contribs)] |}) /\
    Forall2 (organelle_entry_edges space es) (routing_table c) contribs.
Proof.
  intros Ei Ee Good.
  destruct (ModelStructure_init_bulk_key _ _ _ _ _ Ei) as (Hid & _ & Hw & Hk & Hm).
  destruct (generate_organelle_compartment_run self c w w1 es Ee)
    as (space_call & space & w2 & Esc & Esp & Ew2 & R).
  assert (Hint : forall k p, In (k, p) (routing_table c) ->
                             fst k = id c /\ In k (dict_keys es)).
  { intros k p I. destruct (Good k p I) as [Eo Ik]. split; [exact Eo|].
    apply (generated_key self c w w1 es k Ee). now split. }
  destruct (organelle_ic_internal c space es (routing_table c) Hint [])
    as (cs & Eic & Fic).
  cbn [app] in Eic.
  destruct (organelle_eic_ok c es (membrane_eic c)) with (st := (@nil tuple, @nil tuple))
    as [[in_ports eic] Eeic].
  { intros m p I. apply (generated_key self c w w1 es (id c, m) Ee). split; [reflexivity|].
    cbn [snd]. apply Hk. right. apply Hm.
    unfold dict_keys. change m with (fst (m, p)). now apply in_map. }
  unfold organelle_ic in R. rewrite Eic in R.
  unfold organelle_eic in R. rewrite Eeic in R. cbv zeta in R.
  exists space_call, space, w2. do 4 eexists. exists cs.
  split; [exact Esc|]. split; [exact Esp|]. split; [exact Ew2|].
  split; [exact R|exact Fic].
Qed.

(** C5 (amended). Let the compartment be built by [ModelStructure.__init__]
    and let its enzyme sets have been generated. The run then registers
    and writes the space and walks the routing table in order. At the
    first entry that does not address one of the compartment's reaction
    sets under the compartment's own id it stops, and no coupled model is
    written: with [AssertionError] when the entry carries another
    compartment's id, with [KeyError] when it carries the own id and a
    reaction set the compartment does not hold. When every key carries
    the own id, [AssertionError] is never raised. When every entry
    addresses one of the compartment's reaction sets under the own id,
    the function returns, and the internal coupling it hands to the code
    writer consists, for every routing-table entry in order, of the three
    edges between the space and the model of the addressed reaction
    set. *)
Theorem generate_organelle_compartment_asserts_own_sets
        (self : ModelGenerator) (cid : string) (the_parser : SBMLParser)
        (membranes : option (list string))
        (external_enzyme_sets : option (dict string (list string)))
        (c : ModelStructure) (w w1 : World)
        (es : dict (string * string) ModelInfo) :
  ModelStructure_init cid the_parser membranes external_enzyme_sets = Ok c ->
  generate_enzyme_sets self c w = (Ok es, w1) ->
  let space_call :=
    WriteSpaceAtomic (id c) [id c] (dict_len es) 1
                     PRODUCT_MESSAGE_TYPE REACTANT_MESSAGE_TYPE
                     INFORMATION_MESSAGE_TYPE in
  let space := coder_space (cw_calls w1) space_call in
  let w2 :=
    {| pw_calls := pw_calls w1 ++ [AddSpace (id c) (space_parameters c)
                                            (routing_table c)];
       cw_calls := cw_calls w1 ++ [space_call] |} in
  (exists calls, cw_calls w1 = cw_calls w ++ calls /\ Forall is_enzyme_set_call calls) /\
  (forall pre k p post,
      routing_table c = pre ++ (k, p) :: post ->
      (forall k0 p0, In (k0, p0) pre ->
                     fst k0 = id c /\ In (snd k0) (dict_keys (enzyme_sets c))) ->
      (fst k <> id c ->
       generate_organelle_compartment self c w = (Raise AssertionError, w2)) /\
      (fst k = id c -> ~ In (snd k) (dict_keys (enzyme_sets c)) ->
       generate_organelle_compartment self c w = (Raise KeyError, w2))) /\
  ((forall k p, In (k, p) (routing_table c) -> fst k = id c) ->
   forall w', generate_organelle_compartment self c w <> (Raise AssertionError, w')) /\
  ((forall k p, In (k, p) (routing_table c) ->
                fst k = id c /\ In (snd k) (dict_keys (enzyme_sets c))) ->
   exists sub_models ports eic eoc contribs,
     generate_organelle_compartment self c w
     = (Ok (coder_coupled (cw_calls w2)
                          (WriteCoupled (id c) sub_models ports eic eoc
                                        (concat contribs))),
        {| pw_calls := pw_calls w2;
           cw_calls := cw_calls w2
                         ++ [WriteCoupled (id c) sub_models ports eic eoc
                                          (concat contribs)] |}) /\
     Forall2 (organelle_entry_edges space es) (routing_table c) contribs).
Proof.
  intros Ei Ee space_call space w2.
  destruct (generate_organelle_compartment_run self c w w1 es Ee)
    as (space_call' & space' & w2' & Esc & Esp & Ew2 & R).
  assert (Hsp : space' = space) by (rewrite Esp, Esc; reflexivity).
  assert (Hw2 : w2' = w2) by (rewrite Ew2, Esc; reflexivity).
  rewrite Hsp, Hw2 in R. clear Esc Esp Ew2 Hsp Hw2 space_call' space' w2'.
  split; [|split; [|split]].
  - destruct (generate_enzyme_sets_returned self c w w1 es Ee) as (calls & C & F & _).
    now exists calls.
  - intros pre k p post Hr Hpre.
    assert (Hpre' : forall k0 p0, In (k0, p0) pre -> fst k0 = id c /\ In k0 (dict_keys es)).
    { intros k0 p0 I. destruct (Hpre k0 p0 I) as [Eo Ik]. split; [exact Eo|].
      apply (generated_key self c w w1 es k0 Ee). now split. }
    unfold organelle_ic in R. rewrite Hr in R. split.
    + intros N. rewrite (organelle_ic_foreign c space es pre post k p Hpre' N) in R.
      exact R.
    + intros Own N.
      rewrite (organelle_ic_missing c space es pre post k p Hpre' Own) in R; [exact R|].
      intros I. apply N. now apply (generated_key self c w w1 es k Ee).
  - intros Own w' Ra.
    pose proof (organelle_ic_own_keys c space es (routing_table c) Own []) as Ha.
    unfold organelle_ic in R.
    destruct (rfold (organelle_ic_step c space es) (routing_table c) []) as [ic|e].
    + destruct (ModelStructure_init_bulk_key _ _ _ _ _ Ei) as (_ & _ & _ & Hk & Hm).
      destruct (organelle_eic_ok c es (membrane_eic c))
        with (st := (@nil tuple, @nil tuple)) as [[in_ports eic] Eeic].
      { intros m p I. apply (generated_key self c w w1 es (id c, m) Ee).
        split; [reflexivity|]. cbn [snd]. apply Hk. right. apply Hm.
        unfold dict_keys. change m with (fst (m, p)). now apply in_map. }
      unfold organelle_eic in R. rewrite Eeic in R. cbv zeta in R.
      rewrite R in Ra. discriminate Ra.
    + rewrite R in Ra. injection Ra as -> _. now apply Ha.
  - intros Good.
    destruct (generate_organelle_compartment_returns
                self cid the_parser membranes external_enzyme_sets c w w1 es Ei Ee Good)
      as (sc & sp & w3 & subs & ports & eic & eoc & cs & -> & -> & -> & R' & F).
    exists subs, ports, eic, eoc, cs. split; [exact R'|exact F].
Qed.

(** ** [str] prints distinct integers differently and prints no underscore *)

Lemma str_inj (a b : Z) : str a = str b -> a = b.
Proof.
  unfold str. intros E.
  assert (S : Some (Z.to_int a) = Some (Z.to_int b)).
  { rewrite <- (NilEmpty.isi (Z.to_int a)), <- (NilEmpty.isi (Z.to_int b)).
    now rewrite E. }
  injection S as S. rewrite <- (DecimalZ.of_to a), <- (DecimalZ.of_to b).
  now rewrite S.
Qed.

Lemma string_of_uint_no_underscore (d : Decimal.uint) :
  no_underscore (NilEmpty.string_of_uint d).
Proof.
  unfold no_underscore.
  induction d; simpl; intros c I; try contradiction;
    (destruct I as [<-|I]; [discriminate|now apply IHd]).
Qed.

Lemma str_no_underscore (z : Z) : no_underscore (str z).
Proof.
  unfold str, NilEmpty.string_of_int.
  destruct (Z.to_int z) as [d|d].
  - apply string_of_uint_no_underscore.
  - intros c [<-|I]; [discriminate|].
    now apply string_of_uint_no_underscore in I.
Qed.

(** Two strings without underscore followed by underscore-led suffixes
    are equal only when both parts are. *)
Lemma append_underscore_inj (a b t1 t2 : string) :
  no_underscore a -> no_underscore b ->
  (a ++ String "_" t1 = b ++ String "_" t2)%string ->
  a = b /\ t1 = t2.
Proof.
  revert b. induction a as [|x a IH]; intros [|y b] Na Nb E; simpl in E.
  - injection E as E. now split.
  - injection E as Ey _. exfalso. apply (Nb y); [now left|now symmetry].
  - injection E as Ex _. exfalso. apply (Na x); [now left|exact Ex].
  - injection E as Exy E.
    destruct (IH b) as [Eab Et]; auto.
    + intros c I. apply Na. now right.
    + intros c I. apply Nb. now right.
    + subst. now split.
Qed.

Lemma port_name_inj (a b : Z) (t1 t2 : string) :
  (str a ++ String "_" t1 = str b ++ String "_" t2)%string -> a = b /\ t1 = t2.
Proof.
  intros E. apply append_underscore_inj in E; try apply str_no_underscore.
  destruct E as [E ->]. split; [now apply str_inj|reflexivity].
Qed.

(** ** The external output coupling of an organelle compartment *)

Lemma port_in_iff (k : Z) (l : list Z) : port_in k l = true <-> In k l.
Proof.
  unfold port_in. rewrite existsb_exists. split.
  - intros (x & I & E). apply Z.eqb_eq in E. now subst.
  - intros I. exists k. split; [exact I|apply Z.eqb_refl].
Qed.

Lemma add_new_ports_spec (ports opn : list Z) :
  NoDup opn ->
  NoDup (add_new_ports opn ports) /\
  forall k, In k (add_new_ports opn ports) <-> In k opn \/ In k ports.
Proof.
  unfold add_new_ports. revert opn.
  induction ports as [|p ports IH]; intros opn N; simpl.
  - split; [exact N|]. intros; tauto.
  - destruct (port_in p opn) eqn:E.
    + apply port_in_iff in E. destruct (IH opn N) as [N' Hk].
      split; [exact N'|]. intros k. rewrite Hk. intuition (subst; auto).
    + assert (Np : ~ In p opn).
      { intros I. apply port_in_iff in I. rewrite I in E. discriminate. }
      destruct (IH (opn ++ [p])) as [N' Hk].
      { apply NoDup_app; [exact N|repeat constructor; auto|].
        intros a Ia [<-|[]]. contradiction. }
      split; [exact N'|]. intros k. rewrite Hk, in_app_iff. simpl. tauto.
Qed.

Lemma organelle_eoc_ports_run (es_model_name : string) (ports : list Z) :
  forall (opn : list Z) (eoc : list tuple),
    fold_left (organelle_eoc_port es_model_name) ports
              (opn, flat_map out_port_decls opn, eoc)
    = (add_new_ports opn ports,
       flat_map out_port_decls (add_new_ports opn ports),
       eoc ++ flat_map (eoc_edges es_model_name) ports).
Proof.
  unfold add_new_ports.
  induction ports as [|p ports IH]; intros opn eoc; simpl.
  - now rewrite app_nil_r.
  - destruct (port_in p opn); cbn [negb].
    + rewrite IH. f_equal. cbn [app]. now rewrite <- app_assoc.
    + replace (flat_map out_port_decls opn ++ out_port_decls p)
        with (flat_map out_port_decls (opn ++ [p]))
        by (rewrite flat_map_app; cbn [flat_map]; now rewrite app_nil_r).
      rewrite IH. f_equal. cbn [app]. now rewrite <- app_assoc.
Qed.

Lemma organelle_eoc_run (models : list ModelInfo) :
  forall (opn : list Z) (eoc : list tuple),
    NoDup opn ->
    exists opn',
      fold_left organelle_eoc_model models (opn, flat_map out_port_decls opn, eoc)
      = (opn', flat_map out_port_decls opn', eoc ++ all_eoc_edges models) /\
      NoDup opn' /\
      forall k, In k opn' <->
                In k opn \/
                exists name x n, In (name, x, n) models /\ In k (py_range2 1 n).
Proof.
  induction models as [|[[name x] n] models IH]; intros opn eoc N.
  - exists opn. simpl. rewrite app_nil_r. split; [reflexivity|]. split; [exact N|].
    intros k. split; [tauto|]. intros [I|(? & ? & ? & [] & _)]. exact I.
  - cbn [fold_left]. unfold organelle_eoc_model at 2.
    rewrite organelle_eoc_ports_run.
    destruct (add_new_ports_spec (py_range2 1 n) opn N) as [N1 H1].
    destruct (IH (add_new_ports opn (py_range2 1 n))
                 (eoc ++ flat_map (eoc_edges name) (py_range2 1 n)) N1)
      as (opn' & E & N' & Hk).
    exists opn'. split; [|split; [exact N'|]].
    + rewrite E. unfold all_eoc_edges. cbn [flat_map]. now rewrite <- app_assoc.
    + intros k. rewrite Hk, H1. split.
      * intros [[I|I]|(name' & x' & n' & I & R)]; auto.
        -- right. exists name, x, n. split; [now left|exact I].
        -- right. exists name', x', n'. split; [now right|exact R].
      * intros [I|(name' & x' & n' & [[= -> -> ->]|I] & R)]; auto.
        right. now exists name', x', n'.
Qed.

Lemma py_range2_in (start stop k : Z) :
  In k (py_range2 start stop) <-> start <= k < stop.
Proof.
  rewrite py_range2_from, in_map_iff. split.
  - intros (i & <- & I). apply in_seq in I. lia.
  - intros R. exists (Z.to_nat (k - start)). split; [lia|]. apply in_seq. lia.
Qed.

(** How often an output port declaration occurs among the declarations
    of a list of port numbers. *)
Lemma out_port_decls_count (opn : list Z) (k : Z) :
  count_occ tuple_eq_dec (flat_map out_port_decls opn)
            [VStr (str k ++ "_product"); VStr PRODUCT_MESSAGE_TYPE; VStr "out"]
  = count_occ Z.eq_dec opn k /\
  count_occ tuple_eq_dec (flat_map out_port_decls opn)
            [VStr (str k ++ "_information"); VStr INFORMATION_MESSAGE_TYPE; VStr "out"]
  = count_occ Z.eq_dec opn k.
Proof.
  induction opn as [|a opn [IH1 IH2]]; [split; reflexivity|].
  cbn [flat_map]. unfold out_port_decls at 1 3. cbn [app count_occ].
  rewrite IH1, IH2.
  destruct (Z.eq_dec a k) as [->|Nk].
  - split.
    + destruct (tuple_eq_dec _ _) as [_|C]; [|now contradiction C].
      destruct (tuple_eq_dec _ _) as [C|_]; [|reflexivity].
      injection C as C _. apply port_name_inj in C. destruct C as [_ C]. discriminate C.
    + destruct (tuple_eq_dec _ _) as [C|_].
      * injection C as C _. apply port_name_inj in C. destruct C as [_ C].
        discriminate C.
      * destruct (tuple_eq_dec _ _) as [_|C]; [reflexivity|now contradiction C].
  - split.
    + destruct (tuple_eq_dec _ _) as [C|_].
      * injection C as C. apply port_name_inj in C. destruct C as [C _]. contradiction.
      * destruct (tuple_eq_dec _ _) as [C|_]; [|reflexivity].
        injection C as C _. apply port_name_inj in C. destruct C as [C _]. contradiction.
    + destruct (tuple_eq_dec _ _) as [C|_].
      * injection C as C _. apply port_name_inj in C. destruct C as [C _]. contradiction.
      * destruct (tuple_eq_dec _ _) as [C|_]; [|reflexivity].
        injection C as C. apply port_name_inj in C. destruct C as [C _]. contradiction.
Qed.

Lemma all_eoc_edges_in (models : list ModelInfo) (e : tuple) :
  In e (all_eoc_edges models) <->
  exists name x n k,
    In (name, x, n) models /\ 1 <= k < n /\
    (e = [VStr name; VStr enzyme_model; VStr (str k ++ "_product");
          VStr (str k ++ "_product")] \/
     e = [VStr name; VStr enzyme_model; VStr (str k ++ "_information");
          VStr (str k ++ "_information")]).
Proof.
  unfold all_eoc_edges. rewrite in_flat_map. split.
  - intros ([[name x] n] & Im & I). apply in_flat_map in I.
    destruct I as (k & Ik & Ie). apply py_range2_in in Ik.
    exists name, x, n, k. split; [exact Im|]. split; [exact Ik|].
    destruct Ie as [ <- | [ <- | [] ] ]; auto.
  - intros (name & x & n & k & Im & Ik & Ie).
    exists (name, x, n). split; [exact Im|]. apply in_flat_map.
    exists k. split; [now apply py_range2_in|].
    destruct Ie as [ -> | -> ]; simpl; auto.
Qed.

Lemma count_occ_in_ports_zero (in_ports : list tuple) (s : string) (rest : tuple) :
  Forall (fun t => exists p r, t = VInt p :: r) in_ports ->
  count_occ tuple_eq_dec in_ports (VStr s :: rest) = 0%nat.
Proof.
  intros F. apply count_occ_not_In. intros I.
  rewrite Forall_forall in F. destruct (F _ I) as (p & r & E). discriminate E.
Qed.

(** C6. When [generate_organelle_compartment] returns, the coupled model
    it wrote has as external output coupling, for every reaction-set
    model with output port amount N in turn and every k in 1..N-1 in
    turn, the model's [k_product] edge followed by its [k_information]
    edge, and nothing else: no edge of port 0. Its port declarations
    hold the product declaration and the information declaration of a
    port number k exactly when some reaction-set model has k in 1..N-1,
    and each of them at most once. *)
Theorem generate_organelle_compartment_eoc
        (self : ModelGenerator) (c : ModelStructure) (w w' : World) (info : ModelInfo) :
  generate_organelle_compartment self c w = (Ok info, w') ->
  exists es w1 prev sub_models ports eic eoc ic,
    generate_enzyme_sets self c w = (Ok es, w1) /\
    cw_calls w' = prev ++ [WriteCoupled (id c) sub_models ports eic eoc ic] /\
    eoc = all_eoc_edges (dict_values es) /\
    (forall name x n k,
        In (name, x, n) (dict_values es) -> 1 <= k < n ->
        In [VStr name; VStr enzyme_model; VStr (str k ++ "_product");
            VStr (str k ++ "_product")] eoc /\
        In [VStr name; VStr enzyme_model; VStr (str k ++ "_information");
            VStr (str k ++ "_information")] eoc) /\
    (forall e,
        In e eoc ->
        exists name x n k,
          In (name, x, n) (dict_values es) /\ 1 <= k < n /\
          (e = [VStr name; VStr enzyme_model; VStr (str k ++ "_product");
                VStr (str k ++ "_product")] \/
           e = [VStr name; VStr enzyme_model; VStr (str k ++ "_information");
                VStr (str k ++ "_information")])) /\
    (forall name,
        ~ In [VStr name; VStr enzyme_model; VStr "0_product"; VStr "0_product"] eoc /\
        ~ In [VStr name; VStr enzyme_model; VStr "0_information";
              VStr "0_information"] eoc) /\
    (forall k,
        (count_occ tuple_eq_dec ports
                   [VStr (str k ++ "_product"); VStr PRODUCT_MESSAGE_TYPE; VStr "out"]
         <= 1)%nat /\
        (count_occ tuple_eq_dec ports
                   [VStr (str k ++ "_information"); VStr INFORMATION_MESSAGE_TYPE;
                    VStr "out"]
         <= 1)%nat /\
        ((exists name x n, In (name, x, n) (dict_values es) /\ 1 <= k < n) <->
         In [VStr (str k ++ "_product"); VStr PRODUCT_MESSAGE_TYPE; VStr "out"] ports) /\
        ((exists name x n, In (name, x, n) (dict_values es) /\ 1 <= k < n) <->
         In [VStr (str k ++ "_information"); VStr INFORMATION_MESSAGE_TYPE; VStr "out"]
            ports)).
Proof.
  intros R.
  destruct (generate_enzyme_sets self c w) as [[es|e] w1] eqn:Ee.
  2:{ unfold generate_organelle_compartment in R.
      erewrite bind_raise in R by exact Ee. discriminate R. }
  destruct (generate_organelle_compartment_run self c w w1 es Ee)
    as (space_call & space & w2 & _ & _ & _ & R').
  rewrite R in R'.
  destruct (organelle_ic c space es) as [ic|e]; [|discriminate R'].
  destruct (organelle_eic c es) as [[in_ports eic]|e] eqn:Eeic; [|discriminate R'].
  cbv zeta in R'. injection R' as _ Ew.
  destruct (organelle_eoc_run (dict_values es) [] []) as (opn & Eo & No & Ho);
    [constructor|].
  cbn [flat_map app] in Eo. unfold organelle_eoc in Ew. rewrite Eo in Ew.
  cbn [fst snd] in Ew.
  pose proof (organelle_eic_in_ports c es (membrane_eic c) ([], []) (in_ports, eic)
                Eeic (Forall_nil _)) as Fin.
  cbn [fst] in Fin.
  exists es, w1. do 6 eexists. split; [reflexivity|].
  split; [rewrite Ew; cbn [cw_calls]; reflexivity|].
  split; [reflexivity|].
  assert (Hopn : forall k,
             In k opn <-> exists name x n, In (name, x, n) (dict_values es) /\ 1 <= k < n).
  { intros k. rewrite Ho. split.
    - intros [[]|(name & x & n & I & Rk)]. exists name, x, n.
      split; [exact I|now apply py_range2_in].
    - intros (name & x & n & I & Rk). right. exists name, x, n.
      split; [exact I|now apply py_range2_in]. }
  split; [|split; [|split]].
  - intros name x n k I Rk. split; apply all_eoc_edges_in; exists name, x, n, k; auto.
  - intros e I. now apply all_eoc_edges_in.
  - intros name. split; intros I; apply all_eoc_edges_in in I;
      destruct I as (name' & x & n & k & _ & Rk & [E|E]); injection E as _ E _;
        change "0_product" with (str 0 ++ String "_" "product")%string in E;
        change "0_information" with (str 0 ++ String "_" "information")%string in E;
        apply port_name_inj in E; destruct E as [E E']; try discriminate E'; lia.
  - intros k. destruct (out_port_decls_count opn k) as [Cp Ci].
    rewrite !count_occ_app, Cp, Ci.
    rewrite !(count_occ_in_ports_zero in_ports _ _ Fin), !Nat.add_0_r.
    pose proof (proj1 (NoDup_count_occ Z.eq_dec opn) No k) as Le.
    split; [exact Le|]. split; [exact Le|].
    rewrite <- Hopn. split.
    + rewrite (count_occ_In tuple_eq_dec), count_occ_app, Cp,
        (count_occ_in_ports_zero in_ports _ _ Fin), Nat.add_0_r.
      apply count_occ_In.
    + rewrite (count_occ_In tuple_eq_dec), count_occ_app, Ci,
        (count_occ_in_ports_zero in_ports _ _ Fin), Nat.add_0_r.
      apply count_occ_In.
Qed.

(** ** The generator built by [ModelGenerator.__init__] *)

Section DictItemFacts.
Context {K V : Type} `{PyEq K}.

Lemma dict_set_in (d : dict K V) (k k0 : K) (v v0 : V) :
  In (k0, v0) (dict_set d k v) -> (k0, v0) = (k, v) \/ In (k0, v0) d.
Proof.
  induction d as [|[k' v'] d IH]; simpl.
  - intros [E|[]]. left. now symmetry.
  - destruct (py_eqb k k') eqn:Ek; simpl.
    + apply py_eqb_eq in Ek. subst k'.
      intros [E|I]; [left; injection E as <- <-; reflexivity|right; now right].
    + intros [E|I]; [right; now left|]. destruct (IH I); [now left|right; now right].
Qed.

Lemma dict_update_in (kvs d : dict K V) (k0 : K) (v0 : V) :
  In (k0, v0) (dict_update d kvs) -> In (k0, v0) d \/ In (k0, v0) kvs.
Proof.
  unfold dict_update. revert d. induction kvs as [|[k v] kvs IH]; intros d; simpl.
  - now left.
  - intros I. destruct (IH _ I) as [J|J]; [|right; now right].
    apply dict_set_in in J. destruct J as [J|J]; [right; left; now symmetry|now left].
Qed.

Lemma dict_in_get_wf (d : dict K V) (k : K) (v : V) :
  wf_dict d -> (In (k, v) d <-> dict_get d k = Some v).
Proof.
  intros W. split; [now apply dict_get_in_wf|apply dict_get_some_in].
Qed.
End DictItemFacts.

Lemma not_in_spec (cid : string) (l : list string) : not_in cid l = true <-> ~ In cid l.
Proof.
  unfold not_in. rewrite negb_true_iff. split.
  - intros E I. assert (T : existsb (py_eqb cid) l = true).
    { apply existsb_exists. exists cid. split; [exact I|apply py_eqb_refl]. }
    rewrite T in E. discriminate.
  - intros N. destruct (existsb (py_eqb cid) l) eqn:E; [|reflexivity].
    apply existsb_exists in E. destruct E as (x & I & E). apply py_eqb_eq in E.
    subst x. contradiction.
Qed.

Lemma organelles_fold (the_parser : SBMLParser) (ids : list string) :
  forall acc d : dict string ModelStructure,
    rfold (fun acc comp_id =>
             let? ms := ModelStructure_init comp_id the_parser (Some [MEMBRANE]) None in
             Ok (dict_set acc comp_id ms))
          ids acc = Ok d ->
    wf_dict acc ->
    (forall cid ms, In (cid, ms) acc ->
                    ModelStructure_init cid the_parser (Some [MEMBRANE]) None = Ok ms) ->
    wf_dict d /\
    (forall cid ms, In (cid, ms) d ->
                    ModelStructure_init cid the_parser (Some [MEMBRANE]) None = Ok ms) /\
    (forall cid, In cid (dict_keys d) <-> In cid (dict_keys acc) \/ In cid ids).
Proof.
  induction ids as [|a ids IH]; intros acc d E W Hacc.
  - simpl in E. injection E as <-. split; [exact W|]. split; [exact Hacc|].
    intros; simpl; tauto.
  - cbn [rfold] in E.
    destruct (ModelStructure_init a the_parser (Some [MEMBRANE]) None) as [ms|e] eqn:Ei;
      cbn [rbind] in E; [|discriminate].
    destruct (IH _ _ E (dict_set_wf _ _ _ W)) as (W' & Hd & Hk).
    { intros cid ms' I. apply dict_set_in in I. destruct I as [[= -> ->]|I]; auto. }
    split; [exact W'|]. split; [exact Hd|].
    intros cid. rewrite Hk, dict_set_keys_incl. simpl. intuition (subst; auto).
Qed.

Lemma ModelGenerator_init_fields (the_parser : SBMLParser)
      (extra_cellular_id periplasm_id cytoplasm_id : string) (the_groups_size : Z)
      (self : ModelGenerator) :
  ModelGenerator_init the_parser extra_cellular_id periplasm_id cytoplasm_id
                      the_groups_size = Ok self ->
  groups_size self = the_groups_size /\
  ModelStructure_init periplasm_id the_parser (Some [OUTER; INNER; TRANS]) None
  = Ok (periplasm self) /\
  ModelStructure_init extra_cellular_id the_parser None
                      (Some [(periplasm_id, [OUTER; TRANS])])
  = Ok (extra_cellular self) /\
  ModelStructure_init cytoplasm_id the_parser None
                      (Some (c_external_enzyme_sets the_parser extra_cellular_id
                                                    periplasm_id cytoplasm_id))
  = Ok (cytoplasm self) /\
  wf_dict (organelles self) /\
  (forall cid ms, In (cid, ms) (organelles self) ->
                  ModelStructure_init cid the_parser (Some [MEMBRANE]) None = Ok ms) /\
  (forall cid, In cid (dict_keys (organelles self)) <->
               In cid (organelle_ids the_parser extra_cellular_id periplasm_id
                                     cytoplasm_id)).
Proof.
  unfold ModelGenerator_init.
  destruct (ModelStructure_init periplasm_id _ _ _) as [pp|e] eqn:Ep;
    cbn [rbind]; [|discriminate].
  destruct (ModelStructure_init extra_cellular_id _ _ _) as [ee|e] eqn:Ee;
    cbn [rbind]; [|discriminate].
  destruct (ModelStructure_init cytoplasm_id _ _ _) as [cc|e] eqn:Ec;
    cbn [rbind]; [|discriminate].
  destruct (rfold _ _ _) as [oo|e] eqn:Eo; cbn [rbind]; [|discriminate].
  intros [= <-]. cbn [groups_size periplasm extra_cellular cytoplasm organelles].
  destruct (organelles_fold the_parser _ [] oo Eo) as (W & Hd & Hk).
  { constructor. }
  { intros ? ? []. }
  repeat split; auto.
  - intros I. apply Hk in I. simpl in I. tauto.
  - intros I. apply Hk. now right.
Qed.

(** ** The runs inside [generate_top] *)

Lemma ModelStructure_init_no_membrane (cid : string) (the_parser : SBMLParser)
      (external_enzyme_sets : option (dict string (list string)))
      (c : ModelStructure) :
  ModelStructure_init cid the_parser None external_enzyme_sets = Ok c ->
  enzyme_sets c = [(BULK, get_enzyme_set the_parser cid BULK)] /\ membrane_eic c = [].
Proof.
  intros E. destruct (ModelStructure_init_fields _ _ _ _ _ E) as (_ & _ & Hm & He).
  split; [rewrite He|rewrite Hm]; reflexivity.
Qed.

(** A compartment built without membranes passes the assertion of
    [generate_bulk_compartment]. *)
Lemma generate_bulk_compartment_init_ok
      (self : ModelGenerator) (cid : string) (the_parser : SBMLParser)
      (external_enzyme_sets : option (dict string (list string)))
      (c : ModelStructure) (w : World) :
  ModelStructure_init cid the_parser None external_enzyme_sets = Ok c ->
  groups_size self <> 0 -> groups_size self <= sys_maxsize ->
  exists info w', generate_bulk_compartment self c w = (Ok info, w').
Proof.
  intros Ei NZ HM.
  destruct (ModelStructure_init_no_membrane _ _ _ _ Ei) as [He _].
  destruct (ModelStructure_init_bulk_key _ _ _ _ _ Ei) as (_ & _ & Hw & _).
  destruct (generate_enzyme_sets_run self c w NZ HM)
    as (es & w1 & calls & Ee & _ & _ & _ & Hk).
  assert (L : dict_len es = 1).
  { specialize (Hk Hw). rewrite He in Hk. simpl in Hk.
    unfold dict_len. apply (f_equal (@length _)) in Hk.
    unfold dict_keys in Hk. rewrite length_map in Hk. rewrite Hk. reflexivity. }
  destruct (generate_bulk_compartment_passes self cid the_parser None
              external_enzyme_sets c w w1 es Ei Ee L)
    as (sc & subs & ports & eic & eoc & ic & w' & R & _).
  eexists. exists w'. exact R.
Qed.

(** A compartment built without external reaction sets passes the
    assertion of [generate_organelle_compartment]. *)
Lemma generate_organelle_compartment_init_ok
      (self : ModelGenerator) (cid : string) (the_parser : SBMLParser)
      (membranes : option (list string)) (c : ModelStructure) (w : World) :
  ModelStructure_init cid the_parser membranes None = Ok c ->
  groups_size self <> 0 -> groups_size self <= sys_maxsize ->
  exists info w', generate_organelle_compartment self c w = (Ok info, w').
Proof.
  intros Ei NZ HM.
  assert (Hs : forall supplier reaction_sets,
             In (supplier, reaction_sets) (or_default (@None (dict string (list string))) []) ->
             supplier <> cid) by (intros ? ? []).
  destruct (ModelStructure_init_bulk_key _ _ _ _ _ Ei) as (Hid & _ & _ & Hes & _).
  destruct (ModelStructure_init_routing_split _ _ _ _ _ Ei Hs) as (ep & Hr & Hk & _).
  assert (Good : forall k p, In (k, p) (routing_table c) ->
                             fst k = id c /\ In (snd k) (dict_keys (enzyme_sets c))).
  { intros k p I.
    assert (Ik : In k (dict_keys (routing_table c))).
    { unfold dict_keys. change k with (fst (k, p)). now apply in_map. }
    rewrite Hr in Ik. unfold dict_keys in Ik. rewrite map_app in Ik.
    apply in_app_or in Ik. destruct Ik as [Ik|Ik].
    - apply internal_routing_table_keys in Ik. apply in_map_iff in Ik.
      destruct Ik as (esn & <- & Iesn). cbn [fst snd]. split; [now rewrite Hid|].
      now apply Hes.
    - apply Hk in Ik. contradiction. }
  destruct (generate_enzyme_sets_run self c w NZ HM) as (es & w1 & _ & Ee & _).
  destruct (generate_organelle_compartment_returns
              self cid the_parser membranes None c w w1 es Ei Ee Good)
    as (sc & sp & w2 & subs & ports & eic & eoc & cs & _ & _ & _ & R & _).
  do 2 eexists. exact R.
Qed.

Lemma generate_organelle_models_fold (self : ModelGenerator)
      (items : dict string ModelStructure) :
  (forall cid ms, In (cid, ms) items ->
                  forall w, exists info w',
                      generate_organelle_compartment self ms w = (Ok info, w')) ->
  forall (oms0 : dict string ModelInfo) (subs0 : list string) (w : World),
  exists oms subs w',
    foldM (generate_organelle_models_step self) items (oms0, subs0) w
    = (Ok (oms, subs), w') /\
    (forall cid, In cid (dict_keys oms) <->
                 In cid (dict_keys oms0) \/ In cid (dict_keys items)).
Proof.
  induction items as [|[cid ms] items IH]; intros Hok oms0 subs0 w.
  - exists oms0, subs0, w. split; [reflexivity|]. intros; simpl; tauto.
  - destruct (Hok cid ms (or_introl eq_refl) w) as ([[name x] n] & w1 & R).
    cbn [foldM]. unfold generate_organelle_models_step at 1.
    erewrite bind_ok.
    2:{ erewrite bind_ok by exact R. cbv beta iota zeta.
        unfold dict_getitem. rewrite dict_get_set_same. run_bind. reflexivity. }
    destruct (IH (fun cid0 ms0 I => Hok cid0 ms0 (or_intror I))
                 (dict_set oms0 cid (name, x, n)) (subs0 ++ [name]) w1)
      as (oms & subs & w' & E & Hk).
    exists oms, subs, w'. split; [exact E|].
    intros cid0. rewrite Hk, dict_set_keys_incl. simpl. intuition (subst; auto).
Qed.

Lemma foldM_unit_ok {A : Type} (body : unit -> A -> M unit) (items : list A) :
  (forall a w, exists w', body tt a w = (Ok tt, w')) ->
  forall w, exists w', foldM body items tt w = (Ok tt, w').
Proof.
  intros Hb. induction items as [|a items IH]; intros w.
  - now exists w.
  - destruct (Hb a w) as [w1 E1]. destruct (IH w1) as [w' E].
    exists w'. cbn [foldM]. erewrite bind_ok by exact E1. exact E.
Qed.

Lemma dict_update_get_const {K V : Type} `{PyEq K} (v : V) (l : list K) :
  forall d : dict K V,
    (forall k, In k (dict_keys d) -> dict_get d k = Some v) ->
    forall k, In k (dict_keys d) \/ In k l ->
              dict_get (dict_update d (map (fun k => (k, v)) l)) k = Some v.
Proof.
  unfold dict_update. induction l as [|a l IH]; intros d Hd k I; simpl.
  - destruct I as [I|[]]. now apply Hd.
  - apply IH.
    + intros k0 I0. destruct (py_eq_dec k0 a) as [->|N].
      * apply dict_get_set_same.
      * rewrite dict_get_set_other by exact N. apply Hd.
        apply dict_set_keys_incl in I0. destruct I0 as [E|I0]; [contradiction|exact I0].
    + rewrite dict_set_keys_incl. simpl in I. intuition (subst; auto).
Qed.

Lemma key_of_item {K V : Type} (d : dict K V) (k : K) (v : V) :
  In (k, v) d -> In k (dict_keys d).
Proof. intros I. unfold dict_keys. change k with (fst (k, v)). now apply in_map. Qed.

Section InitGenerator.
Variable the_parser : SBMLParser.
Variables extra_cellular_id periplasm_id cytoplasm_id : string.
Variable the_groups_size : Z.
Variable self : ModelGenerator.
Hypothesis Init :
  ModelGenerator_init the_parser extra_cellular_id periplasm_id cytoplasm_id
                      the_groups_size = Ok self.

Lemma organelle_id_not_special (cid : string) :
  In cid (organelle_ids the_parser extra_cellular_id periplasm_id cytoplasm_id) ->
  cid <> extra_cellular_id /\ cid <> periplasm_id /\ cid <> cytoplasm_id.
Proof.
  unfold organelle_ids. intros I. apply filter_In in I. destruct I as [_ N].
  apply not_in_spec in N. simpl in N. intuition (subst; auto).
Qed.

Lemma c_external_enzyme_sets_items (s : string) (sets : list string) :
  In (s, sets) (c_external_enzyme_sets the_parser extra_cellular_id periplasm_id
                                       cytoplasm_id) ->
  (s = periplasm_id /\ sets = [INNER; TRANS]) \/
  (In s (organelle_ids the_parser extra_cellular_id periplasm_id cytoplasm_id) /\
   sets = [MEMBRANE]).
Proof.
  unfold c_external_enzyme_sets, dict_of_pairs. intros I.
  apply dict_set_in in I. destruct I as [[= -> ->]|I]; [now left|].
  apply dict_update_in in I. destruct I as [[]|I].
  apply in_map_iff in I. destruct I as (cid & [= <- <-] & I). now right.
Qed.

Lemma c_external_enzyme_sets_organelle (cid : string) :
  In cid (organelle_ids the_parser extra_cellular_id periplasm_id cytoplasm_id) ->
  In (cid, [MEMBRANE])
     (c_external_enzyme_sets the_parser extra_cellular_id periplasm_id cytoplasm_id).
Proof.
  intros I. apply dict_get_some_in. unfold c_external_enzyme_sets.
  destruct (organelle_id_not_special cid I) as (_ & Np & _).
  rewrite dict_get_set_other by exact Np.
  unfold dict_of_pairs. apply dict_update_get_const; [intros ? []|now right].
Qed.

(** The periplasm entries of the two bulk routing tables name membranes
    of the periplasm. *)
Lemma bulk_periplasm_entries (esn : string) (p : Z) :
  (In ((id (periplasm self), esn), p) (routing_table (cytoplasm self)) ->
   id (periplasm self) <> id (cytoplasm self) ->
   In esn (dict_keys (membrane_eic (periplasm self)))) /\
  (In ((id (periplasm self), esn), p) (routing_table (extra_cellular self)) ->
   id (periplasm self) <> id (extra_cellular self) ->
   In esn (dict_keys (membrane_eic (periplasm self)))).
Proof.
  destruct (ModelGenerator_init_fields _ _ _ _ _ _ Init)
    as (_ & Ep & Ee & Ec & _).
  destruct (ModelStructure_init_bulk_key _ _ _ _ _ Ep) as (Hp & _ & _ & _ & Hm).
  destruct (ModelStructure_init_fields _ _ _ _ _ Ec) as (Hc & Hrc & _).
  destruct (ModelStructure_init_fields _ _ _ _ _ Ee) as (He & Hre & _).
  rewrite Hp, Hc, He. split; intros I N; apply key_of_item in I.
  - rewrite Hrc in I. apply external_routing_table_keys in I. destruct I as [I|I].
    + apply internal_routing_table_keys in I. apply in_map_iff in I.
      destruct I as (e0 & [= E _] & _). now symmetry in E.
    + unfold external_keys in I. apply in_flat_map in I.
      destruct I as ([s sets] & Is & I). apply in_map_iff in I.
      destruct I as (r & [= -> ->] & Ir). simpl in Is.
      apply c_external_enzyme_sets_items in Is.
      destruct Is as [[_ ->]|[Io _]].
      * apply Hm. simpl in *. tauto.
      * apply organelle_id_not_special in Io. tauto.
  - rewrite Hre in I. apply external_routing_table_keys in I. destruct I as [I|I].
    + apply internal_routing_table_keys in I. apply in_map_iff in I.
      destruct I as (e0 & [= E _] & _). now symmetry in E.
    + simpl in I. apply Hm. simpl. intuition congruence.
Qed.

Lemma generate_top_bulk_ic_init_ok (bulk_model periplasm_model : string) :
  (exists ic, generate_top_bulk_ic self bulk_model (id (cytoplasm self))
                                   (routing_table (cytoplasm self)) periplasm_model
              = Ok ic) /\
  (exists ic, generate_top_bulk_ic self bulk_model (id (extra_cellular self))
                                   (routing_table (extra_cellular self)) periplasm_model
              = Ok ic).
Proof.
  split.
  - unfold generate_top_bulk_ic.
    match goal with
    | |- context [rfold _ _ ?ic0] =>
        pose proof (top_bulk_ic_loop_result self bulk_model (id (cytoplasm self))
                      periplasm_model (routing_table (cytoplasm self)) ic0) as R
    end.
    destruct (rfold _ _ _) as [ic|e]; [now exists ic|].
    destruct R as (_ & esn & p & I & N & G). exfalso.
    apply (proj1 (bulk_periplasm_entries esn p)) in I; [|exact N].
    apply dict_get_in_keys in I. destruct I as [v Gv]. congruence.
  - unfold generate_top_bulk_ic.
    match goal with
    | |- context [rfold _ _ ?ic0] =>
        pose proof (top_bulk_ic_loop_result self bulk_model (id (extra_cellular self))
                      periplasm_model (routing_table (extra_cellular self)) ic0) as R
    end.
    destruct (rfold _ _ _) as [ic|e]; [now exists ic|].
    destruct R as (_ & esn & p & I & N & G). exfalso.
    apply (proj2 (bulk_periplasm_entries esn p)) in I; [|exact N].
    apply dict_get_in_keys in I. destruct I as [v Gv]. congruence.
Qed.

(** An organelle has the one membrane [MEMBRANE] on input port 0; the
    cytoplasm routes to it, the extracellular space does not. *)
Lemma organelle_structure (cid : string) (ms : ModelStructure) :
  In (cid, ms) (organelles self) ->
  id ms = cid /\
  membrane_eic ms = [(MEMBRANE, 0)] /\
  (exists cp, dict_get (routing_table (cytoplasm self)) (cid, MEMBRANE) = Some cp) /\
  (forall esn, dict_get (routing_table (extra_cellular self)) (cid, esn) = None).
Proof.
  intros I.
  destruct (ModelGenerator_init_fields _ _ _ _ _ _ Init)
    as (_ & _ & Ee & Ec & _ & Ho & Hk).
  pose proof (Ho cid ms I) as Em.
  assert (Io : In cid (organelle_ids the_parser extra_cellular_id periplasm_id
                                     cytoplasm_id)).
  { apply Hk. now apply key_of_item with (v := ms). }
  destruct (organelle_id_not_special cid Io) as (Ne & Np & Nc).
  destruct (ModelStructure_init_fields _ _ _ _ _ Em) as (Hid & _ & Hm & _).
  destruct (ModelStructure_init_fields _ _ _ _ _ Ec) as (_ & Hrc & _).
  destruct (ModelStructure_init_fields _ _ _ _ _ Ee) as (_ & Hre & _).
  split; [exact Hid|]. split; [rewrite Hm; reflexivity|]. split.
  - apply dict_get_in_keys. rewrite Hrc. apply external_routing_table_keys. right.
    unfold external_keys. apply in_flat_map. exists (cid, [MEMBRANE]).
    split; [now apply c_external_enzyme_sets_organelle|now left].
  - intros esn. apply dict_get_not_in. rewrite Hre. intros J.
    apply external_routing_table_keys in J. destruct J as [J|J].
    + apply internal_routing_table_keys in J. apply in_map_iff in J.
      destruct J as (e0 & [= E _] & _). now symmetry in E.
    + simpl in J. intuition congruence.
Qed.

End InitGenerator.

(** ** The organelle loop of [generate_top] *)

Lemma top_organelle_ic_membrane_run (self : ModelGenerator)
      (cytoplasm_model extra_cellular_model cid model_name esn : string)
      (output_port_amount cp m : Z) (ic : list tuple) :
  dict_get (routing_table (cytoplasm self)) (cid, esn) = Some cp ->
  top_organelle_ic_membrane self cytoplasm_model extra_cellular_model cid model_name
                            output_port_amount ic (esn, m)
  = Ok (ic ++ organelle_edges cytoplasm_model extra_cellular_model model_name
                              output_port_amount cp m).
Proof.
  intros G. unfold top_organelle_ic_membrane, organelle_edges, dict_getitem.
  rewrite G. cbn [rbind]. destruct (output_port_amount >? 1); cbn [rbind].
  - f_equal. rewrite <- !app_assoc. reflexivity.
  - f_equal. rewrite <- !app_assoc. reflexivity.
Qed.

Lemma top_organelle_ic_run (self : ModelGenerator)
      (cytoplasm_model extra_cellular_model : string)
      (organelle_models : dict string ModelInfo) :
  (forall cid info,
      In (cid, info) organelle_models ->
      exists ms cp,
        dict_get (organelles self) cid = Some ms /\
        membrane_eic ms = [(MEMBRANE, 0)] /\
        dict_get (routing_table (cytoplasm self)) (cid, MEMBRANE) = Some cp) ->
  forall ic, exists rest,
    top_organelle_ic self cytoplasm_model extra_cellular_model organelle_models ic
    = Ok (ic ++ rest) /\
    forall cid name x opa,
      In (cid, (name, x, opa)) organelle_models ->
      exists cp,
        dict_get (routing_table (cytoplasm self)) (cid, MEMBRANE) = Some cp /\
        incl (organelle_edges cytoplasm_model extra_cellular_model name opa cp 0) rest.
Proof.
  unfold top_organelle_ic.
  induction organelle_models as [|[cid [[name x] opa]] oms IH]; intros Hok ic.
  - exists []. rewrite app_nil_r. split; [reflexivity|]. intros ? ? ? ? [].
  - destruct (Hok cid (name, x, opa) (or_introl eq_refl)) as (ms & cp & Go & Em & Gc).
    cbn [rfold]. unfold top_organelle_ic_step at 1. unfold dict_getitem.
    rewrite Go. cbn [rbind]. rewrite Em. cbn [rfold].
    rewrite (top_organelle_ic_membrane_run self cytoplasm_model extra_cellular_model
               cid name MEMBRANE opa cp 0 ic Gc).
    cbn [rbind].
    destruct (IH (fun cid0 info0 I => Hok cid0 info0 (or_intror I))
                 (ic ++ organelle_edges cytoplasm_model extra_cellular_model
                                        name opa cp 0))
      as (rest & E & Hin).
    exists (organelle_edges cytoplasm_model extra_cellular_model name opa cp 0 ++ rest).
    split; [rewrite E; now rewrite <- app_assoc|].
    intros cid0 name0 x0 opa0 [[= -> -> -> ->]|I].
    + exists cp. split; [exact Gc|]. apply incl_appl, incl_refl.
    + destruct (Hin cid0 name0 x0 opa0 I) as (cp0 & G0 & I0).
      exists cp0. split; [exact G0|]. now apply incl_appr.
Qed.

(** ** The run of [generate_top] on a generator built by [__init__] *)

Lemma foldM_record {B C : Type} (call : B -> C -> pw_call) (items : list (B * C)) :
  forall w,
    foldM (fun _ '(k, v) => pw_record (call k v)) items tt w
    = (Ok tt, {| pw_calls := pw_calls w ++ map (fun '(k, v) => call k v) items;
                 cw_calls := cw_calls w |}).
Proof.
  induction items as [|[k v] items IH]; intros w.
  - simpl. unfold ret. rewrite app_nil_r. now destruct w.
  - cbn [foldM]. run_bind. rewrite IH. cbn [pw_calls cw_calls map].
    now rewrite <- app_assoc.
Qed.

Lemma generate_top_parameters (self : ModelGenerator) (w : World) :
  foldM (fun _ '(rid, parameters) => add_reaction rid parameters)
        (reactions (parser self)) tt w
  = (Ok tt, {| pw_calls := pw_calls w
                            ++ map (fun '(rid, parameters) => AddReaction rid parameters)
                                   (reactions (parser self));
               cw_calls := cw_calls w |}) /\
  foldM (fun _ '(eid, parameters) => add_enzyme eid parameters)
        (enzymes (parser self)) tt w
  = (Ok tt, {| pw_calls := pw_calls w
                            ++ map (fun '(eid, parameters) => AddEnzyme eid parameters)
                                   (enzymes (parser self));
               cw_calls := cw_calls w |}).
Proof.
  split.
  - exact (foldM_record AddReaction (reactions (parser self)) w).
  - exact (foldM_record AddEnzyme (enzymes (parser self)) w).
Qed.

Lemma generate_top_run (the_parser : SBMLParser)
      (extra_cellular_id periplasm_id cytoplasm_id : string) (the_groups_size : Z)
      (self : ModelGenerator) (top : string) (w : World) :
  ModelGenerator_init the_parser extra_cellular_id periplasm_id cytoplasm_id
                      the_groups_size = Ok self ->
  the_groups_size <> 0 -> the_groups_size <= sys_maxsize ->
  exists w1 w2 w3 w4 cm x1 n1 em x2 n2 pm x3 n3 oms subs ic1 ic2 rest w',
    generate_bulk_compartment
      self (cytoplasm self)
      {| pw_calls := pw_calls w
                       ++ map (fun '(rid, parameters) => AddReaction rid parameters)
                              (reactions (parser self))
                       ++ map (fun '(eid, parameters) => AddEnzyme eid parameters)
                              (enzymes (parser self));
         cw_calls := cw_calls w |}
    = (Ok (cm, x1, n1), w1) /\
    generate_bulk_compartment self (extra_cellular self) w1 = (Ok (em, x2, n2), w2) /\
    generate_organelle_compartment self (periplasm self) w2 = (Ok (pm, x3, n3), w3) /\
    generate_organelle_models self [cm; em; pm] w3 = (Ok (oms, subs), w4) /\
    (forall cid, In cid (dict_keys oms) <-> In cid (dict_keys (organelles self))) /\
    generate_top_bulk_ic self cm (id (cytoplasm self)) (routing_table (cytoplasm self))
                         pm = Ok ic1 /\
    generate_top_bulk_ic self em (id (extra_cellular self))
                         (routing_table (extra_cellular self)) pm = Ok ic2 /\
    (forall cid name x opa,
        In (cid, (name, x, opa)) oms ->
        exists cp,
          dict_get (routing_table (cytoplasm self)) (cid, MEMBRANE) = Some cp /\
          incl (organelle_edges cm em name opa cp 0) rest) /\
    generate_top self top w
    = (Ok (coder_coupled (cw_calls w4)
                         (WriteCoupled top subs [] [] [] ((ic1 ++ ic2) ++ rest))), w') /\
    cw_calls w' = cw_calls w4 ++ [WriteCoupled top subs [] [] [] ((ic1 ++ ic2) ++ rest)].
Proof.
  intros Init NZ0 HM0.
  destruct (ModelGenerator_init_fields _ _ _ _ _ _ Init)
    as (Hg & Ep & Ee & Ec & Wo & Ho & Hk).
  assert (NZ : groups_size self <> 0) by now rewrite Hg.
  assert (HM : groups_size self <= sys_maxsize) by now rewrite Hg.
  destruct (generate_top_parameters self w) as [Ea _].
  match type of Ea with
  | _ = (_, ?wa) => destruct (generate_top_parameters self wa) as [_ Eb]
  end.
  cbn [pw_calls cw_calls] in Eb. rewrite <- app_assoc in Eb.
  match type of Eb with
  | _ = (_, ?w0) =>
      destruct (generate_bulk_compartment_init_ok self _ _ _ _ w0 Ec NZ HM)
        as ([[cm x1] n1] & w1 & R1)
  end.
  destruct (generate_bulk_compartment_init_ok self _ _ _ _ w1 Ee NZ HM)
    as ([[em x2] n2] & w2 & R2).
  destruct (generate_organelle_compartment_init_ok self _ _ _ _ w2 Ep NZ HM)
    as ([[pm x3] n3] & w3 & R3).
  destruct (generate_organelle_models_fold self (organelles self)) with
      (oms0 := @nil (string * ModelInfo)) (subs0 := [cm; em; pm]) (w := w3)
    as (oms & subs & w4 & R4 & Homs).
  { intros cid ms I w5.
    exact (generate_organelle_compartment_init_ok self _ _ _ _ w5 (Ho cid ms I) NZ HM). }
  destruct (generate_top_bulk_ic_init_ok _ _ _ _ _ self Init cm pm) as [[ic1 E1] _].
  destruct (generate_top_bulk_ic_init_ok _ _ _ _ _ self Init em pm) as [_ [ic2 E2]].
  destruct (top_organelle_ic_run self cm em oms) with (ic := ic1 ++ ic2)
    as (rest & E3 & Hin).
  { intros cid info I.
    assert (Ik : In cid (dict_keys (organelles self))).
    { apply key_of_item in I. apply Homs in I. destruct I as [[]|I]. exact I. }
    destruct (dict_get_in_keys _ _ Ik) as [ms Gm].
    pose proof (dict_get_some_in _ _ _ Gm) as Im.
    destruct (organelle_structure _ _ _ _ _ self Init cid ms Im)
      as (_ & Em & [cp Gc] & _).
    now exists ms, cp. }
  exists w1, w2, w3, w4, cm, x1, n1, em, x2, n2, pm, x3, n3, oms, subs, ic1, ic2, rest.
  eexists.
  split; [exact R1|]. split; [exact R2|]. split; [exact R3|]. split; [exact R4|].
  split; [intros cid; rewrite Homs; simpl; tauto|].
  split; [exact E1|]. split; [exact E2|]. split; [exact Hin|].
  unfold generate_top.
  erewrite bind_ok by exact Ea. erewrite bind_ok by exact Eb.
  erewrite bind_ok by exact R1. cbv beta iota.
  erewrite bind_ok by exact R2. cbv beta iota.
  erewrite bind_ok by exact R3. cbv beta iota.
  erewrite bind_ok by exact R4. cbv beta iota.
  rewrite E1, E2. do 2 run_bind. rewrite E3. do 2 run_bind.
  unfold write_coupled_model, cw_record. cbn [cw_calls pw_calls].
  split; reflexivity.
Qed.

(** C9. On a generator built by [ModelGenerator.__init__] with a
    non-zero group size that [islice] accepts (at most [sys.maxsize]),
    [generate_top] returns: after the parameters of the reactions and
    enzymes it generates the cytoplasm, the extracellular space, the
    periplasm and the organelles, and the internal coupling of the top
    model it writes last holds, for every organelle: for each membrane
    input port m of the organelle (reaction set esn) the edge from the
    cytoplasm model's port [cytoplasm.routing_table[(organelle id, esn)]]
    to port m of the organelle model; the edges from the organelle's
    output ports [1_product] and [1_information] to the cytoplasm's input
    ports [0_product] and [0_information]; and, when the organelle's
    output port amount exceeds 1, the edges from its output ports
    [2_product] and [2_information] to the extracellular model's input
    ports [0_product] and [0_information]. *)
Theorem generate_top_organelle_edges (the_parser : SBMLParser)
        (extra_cellular_id periplasm_id cytoplasm_id : string) (the_groups_size : Z)
        (self : ModelGenerator) (top : string) (w : World) :
  ModelGenerator_init the_parser extra_cellular_id periplasm_id cytoplasm_id
                      the_groups_size = Ok self ->
  the_groups_size <> 0 -> the_groups_size <= sys_maxsize ->
  exists w1 w2 w3 w4 cm x1 n1 em x2 n2 pm x3 n3 oms subs ic info w',
    generate_bulk_compartment
      self (cytoplasm self)
      {| pw_calls := pw_calls w
                       ++ map (fun '(rid, parameters) => AddReaction rid parameters)
                              (reactions (parser self))
                       ++ map (fun '(eid, parameters) => AddEnzyme eid parameters)
                              (enzymes (parser self));
         cw_calls := cw_calls w |}
    = (Ok (cm, x1, n1), w1) /\
    generate_bulk_compartment self (extra_cellular self) w1 = (Ok (em, x2, n2), w2) /\
    generate_organelle_compartment self (periplasm self) w2 = (Ok (pm, x3, n3), w3) /\
    generate_organelle_models self [cm; em; pm] w3 = (Ok (oms, subs), w4) /\
    generate_top self top w = (Ok info, w') /\
    cw_calls w' = cw_calls w4 ++ [WriteCoupled top subs [] [] [] ic] /\
    forall cid ms,
      In (cid, ms) (organelles self) ->
      exists name x opa,
        dict_get oms cid = Some (name, x, opa) /\
        (forall esn m,
            In (esn, m) (membrane_eic ms) ->
            exists cp,
              dict_get (routing_table (cytoplasm self)) (cid, esn) = Some cp /\
              In [VStr cm; VInt cp; VStr name; VInt m] ic) /\
        In [VStr name; VStr name; VStr "1_product";
            VStr cm; VStr cm; VStr "0_product"] ic /\
        In [VStr name; VStr name; VStr "1_information";
            VStr cm; VStr cm; VStr "0_information"] ic /\
        (opa > 1 ->
         In [VStr name; VStr name; VStr "2_product";
             VStr em; VStr em; VStr "0_product"] ic /\
         In [VStr name; VStr name; VStr "2_information";
             VStr em; VStr em; VStr "0_information"] ic).
Proof.
  intros Init NZ HM.
  destruct (generate_top_run the_parser extra_cellular_id periplasm_id cytoplasm_id
              the_groups_size self top w Init NZ HM)
    as (w1 & w2 & w3 & w4 & cm & x1 & n1 & em & x2 & n2 & pm & x3 & n3 & oms
        & subs & ic1 & ic2 & rest & w' & R1 & R2 & R3 & R4 & Hk & _ & _ & Hin & R & C).
  exists w1, w2, w3, w4, cm, x1, n1, em, x2, n2, pm, x3, n3, oms, subs.
  exists ((ic1 ++ ic2) ++ rest). eexists. exists w'.
  split; [exact R1|]. split; [exact R2|]. split; [exact R3|]. split; [exact R4|].
  split; [exact R|]. split; [exact C|].
  intros cid ms I.
  destruct (organelle_structure _ _ _ _ _ self Init cid ms I) as (Hid & Em & _ & _).
  assert (Ik : In cid (dict_keys oms)).
  { apply Hk. now apply key_of_item with (v := ms). }
  destruct (dict_get_in_keys _ _ Ik) as [[[name x] opa] G].
  destruct (Hin cid name x opa (dict_get_some_in _ _ _ G)) as (cp & Gc & Incl).
  assert (Sub : forall e, In e (organelle_edges cm em name opa cp 0) ->
                          In e ((ic1 ++ ic2) ++ rest)).
  { intros e Ie. apply in_or_app. right. now apply Incl. }
  exists name, x, opa. split; [exact G|]. split; [|split; [|split]].
  - intros esn m Im. rewrite Em in Im. destruct Im as [[= <- <-]|[]].
    exists cp. split; [exact Gc|]. apply Sub. now left.
  - apply Sub. right. now left.
  - apply Sub. right. right. now left.
  - intros Big. apply Z.gt_lt, Z.gtb_lt in Big.
    split; apply Sub; unfold organelle_edges; rewrite Big; apply in_or_app; right.
    + right. now left.
    + right. right. now left.
Qed.

(** C10. In the same run, when an organelle's output port amount
    exceeds 1, the edge that drives the organelle's membrane input port m
    from the extracellular model carries as source port the number found
    in the cytoplasm's routing table at (organelle id, esn); the
    extracellular compartment's own routing table has no entry for that
    key. *)
Theorem generate_top_extracellular_port (the_parser : SBMLParser)
        (extra_cellular_id periplasm_id cytoplasm_id : string) (the_groups_size : Z)
        (self : ModelGenerator) (top : string) (w : World) :
  ModelGenerator_init the_parser extra_cellular_id periplasm_id cytoplasm_id
                      the_groups_size = Ok self ->
  the_groups_size <> 0 -> the_groups_size <= sys_maxsize ->
  exists w1 w2 w3 w4 cm x1 n1 em x2 n2 pm x3 n3 oms subs ic info w',
    generate_bulk_compartment
      self (cytoplasm self)
      {| pw_calls := pw_calls w
                       ++ map (fun '(rid, parameters) => AddReaction rid parameters)
                              (reactions (parser self))
                       ++ map (fun '(eid, parameters) => AddEnzyme eid parameters)
                              (enzymes (parser self));
         cw_calls := cw_calls w |}
    = (Ok (cm, x1, n1), w1) /\
    generate_bulk_compartment self (extra_cellular self) w1 = (Ok (em, x2, n2), w2) /\
    generate_organelle_compartment self (periplasm self) w2 = (Ok (pm, x3, n3), w3) /\
    generate_organelle_models self [cm; em; pm] w3 = (Ok (oms, subs), w4) /\
    generate_top self top w = (Ok info, w') /\
    cw_calls w' = cw_calls w4 ++ [WriteCoupled top subs [] [] [] ic] /\
    forall cid ms,
      In (cid, ms) (organelles self) ->
      exists name x opa,
        dict_get oms cid = Some (name, x, opa) /\
        forall esn m,
          In (esn, m) (membrane_eic ms) ->
          opa > 1 ->
          exists e_port_number,
            dict_get (routing_table (cytoplasm self)) (cid, esn)
            = Some e_port_number /\
            dict_get (routing_table (extra_cellular self)) (cid, esn) = None /\
            In [VStr em; VStr em; VInt e_port_number;
                VStr name; VStr name; VInt m] ic.
Proof.
  intros Init NZ HM.
  destruct (generate_top_run the_parser extra_cellular_id periplasm_id cytoplasm_id
              the_groups_size self top w Init NZ HM)
    as (w1 & w2 & w3 & w4 & cm & x1 & n1 & em & x2 & n2 & pm & x3 & n3 & oms
        & subs & ic1 & ic2 & rest & w' & R1 & R2 & R3 & R4 & Hk & _ & _ & Hin & R & C).
  exists w1, w2, w3, w4, cm, x1, n1, em, x2, n2, pm, x3, n3, oms, subs.
  exists ((ic1 ++ ic2) ++ rest). eexists. exists w'.
  split; [exact R1|]. split; [exact R2|]. split; [exact R3|]. split; [exact R4|].
  split; [exact R|]. split; [exact C|].
  intros cid ms I.
  destruct (organelle_structure _ _ _ _ _ self Init cid ms I) as (Hid & Em & _ & Hn).
  assert (Ik : In cid (dict_keys oms)).
  { apply Hk. now apply key_of_item with (v := ms). }
  destruct (dict_get_in_keys _ _ Ik) as [[[name x] opa] G].
  destruct (Hin cid name x opa (dict_get_some_in _ _ _ G)) as (cp & Gc & Incl).
  exists name, x, opa. split; [exact G|].
  intros esn m Im Big.
  rewrite Em in Im. destruct Im as [[= <- <-]|[]].
  exists cp. split; [exact Gc|]. split; [apply Hn|].
  apply in_or_app. right. apply Incl. unfold organelle_edges.
  apply Z.gt_lt, Z.gtb_lt in Big. rewrite Big. apply in_or_app. right. now left.
Qed.

(** * Further properties of the generator *)

(** ** [chunks]: the size is not validated, and where the entries go *)

Lemma groups_of_nth {A : Type} (n m : nat) (l : list A) :
  forall i, (i < m)%nat ->
            nth_error (groups_of n m l) i = Some (firstn n (skipn (i * n) l)).
Proof.
  revert l. induction m as [|m IH]; intros l i L; [lia|].
  destruct i as [|i]; simpl; [reflexivity|].
  rewrite IH by lia. rewrite skipn_skipn. do 3 f_equal. lia.
Qed.

Lemma groups_of_nth_inv {A : Type} (n m : nat) (l : list A) (i : nat) (g : list A) :
  nth_error (groups_of n m l) i = Some g ->
  (i < m)%nat /\ g = firstn n (skipn (i * n) l).
Proof.
  intros E.
  assert (L : (i < m)%nat).
  { rewrite <- (groups_of_length n m l). apply nth_error_Some. congruence. }
  split; [exact L|]. rewrite groups_of_nth in E by exact L. now injection E.
Qed.

(** The last group starts before the end of the data. *)
Lemma ceil_div_last (n s : Z) :
  0 < n -> 0 < s -> (ceil_div n s - 1) * s < n.
Proof.
  intros Hn Hs. unfold ceil_div.
  pose proof (Z.div_mod n s ltac:(lia)) as D.
  pose proof (Z.mod_pos_bound n s Hs) as B.
  destruct (n mod s =? 0) eqn:Em.
  - apply Z.eqb_eq in Em. nia.
  - apply Z.eqb_neq in Em. nia.
Qed.

(** The entry at position [p] is entry [p mod n] of group [p / n]. *)
Lemma groups_of_position {A : Type} (n m : nat) (l : list A) (p : nat) (e : A) :
  (0 < n)%nat -> (length l <= m * n)%nat ->
  nth_error l p = Some e ->
  exists g, nth_error (groups_of n m l) (p / n) = Some g /\
            nth_error g (p mod n) = Some e.
Proof.
  intros Hn Hm E.
  assert (Lp : (p < length l)%nat) by (apply nth_error_Some; congruence).
  assert (Li : (p / n < m)%nat).
  { apply Nat.Div0.div_lt_upper_bound. lia. }
  exists (firstn n (skipn (p / n * n) l)). split; [now apply groups_of_nth|].
  rewrite nth_error_firstn.
  destruct (Nat.ltb_spec (p mod n) n) as [_|C];
    [|pose proof (Nat.mod_upper_bound p n ltac:(lia)); lia].
  rewrite nth_error_skipn. rewrite <- E. f_equal.
  pose proof (Nat.div_mod_eq p n). lia.
Qed.

(** [range] refuses a zero step and is empty for a negative one. *)
Lemma chunks_zero_size {K V : Type} `{PyEq K} (data : dict K V) :
  chunks data 0 = Raise ValueError.
Proof. reflexivity. Qed.

Lemma chunks_negative_size {K V : Type} `{PyEq K} (data : dict K V) (SIZE : Z) :
  SIZE < 0 -> chunks data SIZE = Ok [].
Proof.
  intros L. unfold chunks, py_range.
  destruct (SIZE =? 0) eqn:E; [apply Z.eqb_eq in E; lia|].
  cbn [rbind]. unfold range_list, range_length.
  destruct (0 <? SIZE) eqn:P; [apply Z.ltb_lt in P; lia|].
  destruct (dict_len data <? 0) eqn:Q;
    [apply Z.ltb_lt in Q; pose proof (dict_len_nonneg data); lia|].
  reflexivity.
Qed.

(** X1. [chunks] does not validate [SIZE]: a zero [SIZE] raises
    [ValueError] (from [range]) whatever the data, an empty mapping
    included, and a negative [SIZE] yields no group at all, so that every
    entry of the data is dropped without an error. *)
Theorem chunks_nonpositive_size {K V : Type} `{PyEq K} (data : dict K V) (SIZE : Z) :
  SIZE <= 0 ->
  chunks data SIZE = if SIZE =? 0 then Raise ValueError else Ok [].
Proof.
  intros L. destruct (SIZE =? 0) eqn:E.
  - apply Z.eqb_eq in E. subst SIZE. apply chunks_zero_size.
  - apply Z.eqb_neq in E. apply chunks_negative_size. lia.
Qed.

(** X2. For a positive [SIZE] that [islice] accepts (at most
    [sys.maxsize]), no group that [chunks] yields is empty, group number
    i holds [min(SIZE, len(data) - i * SIZE)] entries (every group but
    the last is full), and the entry at position p of the data is entry
    number [p mod SIZE] of group number [p div SIZE]. *)
Theorem chunks_positions {K V : Type} `{PyEq K} (data : dict K V) (SIZE : Z) :
  wf_dict data -> 0 < SIZE -> SIZE <= sys_maxsize ->
  exists groups : list (dict K V),
    chunks data SIZE = Ok groups /\
    (forall i g, nth_error groups i = Some g ->
                 0 < dict_len g /\
                 dict_len g = Z.min SIZE (dict_len data - Z.of_nat i * SIZE)) /\
    (forall p e, nth_error data p = Some e ->
                 exists g, nth_error groups (p / Z.to_nat SIZE)%nat = Some g /\
                           nth_error g (p mod Z.to_nat SIZE)%nat = Some e).
Proof.
  intros W HS HM.
  destruct (ceil_div_covers _ _ (dict_len_nonneg data) HS) as [C0 C1].
  set (n := Z.to_nat SIZE). set (m := Z.to_nat (ceil_div (dict_len data) SIZE)).
  exists (groups_of n m data). split; [now apply chunks_groups|]. split.
  - intros i g E. apply groups_of_nth_inv in E. destruct E as [Li ->].
    unfold dict_len in *. rewrite length_firstn, length_skipn.
    assert (Hpos : 0 < Z.of_nat (length data)).
    { destruct data; [|simpl; lia]. exfalso. subst m.
      change (Z.of_nat (length (@nil (K * V)))) with 0 in Li.
      unfold ceil_div in Li. rewrite Z.div_0_l, Z.mod_0_l in Li by lia.
      simpl in Li. lia. }
    pose proof (ceil_div_last _ _ Hpos HS) as Last.
    assert (Hi : Z.of_nat i * SIZE < Z.of_nat (length data)).
    { subst m. nia. }
    subst n. clear Li Last C0 C1. clear m.
    assert (Es : Z.of_nat (Z.to_nat SIZE) = SIZE) by lia.
    revert Es. generalize (Z.to_nat SIZE). intros s Es.
    assert (Hm : (i * s < length data)%nat) by nia.
    rewrite Nat2Z.inj_min, Nat2Z.inj_sub, Nat2Z.inj_mul by lia. lia.
  - intros p e E. apply groups_of_position; [subst n; lia| |exact E].
    apply Nat2Z.inj_le. rewrite Nat2Z.inj_mul. subst n m.
    rewrite !Z2Nat.id by lia. exact C1.
Qed.

(** ** [ModelStructure.__init__]: the lookups in the parser *)

Section ComprehensionFacts.
Context {K V : Type} `{PyEq K}.

Lemma dict_getitem_ok (d : dict K V) (k : K) (v : V) :
  dict_getitem d k = Ok v <-> dict_get d k = Some v.
Proof.
  unfold dict_getitem. destruct (dict_get d k); split; congruence.
Qed.

Lemma dict_getitem_raise (d : dict K V) (k : K) (e : exn) :
  dict_getitem d k = Raise e <-> e = KeyError /\ ~ In k (dict_keys d).
Proof.
  unfold dict_getitem. destruct (dict_get d k) as [v|] eqn:G; split.
  - discriminate.
  - intros [_ N]. exfalso. apply N. now apply dict_get_some_key in G.
  - intros [= <-]. split; [reflexivity|]. intros I.
    apply dict_get_in_keys in I. destruct I as [v G']. congruence.
  - intros [-> _]. reflexivity.
Qed.

(** The comprehension [{k: data[k] for k in ks}] raises exactly when
    some [k] is no key of [data], and then [KeyError]. *)
Lemma dict_comp_getitem_result (data : dict K V) (ks : list K) :
  forall acc,
    match dict_comp_getitem data ks acc with
    | Ok _ => incl ks (dict_keys data)
    | Raise e => e = KeyError /\ ~ incl ks (dict_keys data)
    end.
Proof.
  induction ks as [|k ks IH]; intros acc; simpl.
  - intros x [].
  - destruct (dict_getitem data k) as [v|e] eqn:G; cbn [rbind].
    + apply dict_getitem_ok, dict_get_some_key in G.
      specialize (IH (dict_set acc k v)).
      destruct (dict_comp_getitem data ks (dict_set acc k v)) as [d|e].
      * intros x [<-|I]; [exact G|now apply IH].
      * destruct IH as [-> N]. split; [reflexivity|].
        intros I. apply N. intros x Ix. apply I. now right.
    + apply dict_getitem_raise in G. destruct G as [-> N]. split; [reflexivity|].
      intros I. apply N. apply I. now left.
Qed.

Lemma dict_comp_getitem_get (data : dict K V) (ks : list K) :
  forall acc d,
    dict_comp_getitem data ks acc = Ok d ->
    forall k, (In k ks -> dict_get d k = dict_get data k) /\
              (~ In k ks -> dict_get d k = dict_get acc k).
Proof.
  induction ks as [|k0 ks IH]; intros acc d E k; simpl in E.
  - injection E as <-. split; [intros []|reflexivity].
  - destruct (dict_getitem data k0) as [v|e] eqn:G; cbn [rbind] in E; [|discriminate].
    apply dict_getitem_ok in G.
    destruct (IH _ _ E k) as [Hin Hout].
    destruct (in_dec py_eq_dec k ks) as [I|N].
    + split; [intros _; now apply Hin|]. intros C. exfalso. apply C. now right.
    + rewrite (Hout N). destruct (py_eq_dec k k0) as [->|Nk].
      * rewrite dict_get_set_same. split; [now intros _|].
        intros C. exfalso. apply C. now left.
      * rewrite dict_get_set_other by exact Nk. split; [|reflexivity].
        intros [C|C]; [now symmetry in C|contradiction].
Qed.

Lemma dict_comp_getitem_keys (data : dict K V) (ks : list K) :
  forall acc d,
    dict_comp_getitem data ks acc = Ok d ->
    NoDup (dict_keys acc ++ ks) ->
    dict_keys d = dict_keys acc ++ ks.
Proof.
  induction ks as [|k0 ks IH]; intros acc d E N; simpl in E.
  - injection E as <-. now rewrite app_nil_r.
  - destruct (dict_getitem data k0) as [v|e]; cbn [rbind] in E; [|discriminate].
    assert (F : ~ In k0 (dict_keys acc)).
    { apply NoDup_remove_2 in N. intros I. apply N. apply in_or_app. now left. }
    rewrite (IH _ _ E); rewrite dict_set_fresh by exact F; unfold dict_keys;
      rewrite map_app, <- app_assoc; [reflexivity|exact N].
Qed.

(** Assigning [f k] to every [k] of a list, as the loop over
    [internal_enzyme_sets] does. *)
Lemma fold_dict_set_get (f : K -> V) (l : list K) :
  forall (acc : dict K V) (k : K),
    (In k l ->
     dict_get (fold_left (fun acc k => dict_set acc k (f k)) l acc) k = Some (f k)) /\
    (~ In k l ->
     dict_get (fold_left (fun acc k => dict_set acc k (f k)) l acc) k = dict_get acc k).
Proof.
  induction l as [|k0 l IH]; intros acc k; simpl.
  - split; [intros []|reflexivity].
  - destruct (IH (dict_set acc k0 (f k0)) k) as [Hin Hout].
    destruct (in_dec py_eq_dec k l) as [I|N].
    + split; [intros _; now apply Hin|]. intros C. exfalso. apply C. now right.
    + rewrite (Hout N). destruct (py_eq_dec k k0) as [->|Nk].
      * rewrite dict_get_set_same. split; [now intros _|].
        intros C. exfalso. apply C. now left.
      * rewrite dict_get_set_other by exact Nk. split; [|reflexivity].
        intros [C|C]; [now symmetry in C|contradiction].
Qed.

Lemma fold_dict_set_keys (f : K -> V) (l : list K) :
  forall acc : dict K V,
    NoDup (dict_keys acc ++ l) ->
    dict_keys (fold_left (fun acc k => dict_set acc k (f k)) l acc) = dict_keys acc ++ l.
Proof.
  induction l as [|k0 l IH]; intros acc N; simpl.
  - now rewrite app_nil_r.
  - assert (F : ~ In k0 (dict_keys acc)).
    { apply NoDup_remove_2 in N. intros I. apply N. apply in_or_app. now left. }
    rewrite IH; rewrite dict_set_fresh by exact F; unfold dict_keys;
      rewrite map_app, <- app_assoc; [reflexivity|exact N].
Qed.
End ComprehensionFacts.

(** The two halves used below: when [__init__] returns, and what it
    raises. *)
Lemma ModelStructure_init_ok (cid : string) (the_parser : SBMLParser)
      (membranes : option (list string))
      (external_enzyme_sets : option (dict string (list string))) :
  has_space_data the_parser cid ->
  exists c, ModelStructure_init cid the_parser membranes external_enzyme_sets = Ok c.
Proof.
  intros (species & Gs & Im & It). unfold ModelStructure_init.
  destruct (external_routing_table _ _) as [table port].
  unfold dict_getitem at 1. rewrite Gs. cbn [rbind].
  destruct (dict_comp_getitem_ok (metabolite_amounts the_parser) (dict_keys species) Im [])
    as [metabolites Gm].
  rewrite Gm. cbn [rbind].
  destruct (dict_get_getitem _ _ It) as (t & Gt & _). rewrite Gt. cbn [rbind].
  now eexists.
Qed.

Lemma ModelStructure_init_raises (cid : string) (the_parser : SBMLParser)
      (membranes : option (list string))
      (external_enzyme_sets : option (dict string (list string))) (e : exn) :
  ModelStructure_init cid the_parser membranes external_enzyme_sets = Raise e ->
  e = KeyError.
Proof.
  unfold ModelStructure_init.
  destruct (external_routing_table _ _) as [table port].
  destruct (dict_getitem (parse_compartments_species the_parser) cid) as [species|e0] eqn:Gs;
    cbn [rbind].
  - pose proof (dict_comp_getitem_result (metabolite_amounts the_parser)
                                         (dict_keys species) []) as Gm.
    destruct (dict_comp_getitem _ _ _) as [metabolites|e1]; cbn [rbind].
    + destruct (dict_getitem (interval_times the_parser) cid) as [t|e2] eqn:Gt;
        cbn [rbind]; [discriminate|].
      apply dict_getitem_raise in Gt. destruct Gt as [-> _]. now intros [= <-].
    + destruct Gm as [-> _]. now intros [= <-].
  - apply dict_getitem_raise in Gs. destruct Gs as [-> _]. now intros [= <-].
Qed.

Lemma ModelStructure_init_has_data (cid : string) (the_parser : SBMLParser)
      (membranes : option (list string))
      (external_enzyme_sets : option (dict string (list string))) (c : ModelStructure) :
  ModelStructure_init cid the_parser membranes external_enzyme_sets = Ok c ->
  has_space_data the_parser cid.
Proof.
  unfold ModelStructure_init, has_space_data.
  destruct (external_routing_table _ _) as [table port].
  destruct (dict_getitem (parse_compartments_species the_parser) cid) as [species|e0] eqn:Gs;
    cbn [rbind]; [|discriminate].
  pose proof (dict_comp_getitem_result (metabolite_amounts the_parser)
                                       (dict_keys species) []) as Gm.
  destruct (dict_comp_getitem _ _ _) as [metabolites|e1]; cbn [rbind]; [|discriminate].
  destruct (dict_getitem (interval_times the_parser) cid) as [t|e2] eqn:Gt;
    cbn [rbind]; [|discriminate].
  intros _. exists species. split; [now apply dict_getitem_ok|]. split; [exact Gm|].
  apply dict_getitem_ok in Gt. now apply dict_get_some_key in Gt.
Qed.

Lemma ModelStructure_init_result (cid : string) (the_parser : SBMLParser)
      (membranes : option (list string))
      (external_enzyme_sets : option (dict string (list string))) :
  match ModelStructure_init cid the_parser membranes external_enzyme_sets with
  | Ok c => has_space_data the_parser cid
  | Raise e => e = KeyError /\ ~ has_space_data the_parser cid
  end.
Proof.
  destruct (ModelStructure_init cid the_parser membranes external_enzyme_sets)
    as [c|e] eqn:E.
  - exact (ModelStructure_init_has_data _ _ _ _ _ E).
  - split; [exact (ModelStructure_init_raises _ _ _ _ _ E)|].
    intros Hd.
    destruct (ModelStructure_init_ok cid the_parser membranes external_enzyme_sets Hd)
      as [c Ec].
    congruence.
Qed.

(** X3. [ModelStructure.__init__] returns exactly when the parser knows
    the species of the compartment, an amount for each of these species
    and a timing interval of the compartment; otherwise it raises
    [KeyError], and it raises no other exception, whatever the membranes
    and the external reaction sets. *)
Theorem ModelStructure_init_KeyError (cid : string) (the_parser : SBMLParser)
        (membranes : option (list string))
        (external_enzyme_sets : option (dict string (list string))) :
  match ModelStructure_init cid the_parser membranes external_enzyme_sets with
  | Ok c => has_space_data the_parser cid
  | Raise e => e = KeyError /\ ~ has_space_data the_parser cid
  end.
Proof.
  unfold ModelStructure_init, has_space_data.
  destruct (external_routing_table _ _) as [table port].
  destruct (dict_getitem (parse_compartments_species the_parser) cid) as [species|e] eqn:Gs;
    cbn [rbind].
  - apply dict_getitem_ok in Gs.
    pose proof (dict_comp_getitem_result (metabolite_amounts the_parser)
                                         (dict_keys species) []) as Gm.
    destruct (dict_comp_getitem _ _ _) as [metabolites|e]; cbn [rbind].
    + destruct (dict_getitem (interval_times the_parser) cid) as [t|e] eqn:Gt; cbn [rbind].
      * exists species. split; [exact Gs|]. split; [exact Gm|].
        apply dict_getitem_ok in Gt. now apply dict_get_some_key in Gt.
      * apply dict_getitem_raise in Gt. destruct Gt as [-> N]. split; [reflexivity|].
        intros (s & _ & _ & I). contradiction.
    + destruct Gm as [-> N]. split; [reflexivity|].
      intros (s & Gs' & I & _). rewrite Gs in Gs'. injection Gs' as <-. contradiction.
  - apply dict_getitem_raise in Gs. destruct Gs as [-> N]. split; [reflexivity|].
    intros (s & Gs' & _). apply dict_get_some_key in Gs'. contradiction.
Qed.

(** X4. The space parameters of a compartment built by
    [ModelStructure.__init__]: its id, the parser's timing interval,
    reaction parameters, volume and enzymes of the compartment, and as
    metabolites the parser's global amounts restricted to the species of
    the compartment, in the order of the species. *)
Theorem ModelStructure_init_space_parameters (cid : string) (the_parser : SBMLParser)
        (membranes : option (list string))
        (external_enzyme_sets : option (dict string (list string)))
        (c : ModelStructure) :
  ModelStructure_init cid the_parser membranes external_enzyme_sets = Ok c ->
  exists species,
    dict_get (parse_compartments_species the_parser) cid = Some species /\
    sp_cid (space_parameters c) = cid /\
    dict_get (interval_times the_parser) cid
    = Some (sp_interval_time (space_parameters c)) /\
    sp_reaction_parameters (space_parameters c)
    = get_related_reaction_parameters the_parser cid /\
    sp_volume (space_parameters c) = get_compartment_volume the_parser cid /\
    sp_enzymes (space_parameters c)
    = get_enzymes the_parser (dict_keys (get_related_reaction_parameters the_parser cid)) /\
    (forall s, In s (dict_keys species) ->
               dict_get (sp_metabolites (space_parameters c)) s
               = dict_get (metabolite_amounts the_parser) s) /\
    (forall s, ~ In s (dict_keys species) ->
               dict_get (sp_metabolites (space_parameters c)) s = None) /\
    (wf_dict species ->
     dict_keys (sp_metabolites (space_parameters c)) = dict_keys species).
Proof.
  unfold ModelStructure_init.
  destruct (external_routing_table _ _) as [table port].
  destruct (dict_getitem (parse_compartments_species the_parser) cid) as [species|e] eqn:Gs;
    cbn [rbind]; [|discriminate].
  destruct (dict_comp_getitem _ _ _) as [metabolites|e] eqn:Gm; cbn [rbind];
    [|discriminate].
  destruct (dict_getitem (interval_times the_parser) cid) as [t|e] eqn:Gt; cbn [rbind];
    [|discriminate].
  intros [= <-]. cbn [space_parameters sp_cid sp_interval_time sp_metabolites
                      sp_reaction_parameters sp_volume sp_enzymes].
  exists species. split; [now apply dict_getitem_ok|]. split; [reflexivity|].
  split; [now apply dict_getitem_ok|]. do 3 (split; [reflexivity|]).
  split; [|split].
  - intros s I. now apply (dict_comp_getitem_get _ _ _ _ Gm s).
  - intros s N. now apply (dict_comp_getitem_get _ _ _ _ Gm s).
  - intros W. apply (dict_comp_getitem_keys _ _ _ _ Gm). exact W.
Qed.

(** X5. The enzyme sets of a compartment built by
    [ModelStructure.__init__]: the bulk and every membrane are mapped to
    the enzyme set the parser gives for the compartment and that name,
    no other name is mapped, and with pairwise distinct names the
    entries stand in the order bulk, then membranes as declared. *)
Theorem ModelStructure_init_enzyme_sets (cid : string) (the_parser : SBMLParser)
        (membranes : option (list string))
        (external_enzyme_sets : option (dict string (list string)))
        (c : ModelStructure) :
  ModelStructure_init cid the_parser membranes external_enzyme_sets = Ok c ->
  (forall esn, In esn (BULK :: or_default membranes []) ->
               dict_get (enzyme_sets c) esn = Some (get_enzyme_set the_parser cid esn)) /\
  (forall esn, ~ In esn (BULK :: or_default membranes []) ->
               dict_get (enzyme_sets c) esn = None) /\
  (NoDup (BULK :: or_default membranes []) ->
   dict_keys (enzyme_sets c) = BULK :: or_default membranes []).
Proof.
  intros E. destruct (ModelStructure_init_fields _ _ _ _ _ E) as (_ & _ & _ & He).
  rewrite He. split; [|split].
  - intros esn I.
    now apply (fold_dict_set_get (get_enzyme_set the_parser cid)
                                 (BULK :: or_default membranes []) [] esn).
  - intros esn N.
    now apply (fold_dict_set_get (get_enzyme_set the_parser cid)
                                 (BULK :: or_default membranes []) [] esn).
  - intros N.
    apply (fold_dict_set_keys (get_enzyme_set the_parser cid)
                              (BULK :: or_default membranes []) []). exact N.
Qed.

(** ** [ModelGenerator.__init__]: failures and the tables it builds *)

Lemma organelles_fold_result (the_parser : SBMLParser) (ids : list string) :
  forall acc : dict string ModelStructure,
    match rfold (fun acc comp_id =>
                   let? ms := ModelStructure_init comp_id the_parser
                                                  (Some [MEMBRANE]) None in
                   Ok (dict_set acc comp_id ms))
                ids acc with
    | Ok _ => forall cid, In cid ids -> has_space_data the_parser cid
    | Raise e => e = KeyError /\
                 exists cid, In cid ids /\ ~ has_space_data the_parser cid
    end.
Proof.
  induction ids as [|a ids IH]; intros acc; cbn [rfold].
  - intros cid [].
  - pose proof (ModelStructure_init_result a the_parser (Some [MEMBRANE]) None) as R.
    destruct (ModelStructure_init a the_parser (Some [MEMBRANE]) None) as [ms|e];
      cbn [rbind].
    + specialize (IH (dict_set acc a ms)). destruct (rfold _ ids _) as [d|e].
      * intros cid [<-|I]; [exact R|now apply IH].
      * destruct IH as (-> & cid & I & N). split; [reflexivity|].
        exists cid. split; [now right|exact N].
    + destruct R as [-> N]. split; [reflexivity|]. exists a. split; [now left|exact N].
Qed.

Lemma organelles_fold_keys (the_parser : SBMLParser) (ids : list string) :
  forall acc d : dict string ModelStructure,
    rfold (fun acc comp_id =>
             let? ms := ModelStructure_init comp_id the_parser (Some [MEMBRANE]) None in
             Ok (dict_set acc comp_id ms))
          ids acc = Ok d ->
    NoDup (dict_keys acc ++ ids) ->
    dict_keys d = dict_keys acc ++ ids.
Proof.
  induction ids as [|a ids IH]; intros acc d E N; cbn [rfold] in E.
  - injection E as <-. now rewrite app_nil_r.
  - destruct (ModelStructure_init a the_parser (Some [MEMBRANE]) None) as [ms|e];
      cbn [rbind] in E; [|discriminate].
    assert (F : ~ In a (dict_keys acc)).
    { apply NoDup_remove_2 in N. intros I. apply N. apply in_or_app. now left. }
    rewrite (IH _ _ E); rewrite dict_set_fresh by exact F; unfold dict_keys;
      rewrite map_app, <- app_assoc; [reflexivity|exact N].
Qed.

(** X6. Once the parser and the two writers are constructed,
    [ModelGenerator.__init__] returns exactly when the parser holds the
    space data of the periplasm, of the extracellular space, of the
    cytoplasm and of every other compartment it lists; otherwise it
    raises [KeyError], and no other exception. The generator it returns
    keeps the group size and the parser. *)
Theorem ModelGenerator_init_KeyError (the_parser : SBMLParser)
        (extra_cellular_id periplasm_id cytoplasm_id : string) (the_groups_size : Z) :
  match ModelGenerator_init the_parser extra_cellular_id periplasm_id cytoplasm_id
                            the_groups_size with
  | Ok self =>
      groups_size self = the_groups_size /\ parser self = the_parser /\
      forall cid,
        In cid (periplasm_id :: extra_cellular_id :: cytoplasm_id
                  :: organelle_ids the_parser extra_cellular_id periplasm_id
                                   cytoplasm_id) ->
        has_space_data the_parser cid
  | Raise e =>
      e = KeyError /\
      exists cid,
        In cid (periplasm_id :: extra_cellular_id :: cytoplasm_id
                  :: organelle_ids the_parser extra_cellular_id periplasm_id
                                   cytoplasm_id) /\
        ~ has_space_data the_parser cid
  end.
Proof.
  unfold ModelGenerator_init.
  pose proof (ModelStructure_init_result periplasm_id the_parser
                (Some [OUTER; INNER; TRANS]) None) as Rp.
  destruct (ModelStructure_init periplasm_id _ _ _) as [pp|e]; cbn [rbind].
  2:{ destruct Rp as [-> N]. split; [reflexivity|].
      exists periplasm_id. split; [now left|exact N]. }
  pose proof (ModelStructure_init_result extra_cellular_id the_parser None
                (Some (dict_of_pairs [(periplasm_id, [OUTER; TRANS])]))) as Re.
  destruct (ModelStructure_init extra_cellular_id _ _ _) as [ee|e]; cbn [rbind].
  2:{ destruct Re as [-> N]. split; [reflexivity|].
      exists extra_cellular_id. split; [right; now left|exact N]. }
  pose proof (ModelStructure_init_result cytoplasm_id the_parser None
                (Some (c_external_enzyme_sets the_parser extra_cellular_id
                                              periplasm_id cytoplasm_id))) as Rc.
  destruct (ModelStructure_init cytoplasm_id _ _ _) as [cc|e]; cbn [rbind].
  2:{ destruct Rc as [-> N]. split; [reflexivity|].
      exists cytoplasm_id. split; [right; right; now left|exact N]. }
  pose proof (organelles_fold_result
                the_parser
                (organelle_ids the_parser extra_cellular_id periplasm_id cytoplasm_id)
                []) as Ro.
  destruct (rfold _ _ _) as [oo|e]; cbn [rbind].
  - split; [reflexivity|]. split; [reflexivity|].
    intros cid [<-|[<-|[<-|I]]]; auto.
  - destruct Ro as (-> & cid & I & N). split; [reflexivity|].
    exists cid. split; [now do 3 right|exact N].
Qed.

Lemma NoDup_three {A : Type} (a b c : A) :
  NoDup [a; b; c] -> a <> b /\ a <> c /\ b <> c.
Proof.
  intros N. inversion_clear N as [|? ? N1 N2]. inversion_clear N2 as [|? ? N3 _].
  split; [intros E; apply N1; left; now symmetry|].
  split; [intros E; apply N1; right; left; now symmetry|].
  intros E; apply N3; left; now symmetry.
Qed.

Lemma NoDup_map_inj {A B : Type} (f : A -> B) (l : list A) :
  (forall a b, f a = f b -> a = b) -> NoDup l -> NoDup (map f l).
Proof.
  intros Inj. induction 1 as [|a l N _ IH]; simpl; constructor; [|exact IH].
  intros I. apply in_map_iff in I. destruct I as (b & E & I).
  apply Inj in E. subst b. contradiction.
Qed.

Lemma organelle_ids_NoDup (the_parser : SBMLParser)
      (extra_cellular_id periplasm_id cytoplasm_id : string) :
  NoDup (get_compartments the_parser) ->
  NoDup (organelle_ids the_parser extra_cellular_id periplasm_id cytoplasm_id).
Proof. intros N. unfold organelle_ids. now apply NoDup_filter. Qed.

(** The cytoplasm's external reaction sets: one membrane per organelle
    in the order of the organelles, then the periplasm's two. *)
Lemma c_external_enzyme_sets_fresh (the_parser : SBMLParser)
      (extra_cellular_id periplasm_id cytoplasm_id : string) :
  NoDup (get_compartments the_parser) ->
  c_external_enzyme_sets the_parser extra_cellular_id periplasm_id cytoplasm_id
  = map (fun cid => (cid, [MEMBRANE]))
        (organelle_ids the_parser extra_cellular_id periplasm_id cytoplasm_id)
    ++ [(periplasm_id, [INNER; TRANS])].
Proof.
  intros N. unfold c_external_enzyme_sets.
  set (orgs := organelle_ids the_parser extra_cellular_id periplasm_id cytoplasm_id).
  assert (Ek : dict_keys (map (fun cid : string => (cid, [MEMBRANE])) orgs) = orgs).
  { unfold dict_keys. rewrite map_map. simpl. apply map_id. }
  rewrite dict_of_pairs_fresh.
  - apply dict_set_fresh. rewrite Ek. intros I.
    apply organelle_id_not_special in I. tauto.
  - unfold wf_dict. rewrite Ek. now apply organelle_ids_NoDup.
Qed.

Lemma external_keys_app (e1 e2 : dict string (list string)) :
  external_keys (e1 ++ e2) = external_keys e1 ++ external_keys e2.
Proof. unfold external_keys. apply flat_map_app. Qed.

Lemma external_keys_single_sets (ids : list string) (esn : string) :
  external_keys (map (fun cid => (cid, [esn])) ids) = map (fun cid => (cid, esn)) ids.
Proof.
  unfold external_keys. induction ids as [|a ids IH]; simpl; [reflexivity|].
  now rewrite IH.
Qed.

Lemma combine_ports_get {A : Type} `{PyEq A} (keys : list A) (i : nat) (k : A) :
  NoDup keys -> nth_error keys i = Some k ->
  dict_get (combine keys (ports (length keys))) k = Some (Z.of_nat i).
Proof.
  intros N E. apply dict_get_in_wf.
  - unfold wf_dict, dict_keys. now rewrite map_fst_combine by now rewrite ports_length.
  - apply (combine_ports_nth keys 0%nat i k E).
Qed.

(** The routing tables of the two bulk compartments of a generator. *)
Lemma ModelGenerator_init_bulk_tables (the_parser : SBMLParser)
      (extra_cellular_id periplasm_id cytoplasm_id : string) (the_groups_size : Z)
      (self : ModelGenerator) :
  ModelGenerator_init the_parser extra_cellular_id periplasm_id cytoplasm_id
                      the_groups_size = Ok self ->
  NoDup [extra_cellular_id; periplasm_id; cytoplasm_id] ->
  NoDup [OUTER; INNER; TRANS] ->
  NoDup (get_compartments the_parser) ->
  routing_table (extra_cellular self)
  = [((extra_cellular_id, BULK), 0); ((periplasm_id, OUTER), 1);
     ((periplasm_id, TRANS), 2)] /\
  routing_table (cytoplasm self)
  = combine ((cytoplasm_id, BULK)
               :: map (fun cid => (cid, MEMBRANE))
                      (organelle_ids the_parser extra_cellular_id periplasm_id
                                     cytoplasm_id)
               ++ [(periplasm_id, INNER); (periplasm_id, TRANS)])
            (ports (length (organelle_ids the_parser extra_cellular_id periplasm_id
                                          cytoplasm_id) + 3)) /\
  NoDup ((cytoplasm_id, BULK)
           :: map (fun cid => (cid, MEMBRANE))
                  (organelle_ids the_parser extra_cellular_id periplasm_id cytoplasm_id)
           ++ [(periplasm_id, INNER); (periplasm_id, TRANS)]).
Proof.
  intros Init Nid Nm Nc.
  destruct (ModelGenerator_init_fields _ _ _ _ _ _ Init) as (_ & _ & Ee & Ec & _).
  set (orgs := organelle_ids the_parser extra_cellular_id periplasm_id cytoplasm_id) in *.
  destruct (NoDup_three _ _ _ Nid) as (Dep & _ & Dpc).
  destruct (NoDup_three _ _ _ Nm) as (_ & Dot & Dit).
  assert (Ke : routing_keys extra_cellular_id [] [(periplasm_id, [OUTER; TRANS])]
               = [(extra_cellular_id, BULK); (periplasm_id, OUTER); (periplasm_id, TRANS)])
    by reflexivity.
  assert (Kc : routing_keys cytoplasm_id []
                            (c_external_enzyme_sets the_parser extra_cellular_id
                                                    periplasm_id cytoplasm_id)
               = (cytoplasm_id, BULK)
                   :: map (fun cid => (cid, MEMBRANE)) orgs
                   ++ [(periplasm_id, INNER); (periplasm_id, TRANS)]).
  { unfold routing_keys. rewrite (c_external_enzyme_sets_fresh _ _ _ _ Nc).
    fold orgs. rewrite external_keys_app, external_keys_single_sets. reflexivity. }
  assert (NKc : NoDup ((cytoplasm_id, BULK)
                         :: map (fun cid => (cid, MEMBRANE)) orgs
                         ++ [(periplasm_id, INNER); (periplasm_id, TRANS)])).
  { assert (No : forall esn, ~ In (periplasm_id, esn)
                                  (map (fun cid => (cid, MEMBRANE)) orgs)).
    { intros esn I. apply in_map_iff in I. destruct I as (o & [= -> _] & I).
      apply organelle_id_not_special in I. tauto. }
    constructor.
    - intros I. apply in_app_or in I. destruct I as [I|I].
      + apply in_map_iff in I. destruct I as (o & [= -> _] & I).
        apply organelle_id_not_special in I. tauto.
      + simpl in I. intuition congruence.
    - apply NoDup_app.
      + apply NoDup_map_inj; [|now apply organelle_ids_NoDup].
        intros a b [= ->]. reflexivity.
      + constructor; [simpl; intuition congruence|]. constructor; [intros []|constructor].
      + intros k Ik [<-|[<-|[]]]; now apply No in Ik. }
  assert (NKe : NoDup (routing_keys extra_cellular_id [] [(periplasm_id, [OUTER; TRANS])])).
  { rewrite Ke. constructor; [simpl; intuition congruence|].
    constructor; [simpl; intuition congruence|]. constructor; [intros []|constructor]. }
  rewrite <- Kc in NKc.
  destruct (ModelStructure_init_tables
              extra_cellular_id the_parser None (Some [(periplasm_id, [OUTER; TRANS])])
              (extra_cellular self) NKe Ee) as (_ & _ & Hre).
  destruct (ModelStructure_init_tables
              cytoplasm_id the_parser None
              (Some (c_external_enzyme_sets the_parser extra_cellular_id periplasm_id
                                            cytoplasm_id))
              (cytoplasm self) NKc Ec) as (_ & _ & Hrc).
  rewrite Kc in NKc.
  cbn [or_default] in Hre, Hrc. rewrite Ke in Hre. rewrite Kc in Hrc.
  assert (Len : length ((cytoplasm_id, BULK)
                          :: map (fun cid => (cid, MEMBRANE)) orgs
                          ++ [(periplasm_id, INNER); (periplasm_id, TRANS)])
                = (length orgs + 3)%nat).
  { simpl. rewrite length_app, length_map. simpl. lia. }
  rewrite Len in Hrc.
  split; [exact Hre|]. split; [exact Hrc|exact NKc].
Qed.

(** X7. For three distinct special compartment ids, distinct membrane
    names of the periplasm and a parser that lists every compartment
    once, [ModelGenerator.__init__] gives the extracellular space the
    routing table bulk -> 0, periplasm outer membrane -> 1, periplasm
    trans membrane -> 2, and the cytoplasm the table bulk -> 0, the
    membrane of the i-th organelle (0-based, in parser order) -> i + 1,
    then the periplasm's inner membrane -> k + 1 and trans membrane ->
    k + 2 for k organelles. *)
Theorem ModelGenerator_init_routing_tables (the_parser : SBMLParser)
        (extra_cellular_id periplasm_id cytoplasm_id : string) (the_groups_size : Z)
        (self : ModelGenerator) :
  ModelGenerator_init the_parser extra_cellular_id periplasm_id cytoplasm_id
                      the_groups_size = Ok self ->
  NoDup [extra_cellular_id; periplasm_id; cytoplasm_id] ->
  NoDup [OUTER; INNER; TRANS] ->
  NoDup (get_compartments the_parser) ->
  routing_table (extra_cellular self)
  = [((extra_cellular_id, BULK), 0); ((periplasm_id, OUTER), 1);
     ((periplasm_id, TRANS), 2)] /\
  routing_table (cytoplasm self)
  = combine ((cytoplasm_id, BULK)
               :: map (fun cid => (cid, MEMBRANE))
                      (organelle_ids the_parser extra_cellular_id periplasm_id
                                     cytoplasm_id)
               ++ [(periplasm_id, INNER); (periplasm_id, TRANS)])
            (ports (length (organelle_ids the_parser extra_cellular_id periplasm_id
                                          cytoplasm_id) + 3)) /\
  dict_get (routing_table (cytoplasm self)) (cytoplasm_id, BULK) = Some 0 /\
  (forall i cid,
      nth_error (organelle_ids the_parser extra_cellular_id periplasm_id cytoplasm_id) i
      = Some cid ->
      dict_get (routing_table (cytoplasm self)) (cid, MEMBRANE)
      = Some (Z.of_nat i + 1)) /\
  dict_get (routing_table (cytoplasm self)) (periplasm_id, INNER)
  = Some (Z.of_nat (length (organelle_ids the_parser extra_cellular_id periplasm_id
                                          cytoplasm_id)) + 1) /\
  dict_get (routing_table (cytoplasm self)) (periplasm_id, TRANS)
  = Some (Z.of_nat (length (organelle_ids the_parser extra_cellular_id periplasm_id
                                          cytoplasm_id)) + 2).
Proof.
  intros Init Nid Nm Nc.
  destruct (ModelGenerator_init_bulk_tables _ _ _ _ _ _ Init Nid Nm Nc)
    as (Hre & Hrc & NKc).
  set (orgs := organelle_ids the_parser extra_cellular_id periplasm_id cytoplasm_id) in *.
  assert (Len : length ((cytoplasm_id, BULK)
                          :: map (fun cid => (cid, MEMBRANE)) orgs
                          ++ [(periplasm_id, INNER); (periplasm_id, TRANS)])
                = (length orgs + 3)%nat).
  { simpl. rewrite length_app, length_map. simpl. lia. }
  split; [exact Hre|]. split; [exact Hrc|].
  rewrite Hrc, <- Len. split; [|split; [|split]].
  - apply (combine_ports_get _ 0%nat); [exact NKc|reflexivity].
  - intros i cid E.
    replace (Z.of_nat i + 1) with (Z.of_nat (S i)) by lia.
    apply combine_ports_get; [exact NKc|]. cbn [nth_error].
    rewrite nth_error_app1 by (rewrite length_map; apply nth_error_Some; congruence).
    rewrite nth_error_map, E. reflexivity.
  - replace (Z.of_nat (length orgs) + 1) with (Z.of_nat (S (length orgs))) by lia.
    apply combine_ports_get; [exact NKc|]. cbn [nth_error].
    rewrite nth_error_app2 by (rewrite length_map; lia).
    rewrite length_map, Nat.sub_diag. reflexivity.
  - replace (Z.of_nat (length orgs) + 2) with (Z.of_nat (S (S (length orgs)))) by lia.
    apply combine_ports_get; [exact NKc|].
    match goal with
    | |- nth_error (_ :: ?l) (S ?n) = ?r => change (nth_error l n = r)
    end.
    rewrite nth_error_app2 by (rewrite length_map; lia).
    rewrite length_map. replace (S (length orgs) - length orgs)%nat with 1%nat by lia.
    reflexivity.
Qed.

(** X8. The organelles of the generator are the compartments of the
    parser other than the three special ones, in parser order; each is
    built with the single membrane [MEMBRANE]: membrane input port 0,
    routing table bulk -> 0 and membrane -> 1, and the two enzyme sets
    bulk and membrane. *)
Theorem ModelGenerator_init_organelles (the_parser : SBMLParser)
        (extra_cellular_id periplasm_id cytoplasm_id : string) (the_groups_size : Z)
        (self : ModelGenerator) :
  ModelGenerator_init the_parser extra_cellular_id periplasm_id cytoplasm_id
                      the_groups_size = Ok self ->
  NoDup (get_compartments the_parser) ->
  MEMBRANE <> BULK ->
  dict_keys (organelles self)
  = filter (fun cid => not_in cid [extra_cellular_id; periplasm_id; cytoplasm_id])
           (get_compartments the_parser) /\
  forall cid ms,
    In (cid, ms) (organelles self) ->
    In cid (get_compartments the_parser) /\
    ~ In cid [extra_cellular_id; periplasm_id; cytoplasm_id] /\
    id ms = cid /\
    membrane_eic ms = [(MEMBRANE, 0)] /\
    routing_table ms = [((cid, BULK), 0); ((cid, MEMBRANE), 1)] /\
    enzyme_sets ms = [(BULK, get_enzyme_set the_parser cid BULK);
                      (MEMBRANE, get_enzyme_set the_parser cid MEMBRANE)].
Proof.
  intros Init Nc Nmb.
  destruct (ModelGenerator_init_fields _ _ _ _ _ _ Init) as (_ & _ & _ & _ & _ & Ho & Hk).
  split.
  - unfold ModelGenerator_init in Init.
    destruct (ModelStructure_init periplasm_id _ _ _); cbn [rbind] in Init; [|discriminate].
    destruct (ModelStructure_init extra_cellular_id _ _ _); cbn [rbind] in Init;
      [|discriminate].
    destruct (ModelStructure_init cytoplasm_id _ _ _); cbn [rbind] in Init; [|discriminate].
    destruct (rfold _ _ _) as [oo|e] eqn:Eo; cbn [rbind] in Init; [|discriminate].
    injection Init as <-. cbn [organelles].
    apply (organelles_fold_keys _ _ _ _ Eo). cbn [dict_keys map app].
    now apply organelle_ids_NoDup.
  - intros cid ms I. pose proof (Ho cid ms I) as Em.
    assert (Io : In cid (organelle_ids the_parser extra_cellular_id periplasm_id
                                       cytoplasm_id)).
    { apply Hk. now apply key_of_item with (v := ms). }
    split; [unfold organelle_ids in Io; apply filter_In in Io; tauto|].
    split.
    { apply organelle_id_not_special in Io. destruct Io as (Ne & Np & Nc0).
      intros [C|[C|[C|[]]]]; now symmetry in C. }
    assert (Nk : NoDup (routing_keys cid [MEMBRANE] [])).
    { unfold routing_keys. simpl.
      constructor; [simpl; intuition congruence|]. constructor; [intros []|constructor]. }
    destruct (ModelStructure_init_tables cid the_parser (Some [MEMBRANE]) None ms Nk Em)
      as (Hid & Hm & Hr).
    destruct (ModelStructure_init_fields _ _ _ _ _ Em) as (_ & _ & _ & He).
    split; [exact Hid|]. split; [exact Hm|]. split; [exact Hr|].
    rewrite He. cbn [or_default fold_left dict_set].
    apply py_eqb_neq in Nmb. rewrite Nmb. reflexivity.
Qed.

(** ** [generate_enzyme_set]: the routers of a reaction set *)

Lemma groups_of_map {A B : Type} (f : A -> B) (n m : nat) (l : list A) :
  map (map f) (groups_of n m l) = groups_of n m (map f l).
Proof.
  revert l. induction m as [|m IH]; intros l; simpl; [reflexivity|].
  now rewrite IH, firstn_map, skipn_map.
Qed.

Lemma NoDup_concat_group {A : Type} (ls : list (list A)) (g : list A) :
  NoDup (concat ls) -> In g ls -> NoDup g.
Proof.
  induction ls as [|l ls IH]; intros N I; [destruct I|].
  simpl in N. destruct I as [<-|I].
  - now apply NoDup_app_remove_r in N.
  - apply IH; [|exact I]. now apply NoDup_app_remove_l in N.
Qed.

Lemma dict_keys_app {K V : Type} (d1 d2 : dict K V) :
  dict_keys (d1 ++ d2) = dict_keys d1 ++ dict_keys d2.
Proof. unfold dict_keys. apply map_app. Qed.

Lemma dict_keys_const {K V : Type} (v : V) (ks : list K) :
  dict_keys (map (fun k => (k, v)) ks) = ks.
Proof. unfold dict_keys. rewrite map_map. simpl. apply map_id. Qed.

Lemma set_routing_keys (groups : list (list string)) :
  forall port, dict_keys (set_routing port groups) = concat groups.
Proof.
  induction groups as [|ids groups IH]; intros port; simpl; [reflexivity|].
  unfold dict_keys in *. rewrite map_app, map_map, IH. simpl. now rewrite map_id.
Qed.

Lemma set_routing_get (groups : list (list string)) :
  forall (port : Z) (i : nat) (ids : list string) (eid : string),
    NoDup (concat groups) ->
    nth_error groups i = Some ids -> In eid ids ->
    dict_get (set_routing port groups) eid = Some (port + Z.of_nat i).
Proof.
  intros port i ids eid N E I. apply dict_get_in_wf.
  - unfold wf_dict. now rewrite set_routing_keys.
  - clear N. revert port i E.
    induction groups as [|g groups IH]; intros port i E; [destruct i; discriminate|].
    simpl. apply in_or_app. destruct i as [|i]; simpl in E.
    + injection E as ->. left. rewrite Z.add_0_r.
      apply in_map_iff. now exists eid.
    + right. replace (port + Z.of_nat (S i)) with (port + 1 + Z.of_nat i) by lia.
      now apply IH.
Qed.

Lemma group_routers_length (cid esn : string) (groups : list (list string)) :
  forall port, length (group_routers cid esn port groups) = length groups.
Proof.
  induction groups as [|ids groups IH]; intros port; simpl; [reflexivity|].
  now rewrite IH.
Qed.

Lemma group_routers_nth (cid esn : string) (groups : list (list string)) :
  forall (port : Z) (i : nat) (ids : list string),
    nth_error groups i = Some ids ->
    nth_error (group_routers cid esn port groups) i
    = Some (AddRouter (String.concat "_" [cid; esn; str (port + Z.of_nat i)])
                      (combine ids (ports (length ids)))).
Proof.
  induction groups as [|g groups IH]; intros port i ids E; [destruct i; discriminate|].
  destruct i as [|i]; simpl in E.
  - injection E as ->. simpl. now rewrite Z.add_0_r.
  - replace (port + Z.of_nat (S i)) with (port + 1 + Z.of_nat i) by lia.
    exact (IH (port + 1) i ids E).
Qed.

(** The loop over the groups, when no enzyme id occurs twice. *)
Lemma enzyme_set_groups_loop_exact (cid esn : string) (groups : list (dict string Obj)) :
  forall (ids0 : list (list string)) (table0 : dict string Z) (port0 : Z) (w : World),
    NoDup (dict_keys table0 ++ concat (map dict_keys groups)) ->
    foldM (enzyme_set_group_step cid esn) groups (ids0, table0, port0) w
    = (Ok (ids0 ++ map dict_keys groups,
           table0 ++ set_routing port0 (map dict_keys groups),
           port0 + Z.of_nat (length groups)),
       {| pw_calls := pw_calls w ++ group_routers cid esn port0 (map dict_keys groups);
          cw_calls := cw_calls w |}).
Proof.
  induction groups as [|g groups IH]; intros ids0 table0 port0 w N.
  - simpl. unfold ret. rewrite !app_nil_r, Z.add_0_r. now destruct w.
  - cbn [foldM]. unfold enzyme_set_group_step at 1. cbv zeta.
    cbn [map concat] in N.
    assert (Ng : NoDup (dict_keys g)).
    { apply NoDup_app_remove_l in N. now apply NoDup_app_remove_r in N. }
    assert (E1 : dict_of_pairs (map (fun eid : string => (eid, port0)) (dict_keys g))
                 = map (fun eid : string => (eid, port0)) (dict_keys g)).
    { apply dict_of_pairs_fresh. unfold wf_dict. now rewrite dict_keys_const. }
    assert (E2 : dict_update table0 (map (fun eid : string => (eid, port0)) (dict_keys g))
                 = table0 ++ map (fun eid : string => (eid, port0)) (dict_keys g)).
    { apply dict_update_fresh. rewrite dict_keys_app, dict_keys_const.
      rewrite app_assoc in N. now apply NoDup_app_remove_r in N. }
    assert (E3 : dict_of_pairs (combine (dict_keys g)
                                        (py_range1 (Z.of_nat (length (dict_keys g)))))
                 = combine (dict_keys g) (ports (length (dict_keys g)))).
    { rewrite py_range1_ports. apply dict_of_pairs_fresh. unfold wf_dict.
      unfold dict_keys at 1. rewrite map_fst_combine by (now rewrite ports_length).
      exact Ng. }
    rewrite E1, E2, E3. run_bind.
    rewrite IH.
    + cbn [map set_routing group_routers pw_calls cw_calls length].
      rewrite <- !app_assoc. cbn [app].
      replace (port0 + Z.of_nat (S (length groups)))
        with (port0 + 1 + Z.of_nat (length groups)) by lia.
      reflexivity.
    + rewrite dict_keys_app, dict_keys_const, <- app_assoc. exact N.
Qed.

Lemma generate_enzyme_set_exact (self : ModelGenerator) (cid esn : string)
      (enzyme_set : dict string Obj) (w : World) (groups : list (dict string Obj)) :
  chunks enzyme_set (groups_size self) = Ok groups ->
  NoDup (concat (map dict_keys groups)) ->
  generate_enzyme_set self cid esn enzyme_set w
  = (Ok (coder_enzyme_set (cw_calls w) (WriteEnzymeSet cid esn (map dict_keys groups))),
     {| pw_calls := pw_calls w
                      ++ group_routers cid esn 0 (map dict_keys groups)
                      ++ [AddRouter (String.concat "_" [cid; esn])
                                    (set_routing 0 (map dict_keys groups))];
        cw_calls := cw_calls w ++ [WriteEnzymeSet cid esn (map dict_keys groups)] |}).
Proof.
  intros E N. unfold generate_enzyme_set. rewrite E. run_bind.
  unfold enzyme_set_groups_loop.
  erewrite bind_ok by (apply enzyme_set_groups_loop_exact; exact N).
  cbv beta iota. run_bind.
  unfold write_enzyme_set, cw_record. cbn [cw_calls pw_calls app].
  now rewrite <- app_assoc.
Qed.

(** X9. For a positive group size that [islice] accepts (at most
    [sys.maxsize]), [generate_enzyme_set] registers one router per group,
    named [cid_esn_0], [cid_esn_1], ... in this order, then the router
    [cid_esn] of the reaction set, and writes the enzyme set once. The
    enzyme at position p of the enzyme set is routed by the router of the
    set to group [p div groups_size], and by the router of that group to
    port [p mod groups_size]. *)
Theorem generate_enzyme_set_routers (self : ModelGenerator) (cid esn : string)
        (enzyme_set : dict string Obj) (w : World) :
  wf_dict enzyme_set -> 0 < groups_size self -> groups_size self <= sys_maxsize ->
  exists (group_calls : list pw_call) (routing : dict string Z)
         (groups : list (list string)),
    generate_enzyme_set self cid esn enzyme_set w
    = (Ok (coder_enzyme_set (cw_calls w) (WriteEnzymeSet cid esn groups)),
       {| pw_calls := pw_calls w ++ group_calls
                        ++ [AddRouter (cid ++ "_" ++ esn) routing];
          cw_calls := cw_calls w ++ [WriteEnzymeSet cid esn groups] |}) /\
    Z.of_nat (length group_calls) = ceil_div (dict_len enzyme_set) (groups_size self) /\
    dict_keys routing = dict_keys enzyme_set /\
    forall (p : nat) (eid : string),
      nth_error (dict_keys enzyme_set) p = Some eid ->
      dict_get routing eid = Some (Z.of_nat p / groups_size self) /\
      exists table,
        nth_error group_calls (Z.to_nat (Z.of_nat p / groups_size self))
        = Some (AddRouter (cid ++ "_" ++ esn ++ "_"
                               ++ str (Z.of_nat p / groups_size self)) table) /\
        dict_get table eid = Some (Z.of_nat p mod groups_size self).
Proof.
  intros W HS HM.
  pose proof (chunks_groups enzyme_set (groups_size self) W HS HM) as E.
  destruct (ceil_div_covers _ _ (dict_len_nonneg enzyme_set) HS) as [C0 C1].
  set (n := Z.to_nat (groups_size self)) in *.
  set (m := Z.to_nat (ceil_div (dict_len enzyme_set) (groups_size self))) in *.
  assert (Ek : map dict_keys (groups_of n m enzyme_set)
               = groups_of n m (dict_keys enzyme_set)).
  { apply (groups_of_map fst). }
  assert (Lm : (length (dict_keys enzyme_set) <= m * n)%nat).
  { unfold dict_keys. rewrite length_map. apply Nat2Z.inj_le.
    rewrite Nat2Z.inj_mul. subst n m. rewrite !Z2Nat.id by lia. exact C1. }
  assert (Ec : concat (groups_of n m (dict_keys enzyme_set)) = dict_keys enzyme_set).
  { rewrite groups_of_concat. now apply firstn_all2. }
  assert (Nc : NoDup (concat (map dict_keys (groups_of n m enzyme_set)))).
  { rewrite Ek, Ec. exact W. }
  exists (group_routers cid esn 0 (groups_of n m (dict_keys enzyme_set))),
    (set_routing 0 (groups_of n m (dict_keys enzyme_set))),
    (groups_of n m (dict_keys enzyme_set)).
  split; [|split; [|split]].
  - rewrite (generate_enzyme_set_exact self cid esn enzyme_set w _ E Nc), Ek.
    reflexivity.
  - rewrite group_routers_length, groups_of_length. subst m. lia.
  - now rewrite set_routing_keys.
  - intros p eid Ep.
    assert (Hn : (0 < n)%nat) by (subst n; lia).
    destruct (groups_of_position n m (dict_keys enzyme_set) p eid Hn Lm Ep)
      as (g & Eg & Epos).
    assert (Zn : Z.of_nat n = groups_size self) by (subst n; lia).
    assert (Zd : Z.of_nat p / groups_size self = Z.of_nat (p / n)).
    { rewrite <- Zn. symmetry. apply Nat2Z.inj_div. }
    assert (Zm : Z.of_nat p mod groups_size self = Z.of_nat (p mod n)).
    { rewrite <- Zn. symmetry. apply Nat2Z.inj_mod. }
    rewrite Zd, Zm, Nat2Z.id. split.
    + apply (set_routing_get _ 0 (p / n)%nat g eid); [now rewrite Ec|exact Eg|].
      eapply nth_error_In. exact Epos.
    + eexists. split.
      * apply (group_routers_nth cid esn _ 0 (p / n)%nat g Eg).
      * apply combine_ports_get; [|exact Epos].
        apply (NoDup_concat_group (groups_of n m (dict_keys enzyme_set))).
        -- now rewrite Ec.
        -- eapply nth_error_In. exact Eg.
Qed.

(** X10. [generate_enzyme_set] does not validate the group size: with a
    group size of zero it raises [ValueError] before any writer is
    called; with a negative group size it returns normally after
    registering an empty router for the reaction set and writing an
    enzyme set without any group, whatever enzymes the set holds. *)
Theorem generate_enzyme_set_nonpositive_size (self : ModelGenerator) (cid esn : string)
        (enzyme_set : dict string Obj) (w : World) :
  groups_size self <= 0 ->
  generate_enzyme_set self cid esn enzyme_set w
  = if groups_size self =? 0 then (Raise ValueError, w)
    else (Ok (coder_enzyme_set (cw_calls w) (WriteEnzymeSet cid esn [])),
          {| pw_calls := pw_calls w ++ [AddRouter (cid ++ "_" ++ esn) []];
             cw_calls := cw_calls w ++ [WriteEnzymeSet cid esn []] |}).
Proof.
  intros L. destruct (groups_size self =? 0) eqn:Z0.
  - apply Z.eqb_eq in Z0. unfold generate_enzyme_set. rewrite Z0, chunks_zero_size.
    reflexivity.
  - apply Z.eqb_neq in Z0.
    assert (E : chunks enzyme_set (groups_size self) = Ok [])
      by (apply chunks_negative_size; lia).
    rewrite (generate_enzyme_set_exact self cid esn enzyme_set w [] E); [reflexivity|].
    constructor.
Qed.

(** X22. A positive group size above [sys.maxsize] is not refused when
    the generator is built: [generate_enzyme_set] raises [ValueError]
    (from [islice]) on every enzyme set that is not empty, before any
    writer is called; on an empty enzyme set it returns normally after
    registering an empty router for the reaction set and writing an
    enzyme set without any group. *)
Theorem generate_enzyme_set_above_maxsize (self : ModelGenerator) (cid esn : string)
        (enzyme_set : dict string Obj) (w : World) :
  0 < groups_size self -> sys_maxsize < groups_size self ->
  generate_enzyme_set self cid esn enzyme_set w
  = if dict_len enzyme_set =? 0
    then (Ok (coder_enzyme_set (cw_calls w) (WriteEnzymeSet cid esn [])),
          {| pw_calls := pw_calls w ++ [AddRouter (cid ++ "_" ++ esn) []];
             cw_calls := cw_calls w ++ [WriteEnzymeSet cid esn []] |})
    else (Raise ValueError, w).
Proof.
  intros HS HM.
  pose proof (chunks_over_maxsize enzyme_set (groups_size self) HS HM) as E.
  destruct enzyme_set as [|kv enzyme_set].
  - rewrite (generate_enzyme_set_exact self cid esn [] w [] E); [reflexivity|].
    constructor.
  - unfold generate_enzyme_set. rewrite E.
    erewrite bind_raise by reflexivity. reflexivity.
Qed.

(** ** [generate_enzyme_sets]: one model per reaction set *)

Lemma generate_enzyme_sets_fold_exact (self : ModelGenerator) (cid : string) :
  groups_size self <> 0 -> groups_size self <= sys_maxsize ->
  forall (items : dict string (dict string Obj))
         (acc : dict (string * string) ModelInfo) (w : World),
    NoDup (dict_keys acc ++ map (pair cid) (dict_keys items)) ->
    exists calls w',
      Forall2 (fun item call =>
                 exists groups,
                   chunks (snd item) (groups_size self) = Ok groups /\
                   call = WriteEnzymeSet cid (fst item) (map dict_keys groups))
              items calls /\
      foldM (generate_enzyme_sets_step self cid) items acc w
      = (Ok (acc ++ combine (map (pair cid) (dict_keys items))
                            (enzyme_set_answers (cw_calls w) calls)), w') /\
      cw_calls w' = cw_calls w ++ calls.
Proof.
  intros NZ HM. induction items as [|[esn enzyme_set] items IH]; intros acc w N.
  - exists [], w. split; [constructor|]. simpl. rewrite !app_nil_r. now split.
  - cbn [foldM]. unfold generate_enzyme_sets_step at 1.
    destruct (chunks_ok enzyme_set (groups_size self) NZ HM) as [groups Eg].
    destruct (generate_enzyme_set_run self cid esn enzyme_set w groups Eg)
      as (w1 & R & C1).
    erewrite bind_ok; [|erewrite bind_ok by exact R; reflexivity].
    simpl in N.
    assert (Fr : ~ In (cid, esn) (dict_keys acc)).
    { apply NoDup_remove_2 in N. intros I. apply N. apply in_or_app. now left. }
    rewrite dict_set_fresh by exact Fr.
    match goal with
    | |- context [foldM _ items ?a ?w0] =>
        destruct (IH a w0) as (calls & w' & F & E & C)
    end.
    { rewrite dict_keys_app, <- app_assoc. exact N. }
    exists (WriteEnzymeSet cid esn (map dict_keys groups) :: calls), w'.
    split; [|split].
    + constructor; [|exact F]. now exists groups.
    + rewrite E. cbn [dict_keys map combine enzyme_set_answers fst].
      rewrite C1, <- app_assoc. reflexivity.
    + rewrite C, C1, <- app_assoc. reflexivity.
Qed.

(** X11. For a non-zero group size that [islice] accepts (at most
    [sys.maxsize]), [generate_enzyme_sets] writes one enzyme set per
    reaction set of the compartment, in the order of
    [compartment.enzyme_sets], with the enzyme ids of the groups that
    [chunks] yields, and returns the mapping that sends [(cid, esn)], in
    the same order, to what the code writer answered to the call made
    for [esn]. *)
Theorem generate_enzyme_sets_models (self : ModelGenerator) (c : ModelStructure)
        (w : World) :
  wf_dict (enzyme_sets c) ->
  groups_size self <> 0 -> groups_size self <= sys_maxsize ->
  exists calls w',
    Forall2 (fun item call =>
               exists groups,
                 chunks (snd item) (groups_size self) = Ok groups /\
                 call = WriteEnzymeSet (id c) (fst item) (map dict_keys groups))
            (enzyme_sets c) calls /\
    generate_enzyme_sets self c w
    = (Ok (combine (map (pair (id c)) (dict_keys (enzyme_sets c)))
                   (enzyme_set_answers (cw_calls w) calls)), w') /\
    cw_calls w' = cw_calls w ++ calls.
Proof.
  intros W NZ HM. unfold generate_enzyme_sets.
  destruct (generate_enzyme_sets_fold_exact self (id c) NZ HM (enzyme_sets c) [] w)
    as (calls & w' & F & E & C).
  { simpl. now apply NoDup_map_pair. }
  exists calls, w'. split; [exact F|]. split; [exact E|exact C].
Qed.

(** ** [generate_top]: a zero group size, and when the parameters are saved *)

Lemma generate_enzyme_sets_zero (self : ModelGenerator) (c : ModelStructure) (w : World) :
  groups_size self = 0 -> enzyme_sets c <> [] ->
  generate_enzyme_sets self c w = (Raise ValueError, w).
Proof.
  intros Z0 Hne. unfold generate_enzyme_sets.
  destruct (enzyme_sets c) as [|[esn0 s0] rest]; [contradiction|].
  cbn [foldM]. unfold generate_enzyme_sets_step at 1.
  unfold generate_enzyme_set, chunks, py_range. rewrite Z0. reflexivity.
Qed.

(** X12. On a generator built with a group size of zero, [generate_top]
    raises [ValueError] (from [range]) while the first enzyme set of the
    cytoplasm is generated: the parameter writer has received the
    reactions and the enzymes of the parser, in this order, and nothing
    else; the code writer has received nothing and the parameters are
    not saved. *)
Theorem generate_top_zero_groups_size (the_parser : SBMLParser)
        (extra_cellular_id periplasm_id cytoplasm_id : string)
        (self : ModelGenerator) (top : string) (w : World) :
  ModelGenerator_init the_parser extra_cellular_id periplasm_id cytoplasm_id 0
  = Ok self ->
  generate_top self top w
  = (Raise ValueError,
     {| pw_calls := pw_calls w
                      ++ map (fun '(rid, parameters) => AddReaction rid parameters)
                             (reactions the_parser)
                      ++ map (fun '(eid, parameters) => AddEnzyme eid parameters)
                             (enzymes the_parser);
        cw_calls := cw_calls w |}).
Proof.
  intros Init.
  destruct (ModelGenerator_init_fields _ _ _ _ _ _ Init) as (Hg & _ & _ & Ec & _).
  assert (Hp : parser self = the_parser).
  { unfold ModelGenerator_init in Init.
    destruct (ModelStructure_init periplasm_id _ _ _); cbn [rbind] in Init; [|discriminate].
    destruct (ModelStructure_init extra_cellular_id _ _ _); cbn [rbind] in Init;
      [|discriminate].
    destruct (ModelStructure_init cytoplasm_id _ _ _); cbn [rbind] in Init; [|discriminate].
    destruct (rfold _ _ _); cbn [rbind] in Init; [|discriminate].
    now injection Init as <-. }
  destruct (ModelStructure_init_no_membrane _ _ _ _ Ec) as [He _].
  assert (Eb : forall w0, generate_bulk_compartment self (cytoplasm self) w0
                          = (Raise ValueError, w0)).
  { intros w0. unfold generate_bulk_compartment. erewrite bind_raise; [reflexivity|].
    apply generate_enzyme_sets_zero; [exact Hg|rewrite He; discriminate]. }
  unfold generate_top.
  erewrite bind_ok by (apply generate_top_parameters).
  erewrite bind_ok by (apply generate_top_parameters).
  erewrite bind_raise by (apply Eb).
  rewrite Hp. cbn [pw_calls cw_calls]. now rewrite <- app_assoc.
Qed.

(** *** What reaches the parameter writer *)

Lemma pw_adds_ret {A : Type} (P : pw_call -> Prop) (a : A) : pw_adds P (ret a).
Proof. intros w. exists []. simpl. now rewrite app_nil_r. Qed.

Lemma pw_adds_lift {A : Type} (P : pw_call -> Prop) (r : result A) : pw_adds P (lift r).
Proof. intros w. exists []. simpl. now rewrite app_nil_r. Qed.

Lemma pw_adds_bind {A B : Type} (P : pw_call -> Prop) (m : M A) (k : A -> M B) :
  pw_adds P m -> (forall a, pw_adds P (k a)) -> pw_adds P (bind m k).
Proof.
  intros Hm Hk w. unfold bind. destruct (Hm w) as (c1 & E1 & F1).
  destruct (m w) as [[a|e] w1]; cbn [snd] in E1.
  - destruct (Hk a w1) as (c2 & E2 & F2). exists (c1 ++ c2). split.
    + now rewrite E2, E1, <- app_assoc.
    + apply Forall_app. now split.
  - exists c1. now split.
Qed.

Lemma pw_adds_foldM {A S : Type} (P : pw_call -> Prop) (body : S -> A -> M S) :
  (forall s a, pw_adds P (body s a)) ->
  forall xs s, pw_adds P (foldM body xs s).
Proof.
  intros Hb. induction xs as [|x xs IH]; intros s; cbn [foldM].
  - apply pw_adds_ret.
  - apply pw_adds_bind; [apply Hb|exact IH].
Qed.

Lemma pw_adds_pw_record (P : pw_call -> Prop) (call : pw_call) :
  P call -> pw_adds P (pw_record call).
Proof. intros H w. exists [call]. split; [reflexivity|]. now constructor. Qed.

Lemma pw_adds_cw_record {A : Type} (P : pw_call -> Prop)
      (answer : list cw_call -> cw_call -> A) (call : cw_call) :
  pw_adds P (cw_record answer call).
Proof. intros w. exists []. simpl. now rewrite app_nil_r. Qed.

Lemma generate_enzyme_set_not_save (self : ModelGenerator) (cid esn : string)
      (enzyme_set : dict string Obj) :
  pw_adds not_save (generate_enzyme_set self cid esn enzyme_set).
Proof.
  unfold generate_enzyme_set.
  apply pw_adds_bind; [apply pw_adds_lift|]. intros groups.
  apply pw_adds_bind.
  - unfold enzyme_set_groups_loop. apply pw_adds_foldM.
    intros [[ids table] port] group. unfold enzyme_set_group_step.
    apply pw_adds_bind; [apply pw_adds_pw_record; discriminate|].
    intros _. apply pw_adds_ret.
  - intros [[ids table] port].
    apply pw_adds_bind; [apply pw_adds_pw_record; discriminate|].
    intros _. apply pw_adds_cw_record.
Qed.

Lemma generate_enzyme_sets_not_save (self : ModelGenerator) (c : ModelStructure) :
  pw_adds not_save (generate_enzyme_sets self c).
Proof.
  unfold generate_enzyme_sets. apply pw_adds_foldM.
  intros acc [esn enzyme_set]. unfold generate_enzyme_sets_step.
  apply pw_adds_bind; [apply generate_enzyme_set_not_save|].
  intros model. apply pw_adds_ret.
Qed.

Lemma generate_bulk_compartment_not_save (self : ModelGenerator) (c : ModelStructure) :
  pw_adds not_save (generate_bulk_compartment self c).
Proof.
  unfold generate_bulk_compartment.
  apply pw_adds_bind; [apply generate_enzyme_sets_not_save|]. intros es.
  apply pw_adds_bind; [apply pw_adds_lift|]. intros _.
  apply pw_adds_bind; [apply pw_adds_lift|]. intros [[bulk x] n].
  apply pw_adds_bind; [apply pw_adds_pw_record; discriminate|]. intros _.
  apply pw_adds_bind; [apply pw_adds_lift|]. intros max_port.
  apply pw_adds_bind; [apply pw_adds_cw_record|]. intros space.
  apply pw_adds_bind; [apply pw_adds_lift|]. intros bulk_port_number.
  destruct (bulk_eoc _ _ _) as [out_ports eoc].
  apply pw_adds_cw_record.
Qed.

Lemma generate_organelle_compartment_not_save (self : ModelGenerator)
      (c : ModelStructure) :
  pw_adds not_save (generate_organelle_compartment self c).
Proof.
  unfold generate_organelle_compartment.
  apply pw_adds_bind; [apply generate_enzyme_sets_not_save|]. intros es.
  apply pw_adds_bind; [apply pw_adds_pw_record; discriminate|]. intros _.
  apply pw_adds_bind; [apply pw_adds_cw_record|]. intros space.
  apply pw_adds_bind; [apply pw_adds_lift|]. intros ic.
  destruct (organelle_eoc _) as [[opn out_ports] eoc].
  apply pw_adds_bind; [apply pw_adds_lift|]. intros [in_ports eic].
  apply pw_adds_cw_record.
Qed.

Lemma generate_organelle_models_not_save (self : ModelGenerator)
      (sub_models : list string) :
  pw_adds not_save (generate_organelle_models self sub_models).
Proof.
  unfold generate_organelle_models. apply pw_adds_foldM.
  intros [oms subs] [cid ms]. unfold generate_organelle_models_step.
  apply pw_adds_bind; [apply generate_organelle_compartment_not_save|]. intros model.
  apply pw_adds_bind; [apply pw_adds_lift|]. intros [[name x] n].
  apply pw_adds_ret.
Qed.

Lemma saves_last_bind {A B : Type} (m : M A) (k : A -> M B) :
  pw_adds not_save m -> (forall a, saves_last (k a)) -> saves_last (bind m k).
Proof.
  intros Hm Hk w. unfold bind. destruct (Hm w) as (c1 & E1 & F1).
  destruct (m w) as [[a|e] w1]; cbn [snd] in E1.
  - specialize (Hk a w1). destruct (k a w1) as [[b|e] w2].
    + destruct Hk as (c2 & E2 & F2). exists (c1 ++ c2). split.
      * now rewrite E2, E1, <- !app_assoc.
      * apply Forall_app. now split.
    + destruct Hk as (c2 & E2 & F2). exists (c1 ++ c2). split.
      * now rewrite E2, E1, <- !app_assoc.
      * apply Forall_app. now split.
  - exists c1. now split.
Qed.

(** X13. Whatever the generator, [generate_top] calls [save_xml] at most
    once: when it returns, [save_xml] is the last call the parameter
    writer has received, after all the reactions, enzymes, routers and
    spaces; when it raises, the parameters have not been saved. What the
    parameter writer had received before is kept in both cases. *)
Theorem generate_top_saves_last (self : ModelGenerator) (top : string) (w : World) :
  match generate_top self top w with
  | (Ok _, w') =>
      exists calls,
        pw_calls w' = pw_calls w ++ calls ++ [SaveXml] /\
        Forall (fun call => call <> SaveXml) calls
  | (Raise _, w') =>
      exists calls,
        pw_calls w' = pw_calls w ++ calls /\
        Forall (fun call => call <> SaveXml) calls
  end.
Proof.
  revert w. change (saves_last (generate_top self top)). unfold generate_top.
  apply saves_last_bind.
  { apply pw_adds_foldM. intros _ [rid x]. apply pw_adds_pw_record. discriminate. }
  intros _. apply saves_last_bind.
  { apply pw_adds_foldM. intros _ [eid x]. apply pw_adds_pw_record. discriminate. }
  intros _. apply saves_last_bind; [apply generate_bulk_compartment_not_save|].
  intros [[cm x1] n1]. apply saves_last_bind; [apply generate_bulk_compartment_not_save|].
  intros [[em x2] n2].
  apply saves_last_bind; [apply generate_organelle_compartment_not_save|].
  intros [[pm x3] n3].
  apply saves_last_bind; [apply generate_organelle_models_not_save|].
  intros [oms subs]. apply saves_last_bind; [apply pw_adds_lift|].
  intros ic1. apply saves_last_bind; [apply pw_adds_lift|].
  intros ic2. apply saves_last_bind; [apply pw_adds_lift|].
  intros ic w0. cbn. exists []. split; [reflexivity|constructor].
Qed.

(** ** [generate_bulk_compartment]: the coupled model of a bulk compartment *)

Lemma bulk_eoc_spec (cid space : string) (table : dict (string * string) Z) :
  forall out_ports eoc,
    fold_left (bulk_eoc_step cid space) table (out_ports, eoc)
    = (out_ports ++ map (fun p => [VInt p; VStr REACTANT_MESSAGE_TYPE; VStr "out"])
                        (foreign_ports cid table),
       eoc ++ map (fun p => [VStr space; VStr (space_struct space); VInt p; VInt p])
                  (foreign_ports cid table)).
Proof.
  unfold foreign_ports.
  induction table as [|[[es_cid esn] p] table IH]; intros out_ports eoc.
  - simpl. now rewrite !app_nil_r.
  - cbn [fold_left filter fst]. unfold bulk_eoc_step at 2.
    destruct (negb (py_eqb es_cid cid)).
    + rewrite IH. cbn [map snd]. now rewrite <- !app_assoc.
    + apply IH.
Qed.

Lemma fold_max_spec (xs : list Z) :
  forall x, In (fold_left Z.max xs x) (x :: xs) /\
            forall p, In p (x :: xs) -> p <= fold_left Z.max xs x.
Proof.
  induction xs as [|y xs IH]; intros x; simpl.
  - split; [now left|]. intros p [<-|[]]. lia.
  - destruct (IH (Z.max x y)) as [I B]. split.
    + destruct I as [E|I]; [|right; now right].
      rewrite <- E. destruct (Z.max_spec x y) as [[_ ->]|[_ ->]]; auto.
    + intros p [<-|[<-|J]].
      * specialize (B (Z.max x y) (or_introl eq_refl)). lia.
      * specialize (B (Z.max x y) (or_introl eq_refl)). lia.
      * apply B. now right.
Qed.

Lemma py_max_spec (xs : list Z) (m : Z) :
  py_max xs = Ok m -> In m xs /\ forall p, In p xs -> p <= m.
Proof.
  destruct xs as [|x xs]; [discriminate|]. simpl. intros [= <-].
  apply fold_max_spec.
Qed.

(** A run of [generate_bulk_compartment] that returns. *)
Lemma generate_bulk_compartment_exact (self : ModelGenerator) (c : ModelStructure)
      (w w' : World) (info : ModelInfo) :
  generate_bulk_compartment self c w = (Ok info, w') ->
  exists es w1 bulk x n max_port bulk_port_number space,
    generate_enzyme_sets self c w = (Ok es, w1) /\
    dict_len es = 1 /\
    dict_get es (id c, BULK) = Some (bulk, x, n) /\
    dict_get (routing_table c) (id c, BULK) = Some bulk_port_number /\
    py_max (dict_values (routing_table c)) = Ok max_port /\
    space = coder_space (cw_calls w1)
                        (WriteSpaceAtomic (id c) [id c] (max_port + 1) 1
                                          PRODUCT_MESSAGE_TYPE REACTANT_MESSAGE_TYPE
                                          INFORMATION_MESSAGE_TYPE) /\
    pw_calls w'
    = pw_calls w1 ++ [AddSpace (id c) (space_parameters c) (routing_table c)] /\
    cw_calls w'
    = cw_calls w1
        ++ [WriteSpaceAtomic (id c) [id c] (max_port + 1) 1
                             PRODUCT_MESSAGE_TYPE REACTANT_MESSAGE_TYPE
                             INFORMATION_MESSAGE_TYPE;
            bulk_coupled_model (id c) space bulk bulk_port_number
                               (foreign_ports (id c) (routing_table c))] /\
    info = coder_coupled
             (cw_calls w1
                ++ [WriteSpaceAtomic (id c) [id c] (max_port + 1) 1
                                     PRODUCT_MESSAGE_TYPE REACTANT_MESSAGE_TYPE
                                     INFORMATION_MESSAGE_TYPE])
             (bulk_coupled_model (id c) space bulk bulk_port_number
                                 (foreign_ports (id c) (routing_table c))).
Proof.
  intros R. unfold generate_bulk_compartment in R.
  destruct (generate_enzyme_sets self c w) as [[es|e] w1] eqn:Ee.
  2:{ erewrite bind_raise in R by exact Ee. discriminate R. }
  erewrite bind_ok in R by exact Ee.
  destruct (dict_len es =? 1) eqn:L.
  2:{ erewrite bind_raise in R by reflexivity. discriminate R. }
  erewrite bind_ok in R by reflexivity.
  unfold dict_getitem in R.
  destruct (dict_get es (id c, BULK)) as [[[bulk x] n]|] eqn:Gb.
  2:{ erewrite bind_raise in R by reflexivity. discriminate R. }
  erewrite bind_ok in R by reflexivity. cbv beta iota in R.
  erewrite bind_ok in R by reflexivity.
  destruct (py_max (dict_values (routing_table c))) as [max_port|e] eqn:Mx.
  2:{ erewrite bind_raise in R by reflexivity. discriminate R. }
  erewrite bind_ok in R by reflexivity.
  erewrite bind_ok in R by reflexivity.
  destruct (dict_get (routing_table c) (id c, BULK)) as [bp|] eqn:Gp.
  2:{ erewrite bind_raise in R by reflexivity. discriminate R. }
  erewrite bind_ok in R by reflexivity.
  unfold bulk_eoc in R. rewrite bulk_eoc_spec in R. cbn [app] in R.
  unfold write_coupled_model, cw_record in R. cbn [cw_calls pw_calls] in R.
  injection R as Ri Rw.
  exists es, w1, bulk, x, n, max_port, bp. eexists.
  split; [reflexivity|]. split; [now apply Z.eqb_eq|]. split; [exact Gb|].
  split; [reflexivity|]. split; [reflexivity|]. split; [reflexivity|].
  rewrite <- Rw, <- Ri. cbn [pw_calls cw_calls].
  split; [reflexivity|]. split; [|reflexivity].
  now rewrite <- app_assoc.
Qed.


Lemma foreign_ports_all (cid : string) (keys : list (string * string)) (ps : list Z) :
  length keys = length ps ->
  (forall k, In k keys -> fst k <> cid) ->
  foreign_ports cid (combine keys ps) = ps.
Proof.
  unfold foreign_ports. revert ps.
  induction keys as [|k keys IH]; intros [|p ps] L F; simpl in L; try discriminate;
    [reflexivity|].
  cbn [combine filter fst].
  assert (N : py_eqb (fst k) cid = false) by (apply py_eqb_neq, F; now left).
  rewrite N. cbn [negb map snd]. f_equal. apply IH; [now injection L|].
  intros k0 I. apply F. now right.
Qed.

Lemma ports_succ (n : nat) : ports (S n) = 0 :: py_range2 1 (1 + Z.of_nat n).
Proof.
  unfold ports. cbn [seq map]. f_equal. rewrite py_range2_from.
  replace (Z.to_nat (1 + Z.of_nat n - 1)) with n by lia.
  rewrite <- seq_shift, map_map. apply map_ext. intros i. lia.
Qed.

Lemma py_max_ports (n : nat) : py_max (ports (S n)) = Ok (Z.of_nat n).
Proof.
  destruct (py_max (ports (S n))) as [m|e] eqn:E; [|discriminate E].
  destruct (py_max_spec _ _ E) as [I B]. f_equal.
  assert (Hn : In (Z.of_nat n) (ports (S n))).
  { unfold ports. apply in_map. apply in_seq. lia. }
  apply B in Hn. unfold ports in I. apply in_map_iff in I.
  destruct I as (i & <- & I). apply in_seq in I. lia.
Qed.

(** X15. A compartment built by [ModelStructure.__init__] without
    membranes, with pairwise distinct external (supplier, set) pairs of
    other compartments, is generated by [generate_bulk_compartment] for
    every non-zero group size that [islice] accepts (at most
    [sys.maxsize]): the code writer receives the enzyme set of the bulk,
    the space with as many output ports as the routing table has entries
    (one per external pair, plus the bulk), and the coupled model in
    which the space reaches the bulk through port 0 and exposes the ports
    1, ..., N - 1 in increasing order, each once. *)
Theorem generate_bulk_compartment_init (self : ModelGenerator) (cid : string)
        (the_parser : SBMLParser)
        (external_enzyme_sets : option (dict string (list string)))
        (c : ModelStructure) (w : World) :
  ModelStructure_init cid the_parser None external_enzyme_sets = Ok c ->
  NoDup (external_keys (or_default external_enzyme_sets [])) ->
  (forall supplier reaction_sets,
      In (supplier, reaction_sets) (or_default external_enzyme_sets []) ->
      supplier <> cid) ->
  groups_size self <> 0 -> groups_size self <= sys_maxsize ->
  exists groups bulk x n space info w',
    chunks (get_enzyme_set the_parser cid BULK) (groups_size self) = Ok groups /\
    coder_enzyme_set (cw_calls w) (WriteEnzymeSet cid BULK (map dict_keys groups))
    = (bulk, x, n) /\
    dict_len (routing_table c)
    = 1 + Z.of_nat (length (external_keys (or_default external_enzyme_sets []))) /\
    space = coder_space
              (cw_calls w ++ [WriteEnzymeSet cid BULK (map dict_keys groups)])
              (WriteSpaceAtomic cid [cid] (dict_len (routing_table c)) 1
                                PRODUCT_MESSAGE_TYPE REACTANT_MESSAGE_TYPE
                                INFORMATION_MESSAGE_TYPE) /\
    generate_bulk_compartment self c w = (Ok info, w') /\
    cw_calls w'
    = cw_calls w
        ++ [WriteEnzymeSet cid BULK (map dict_keys groups);
            WriteSpaceAtomic cid [cid] (dict_len (routing_table c)) 1
                             PRODUCT_MESSAGE_TYPE REACTANT_MESSAGE_TYPE
                             INFORMATION_MESSAGE_TYPE;
            WriteCoupled
              cid [space; bulk]
              ([ [VStr "0_product"; VStr PRODUCT_MESSAGE_TYPE; VStr "in"];
                 [VStr "0_information"; VStr INFORMATION_MESSAGE_TYPE; VStr "in"] ]
                 ++ map (fun p => [VInt p; VStr REACTANT_MESSAGE_TYPE; VStr "out"])
                        (py_range2 1 (dict_len (routing_table c))))
              [ [VStr space; VStr (space_struct space); VStr "0_product";
                 VStr "0_product"];
                [VStr space; VStr (space_struct space); VStr "0_information";
                 VStr "0_information"] ]
              (map (fun p => [VStr space; VStr (space_struct space); VInt p; VInt p])
                   (py_range2 1 (dict_len (routing_table c))))
              [ [VStr space; VStr ("pmgbp::structs::" ++ space ++ "::" ++ space);
                 VInt 0; VStr bulk; VStr "pmgbp::models::enzyme"; VInt 0];
                [VStr bulk; VStr "pmgbp::models::enzyme"; VStr "0_product";
                 VStr space; VStr ("pmgbp::structs::" ++ space ++ "::" ++ space);
                 VStr "0_product"];
                [VStr bulk; VStr "pmgbp::models::enzyme"; VStr "0_information";
                 VStr space; VStr ("pmgbp::structs::" ++ space ++ "::" ++ space);
                 VStr "0_information"] ]].
Proof.
  intros Ei Ne Hs NZ HM.
  set (ek := external_keys (or_default external_enzyme_sets [])) in *.
  assert (Fk : forall k, In k ek -> fst k <> cid).
  { intros k I. subst ek. unfold external_keys in I. apply in_flat_map in I.
    destruct I as ([s l] & Is & Ik). apply in_map_iff in Ik.
    destruct Ik as (r & <- & _). simpl. now apply (Hs s l). }
  assert (Nk : NoDup (routing_keys cid (or_default None [])
                                   (or_default external_enzyme_sets []))).
  { unfold routing_keys. cbn [or_default map app]. fold ek. constructor; [|exact Ne].
    intros I. now apply (Fk _ I). }
  destruct (ModelStructure_init_tables cid the_parser None external_enzyme_sets c Nk Ei)
    as (Hid & _ & Hr).
  unfold routing_keys in Hr. cbn [or_default map app length] in Hr. fold ek in Hr.
  destruct (ModelStructure_init_no_membrane _ _ _ _ Ei) as [He _].
  destruct (generate_bulk_compartment_init_ok self cid the_parser external_enzyme_sets
              c w Ei NZ HM) as (info & w' & R).
  destruct (generate_bulk_compartment_exact self c w w' info R)
    as (es & w1 & bulk & x & n & mx & bp & space & Ee & L & Gb & Gp & Mx & Es & Pw & Cw & _).
  unfold generate_enzyme_sets in Ee. rewrite Hid, He in Ee.
  destruct (generate_enzyme_sets_fold_exact self cid NZ HM
              [(BULK, get_enzyme_set the_parser cid BULK)] [] w)
    as (calls & w1' & F & Ee' & C1).
  { simpl. constructor; [intros []|constructor]. }
  rewrite Ee in Ee'. injection Ee' as -> <-.
  destruct calls as [|call [|call2 calls]];
    [inversion F| |inversion F as [|? ? ? ? _ F']; inversion F'].
  assert (Hc : exists groups,
             chunks (get_enzyme_set the_parser cid BULK) (groups_size self) = Ok groups /\
             call = WriteEnzymeSet cid BULK (map dict_keys groups)).
  { inversion F as [|? ? ? ? Hc _]. exact Hc. }
  clear F. destruct Hc as (groups & Eg & Ec). rewrite Ec in *. clear Ec call.
  cbn [dict_keys map combine enzyme_set_answers app] in Gb, L.
  rewrite Hid in Gb. cbn [dict_get] in Gb. rewrite py_eqb_refl in Gb.
  injection Gb as Gb.
  assert (Hv : dict_values (routing_table c) = ports (S (length ek))).
  { rewrite Hr. unfold dict_values. apply map_snd_combine.
    now rewrite ports_length. }
  rewrite Hv, py_max_ports in Mx. injection Mx as <-.
  assert (Hl : dict_len (routing_table c) = 1 + Z.of_nat (length ek)).
  { unfold dict_len. rewrite Hr, length_combine, ports_length. simpl length. lia. }
  assert (Hf : foreign_ports cid (routing_table c) = py_range2 1 (1 + Z.of_nat (length ek))).
  { rewrite Hr, ports_succ. unfold foreign_ports. cbn [combine filter fst].
    rewrite py_eqb_refl. cbn [negb].
    apply (foreign_ports_all cid ek); [|exact Fk].
    rewrite py_range2_from, length_map, length_seq. lia. }
  assert (Hb : bp = 0).
  { rewrite Hid, Hr in Gp. cbn [ports seq map combine dict_get] in Gp.
    rewrite py_eqb_refl in Gp. now injection Gp. }
  exists groups, bulk, x, n, space, info, w'.
  split; [exact Eg|]. split; [exact Gb|]. split; [exact Hl|].
  rewrite Hid, Hf, C1 in *. rewrite Hb in Cw.
  replace (Z.of_nat (length ek) + 1) with (dict_len (routing_table c)) in * by lia.
  rewrite <- Hl in Cw.
  split; [exact Es|]. split; [exact R|].
  rewrite Cw. unfold bulk_coupled_model. rewrite <- app_assoc. reflexivity.
Qed.

Lemma two_keys_length {A : Type} (l : list A) (a b : A) :
  In a l -> In b l -> a <> b -> (2 <= length l)%nat.
Proof.
  destruct l as [|x [|y l]]; simpl; intros Ia Ib N; try lia; try contradiction.
  destruct Ia as [<-|[]], Ib as [<-|[]]. contradiction.
Qed.

(** X16. A compartment built by [ModelStructure.__init__] with a
    membrane other than the bulk is refused by
    [generate_bulk_compartment]: for a non-zero group size that [islice]
    accepts (at most [sys.maxsize]) its enzyme sets are generated, more
    than one, and the assertion raises [AssertionError] right after,
    before the space is registered or written: the code writer has
    received enzyme sets only. *)
Theorem generate_bulk_compartment_refuses_membranes
        (self : ModelGenerator) (cid : string) (the_parser : SBMLParser)
        (membranes : list string)
        (external_enzyme_sets : option (dict string (list string)))
        (c : ModelStructure) (w : World) :
  ModelStructure_init cid the_parser (Some membranes) external_enzyme_sets = Ok c ->
  groups_size self <> 0 -> groups_size self <= sys_maxsize ->
  (exists m, In m membranes /\ m <> BULK) ->
  exists es w1 calls,
    generate_enzyme_sets self c w = (Ok es, w1) /\
    1 < dict_len es /\
    generate_bulk_compartment self c w = (Raise AssertionError, w1) /\
    cw_calls w1 = cw_calls w ++ calls /\
    Forall is_enzyme_set_call calls.
Proof.
  intros Ei NZ HM (m & Im & Nm).
  destruct (ModelStructure_init_bulk_key _ _ _ _ _ Ei) as (_ & _ & Hw & Hk & _).
  destruct (generate_enzyme_sets_run self c w NZ HM)
    as (es & w1 & calls & Ee & Cc & Fc & _ & Hkeys).
  exists es, w1, calls.
  assert (L : 1 < dict_len es).
  { unfold dict_len. rewrite <- (length_map fst). fold (dict_keys es).
    rewrite (Hkeys Hw), length_map.
    assert (2 <= length (dict_keys (enzyme_sets c)))%nat; [|lia].
    apply (two_keys_length _ m BULK); [| |exact Nm].
    - apply Hk. right. exact Im.
    - apply Hk. now left. }
  split; [exact Ee|]. split; [exact L|]. split; [|now split].
  apply generate_bulk_compartment_fails with (es := es); [exact Ee|lia].
Qed.

(** ** [generate_organelle_compartment]: inputs, sub-models and missing sets *)

Lemma organelle_eic_spec (c : ModelStructure) (es : dict (string * string) ModelInfo)
      (table : dict string Z) :
  forall in_ports eic r,
    rfold (organelle_eic_step c es) table (in_ports, eic) = Ok r ->
    fst r = in_ports
              ++ map (fun item => [VInt (snd item); VStr REACTANT_MESSAGE_TYPE; VStr "in"])
                     table /\
    exists edges,
      snd r = eic ++ edges /\
      Forall2 (fun item edge =>
                 exists name x n,
                   dict_get es (id c, fst item) = Some (name, x, n) /\
                   edge = [VStr name; VStr enzyme_model; VInt 0; VInt (snd item)])
              table edges.
Proof.
  induction table as [|[m p] table IH]; intros in_ports eic r E.
  - simpl in E. injection E as <-. cbn [fst snd map]. rewrite app_nil_r.
    split; [reflexivity|]. exists []. rewrite app_nil_r. split; [reflexivity|constructor].
  - cbn [rfold] in E. unfold organelle_eic_step at 1 in E. unfold dict_getitem in E.
    destruct (dict_get es (id c, m)) as [[[name x] n]|] eqn:G; cbn [rbind] in E;
      [|discriminate].
    destruct (IH _ _ _ E) as (Hp & edges & He & F).
    split.
    + rewrite Hp. cbn [map snd]. now rewrite <- app_assoc.
    + exists ([VStr name; VStr enzyme_model; VInt 0; VInt p] :: edges). split.
      * rewrite He. now rewrite <- app_assoc.
      * constructor; [|exact F]. now exists name, x, n.
Qed.

(** X17. Whenever [generate_organelle_compartment] returns, the space
    has been registered with the compartment's routing table and written
    with one output port per generated enzyme set and one input port;
    the coupled model written last has as sub-models the space followed
    by the enzyme-set models in the order of the enzyme sets; its ports
    are the output ports followed by one input port per membrane, in the
    order of [membrane_eic] and numbered as there; and its external
    input coupling has, for each membrane in the same order, the one
    edge from that input port to port 0 of the membrane's model, and no
    edge for the bulk. *)
Theorem generate_organelle_compartment_inputs (self : ModelGenerator)
        (c : ModelStructure) (w w' : World) (info : ModelInfo) :
  generate_organelle_compartment self c w = (Ok info, w') ->
  exists es w1 space out_ports eic eoc ic,
    generate_enzyme_sets self c w = (Ok es, w1) /\
    space = coder_space (cw_calls w1)
                        (WriteSpaceAtomic (id c) [id c] (dict_len es) 1
                                          PRODUCT_MESSAGE_TYPE REACTANT_MESSAGE_TYPE
                                          INFORMATION_MESSAGE_TYPE) /\
    pw_calls w'
    = pw_calls w1 ++ [AddSpace (id c) (space_parameters c) (routing_table c)] /\
    cw_calls w'
    = cw_calls w1
        ++ [WriteSpaceAtomic (id c) [id c] (dict_len es) 1
                             PRODUCT_MESSAGE_TYPE REACTANT_MESSAGE_TYPE
                             INFORMATION_MESSAGE_TYPE;
            WriteCoupled
              (id c)
              (space :: map (fun '(es_model_name, _, _) => es_model_name)
                            (dict_values es))
              (out_ports
                 ++ map (fun item =>
                           [VInt (snd item); VStr REACTANT_MESSAGE_TYPE; VStr "in"])
                        (membrane_eic c))
              eic eoc ic] /\
    Forall2 (fun item edge =>
               exists name x n,
                 dict_get es (id c, fst item) = Some (name, x, n) /\
                 edge = [VStr name; VStr enzyme_model; VInt 0; VInt (snd item)])
            (membrane_eic c) eic.
Proof.
  intros R.
  destruct (generate_enzyme_sets self c w) as [[es|e] w1] eqn:Ee.
  2:{ unfold generate_organelle_compartment in R.
      erewrite bind_raise in R by exact Ee. discriminate R. }
  destruct (generate_organelle_compartment_run self c w w1 es Ee)
    as (space_call & space & w2 & Esc & Esp & Ew2 & R').
  rewrite R in R'.
  destruct (organelle_ic c space es) as [ic|e]; [|discriminate R'].
  destruct (organelle_eic c es) as [[in_ports eic]|e] eqn:Eeic; [|discriminate R'].
  cbv zeta in R'. injection R' as _ Ew.
  destruct (organelle_eic_spec c es (membrane_eic c) [] [] _ Eeic)
    as (Hp & edges & He & F).
  cbn [fst snd app] in Hp, He. subst in_ports eic.
  exists es, w1, space. do 4 eexists. split; [reflexivity|].
  split; [rewrite Esp, Esc; reflexivity|].
  rewrite Ew, Ew2, Esc. cbn [pw_calls cw_calls].
  split; [reflexivity|]. split; [|exact F].
  rewrite <- app_assoc. reflexivity.
Qed.

Lemma organelle_ic_raises (c : ModelStructure) (space : string)
      (es : dict (string * string) ModelInfo) (table : dict (string * string) Z) :
  forall ic,
    match rfold (organelle_ic_step c space es) table ic with
    | Ok _ => forall k p, In (k, p) table -> In k (dict_keys es)
    | Raise e => e = AssertionError \/ e = KeyError
    end.
Proof.
  induction table as [|[k p] table IH]; intros ic; cbn [rfold].
  - intros k p [].
  - unfold organelle_ic_step at 1.
    destruct (negb (py_eqb (fst k) (id c))); cbn [rbind]; [now left|].
    unfold dict_getitem. destruct (dict_get es k) as [[[name x] n]|] eqn:G; cbn [rbind];
      [|now right].
    specialize (IH (ic ++ ic_edges space name p)).
    destruct (rfold _ table _) as [r|e]; [|exact IH].
    intros k0 p0 [[= <- <-]|I]; [now apply dict_get_some_key in G|now apply (IH k0 p0)].
Qed.

(** X18. When every key of the compartment's routing table carries the
    compartment's own id but one of them names a reaction set that is
    none of the compartment's enzyme sets (an external supplier that is
    the compartment itself), [generate_organelle_compartment] raises,
    for a non-zero group size that [islice] accepts (at most
    [sys.maxsize]), [KeyError], not [AssertionError], from the lookup of
    the model of that reaction set, and writes no coupled model. *)
Theorem generate_organelle_compartment_KeyError (self : ModelGenerator)
        (c : ModelStructure) (w : World) :
  groups_size self <> 0 -> groups_size self <= sys_maxsize ->
  (forall k p, In (k, p) (routing_table c) -> fst k = id c) ->
  (exists esn p, In ((id c, esn), p) (routing_table c) /\
                 ~ In esn (dict_keys (enzyme_sets c))) ->
  exists w' calls,
    generate_organelle_compartment self c w = (Raise KeyError, w') /\
    cw_calls w' = cw_calls w ++ calls /\
    Forall (fun call => ~ is_coupled_call call) calls.
Proof.
  intros NZ HM Own (esn & p & I & N).
  destruct (generate_enzyme_sets_run self c w NZ HM)
    as (es & w1 & calls & Ee & Cc & Fc & Hes & _).
  destruct (generate_organelle_compartment_run self c w w1 es Ee)
    as (space_call & space & w2 & Esc & Esp & Ew2 & R).
  pose proof (organelle_ic_raises c space es (routing_table c) []) as Hr.
  pose proof (organelle_ic_own_keys c space es (routing_table c) Own []) as Ha.
  unfold organelle_ic in R.
  destruct (rfold (organelle_ic_step c space es) (routing_table c) []) as [ic|e].
  - exfalso. apply N. specialize (Hr _ _ I). apply Hes in Hr.
    apply in_map_iff in Hr. destruct Hr as (esn' & [= <-] & Hr). exact Hr.
  - assert (e = KeyError) by (destruct Hr as [ -> | -> ]; [contradiction|reflexivity]).
    subst e. exists w2, (calls ++ [space_call]). split; [exact R|]. split.
    + rewrite Ew2. cbn [cw_calls]. now rewrite Cc, <- app_assoc.
    + apply Forall_app. split; [now apply is_enzyme_set_call_not_coupled|].
      constructor; [|constructor]. rewrite Esc. simpl. tauto.
Qed.

(** ** [generate_top]: the wiring of the cell *)





Lemma generate_organelle_models_exact (self : ModelGenerator)
      (items : dict string ModelStructure) :
  (forall cid ms, In (cid, ms) items ->
                  forall w, exists info w',
                      generate_organelle_compartment self ms w = (Ok info, w')) ->
  forall (oms0 : dict string ModelInfo) (subs0 : list string) (w : World),
    NoDup (dict_keys oms0 ++ dict_keys items) ->
    exists infos w',
      length infos = length items /\
      foldM (generate_organelle_models_step self) items (oms0, subs0) w
      = (Ok (oms0 ++ combine (dict_keys items) infos,
             subs0 ++ map (fun '(name, _, _) => name) infos), w').
Proof.
  induction items as [|[cid ms] items IH]; intros Hok oms0 subs0 w N.
  - exists [], w. split; [reflexivity|]. simpl. now rewrite !app_nil_r.
  - destruct (Hok cid ms (or_introl eq_refl) w) as ([[name x] n] & w1 & R).
    simpl in N.
    assert (Fr : ~ In cid (dict_keys oms0)).
    { apply NoDup_remove_2 in N. intros I. apply N. apply in_or_app. now left. }
    cbn [foldM]. unfold generate_organelle_models_step at 1.
    erewrite bind_ok.
    2:{ erewrite bind_ok by exact R. cbv beta iota zeta.
        unfold dict_getitem. rewrite dict_get_set_same. run_bind. reflexivity. }
    rewrite dict_set_fresh by exact Fr.
    destruct (IH (fun cid0 ms0 I => Hok cid0 ms0 (or_intror I))
                 (oms0 ++ [(cid, (name, x, n))]) (subs0 ++ [name]) w1)
      as (infos & w' & L & E).
    { rewrite dict_keys_app, <- app_assoc. exact N. }
    exists ((name, x, n) :: infos), w'. split; [simpl; now rewrite L|].
    etransitivity; [exact E|].
    cbn [dict_keys map combine fst]. now rewrite <- !app_assoc.
Qed.

Lemma top_organelle_ic_exact (self : ModelGenerator)
      (cytoplasm_model extra_cellular_model : string)
      (organelle_models : dict string ModelInfo) :
  (forall cid info,
      In (cid, info) organelle_models ->
      exists ms cp,
        dict_get (organelles self) cid = Some ms /\
        membrane_eic ms = [(MEMBRANE, 0)] /\
        dict_get (routing_table (cytoplasm self)) (cid, MEMBRANE) = Some cp) ->
  forall ic, exists contribs,
    top_organelle_ic self cytoplasm_model extra_cellular_model organelle_models ic
    = Ok (ic ++ concat contribs) /\
    Forall2 (fun '(cid, (name, _, output_port_amount)) edges =>
               exists c_port_number,
                 dict_get (routing_table (cytoplasm self)) (cid, MEMBRANE)
                 = Some c_port_number /\
                 edges = organelle_edges cytoplasm_model extra_cellular_model name
                                         output_port_amount c_port_number 0)
            organelle_models contribs.
Proof.
  unfold top_organelle_ic.
  induction organelle_models as [|[cid [[name x] opa]] oms IH]; intros Hok ic.
  - exists []. simpl. rewrite app_nil_r. split; [reflexivity|constructor].
  - destruct (Hok cid (name, x, opa) (or_introl eq_refl)) as (ms & cp & Go & Em & Gc).
    cbn [rfold]. unfold top_organelle_ic_step at 1. unfold dict_getitem.
    rewrite Go. cbn [rbind]. rewrite Em. cbn [rfold].
    rewrite (top_organelle_ic_membrane_run self cytoplasm_model extra_cellular_model
               cid name MEMBRANE opa cp 0 ic Gc).
    cbn [rbind].
    destruct (IH (fun cid0 info0 I => Hok cid0 info0 (or_intror I))
                 (ic ++ organelle_edges cytoplasm_model extra_cellular_model
                                        name opa cp 0))
      as (cs & E & F).
    exists (organelle_edges cytoplasm_model extra_cellular_model name opa cp 0 :: cs).
    split; [rewrite E; cbn [concat]; now rewrite <- app_assoc|].
    constructor; [|exact F]. now exists cp.
Qed.

(** X20. On a generator built by [ModelGenerator.__init__] with a
    non-zero group size that [islice] accepts (at most [sys.maxsize]),
    [generate_top] generates, after the parameters of the reactions and
    enzymes, the cytoplasm, the extracellular space, the periplasm and
    then the organelles in the order of
    [self.organelles], and writes last the top model: without ports and
    without external couplings, with these models as sub-models in this
    order, and with an internal coupling that is exactly the bulk
    coupling of the cytoplasm, then that of the extracellular space,
    then the edges of each organelle in the same order, and nothing
    else. *)
Theorem generate_top_coupling (the_parser : SBMLParser)
        (extra_cellular_id periplasm_id cytoplasm_id : string) (the_groups_size : Z)
        (self : ModelGenerator) (top : string) (w : World) :
  ModelGenerator_init the_parser extra_cellular_id periplasm_id cytoplasm_id
                      the_groups_size = Ok self ->
  the_groups_size <> 0 -> the_groups_size <= sys_maxsize ->
  exists w1 w2 w3 w4 cm x1 n1 em x2 n2 pm x3 n3 oms subs ic1 ic2 contribs w',
    generate_bulk_compartment
      self (cytoplasm self)
      {| pw_calls := pw_calls w
                       ++ map (fun '(rid, parameters) => AddReaction rid parameters)
                              (reactions (parser self))
                       ++ map (fun '(eid, parameters) => AddEnzyme eid parameters)
                              (enzymes (parser self));
         cw_calls := cw_calls w |}
    = (Ok (cm, x1, n1), w1) /\
    generate_bulk_compartment self (extra_cellular self) w1 = (Ok (em, x2, n2), w2) /\
    generate_organelle_compartment self (periplasm self) w2 = (Ok (pm, x3, n3), w3) /\
    generate_organelle_models self [cm; em; pm] w3 = (Ok (oms, subs), w4) /\
    dict_keys oms = dict_keys (organelles self) /\
    subs = [cm; em; pm] ++ map (fun '(_, (name, _, _)) => name) oms /\
    generate_top_bulk_ic self cm (id (cytoplasm self)) (routing_table (cytoplasm self))
                         pm = Ok ic1 /\
    generate_top_bulk_ic self em (id (extra_cellular self))
                         (routing_table (extra_cellular self)) pm = Ok ic2 /\
    Forall2 (fun '(cid, (name, _, output_port_amount)) edges =>
               exists c_port_number,
                 dict_get (routing_table (cytoplasm self)) (cid, MEMBRANE)
                 = Some c_port_number /\
                 edges = organelle_edges cm em name output_port_amount c_port_number 0)
            oms contribs /\
    generate_top self top w
    = (Ok (coder_coupled (cw_calls w4)
                         (WriteCoupled top subs [] [] [] (ic1 ++ ic2 ++ concat contribs))),
       w') /\
    pw_calls w' = pw_calls w4 ++ [SaveXml] /\
    cw_calls w'
    = cw_calls w4 ++ [WriteCoupled top subs [] [] [] (ic1 ++ ic2 ++ concat contribs)].
Proof.
  intros Init NZ0 HM0.
  destruct (ModelGenerator_init_fields _ _ _ _ _ _ Init)
    as (Hg & Ep & Ee & Ec & Wo & Ho & Hk).
  assert (NZ : groups_size self <> 0) by now rewrite Hg.
  assert (HM : groups_size self <= sys_maxsize) by now rewrite Hg.
  destruct (generate_top_parameters self w) as [Ea _].
  match type of Ea with
  | _ = (_, ?wa) => destruct (generate_top_parameters self wa) as [_ Eb]
  end.
  cbn [pw_calls cw_calls] in Eb. rewrite <- app_assoc in Eb.
  match type of Eb with
  | _ = (_, ?w0) =>
      destruct (generate_bulk_compartment_init_ok self _ _ _ _ w0 Ec NZ HM)
        as ([[cm x1] n1] & w1 & R1)
  end.
  destruct (generate_bulk_compartment_init_ok self _ _ _ _ w1 Ee NZ HM)
    as ([[em x2] n2] & w2 & R2).
  destruct (generate_organelle_compartment_init_ok self _ _ _ _ w2 Ep NZ HM)
    as ([[pm x3] n3] & w3 & R3).
  destruct (generate_organelle_models_exact self (organelles self)) with
      (oms0 := @nil (string * ModelInfo)) (subs0 := [cm; em; pm]) (w := w3)
    as (infos & w4 & Li & R4).
  { intros cid ms I w5.
    exact (generate_organelle_compartment_init_ok self _ _ _ _ w5 (Ho cid ms I) NZ HM). }
  { exact Wo. }
  cbn [app] in R4.
  set (oms := combine (dict_keys (organelles self)) infos) in *.
  assert (Lk : length (dict_keys (organelles self)) = length infos).
  { unfold dict_keys. now rewrite length_map. }
  assert (Hkeys : dict_keys oms = dict_keys (organelles self)).
  { subst oms. unfold dict_keys at 1. now apply map_fst_combine. }
  assert (Hsubs : map (fun '(name, _, _) => name) infos
                  = map (fun '(_, (name, _, _)) => name) oms).
  { subst oms. clear R4. revert Lk. generalize (dict_keys (organelles self)).
    clear. induction infos as [|[[name x] n] infos IH]; intros [|k ks] L;
      simpl in L; try discriminate; [reflexivity|].
    simpl. f_equal. apply IH. now injection L. }
  destruct (generate_top_bulk_ic_init_ok _ _ _ _ _ self Init cm pm) as [[ic1 E1] _].
  destruct (generate_top_bulk_ic_init_ok _ _ _ _ _ self Init em pm) as [_ [ic2 E2]].
  destruct (top_organelle_ic_exact self cm em oms) with (ic := ic1 ++ ic2)
    as (contribs & E3 & F).
  { intros cid info I.
    assert (Ik : In cid (dict_keys (organelles self))).
    { rewrite <- Hkeys. now apply key_of_item with (v := info). }
    destruct (dict_get_in_keys _ _ Ik) as [ms Gm].
    pose proof (dict_get_some_in _ _ _ Gm) as Im.
    destruct (organelle_structure _ _ _ _ _ self Init cid ms Im)
      as (_ & Em & [cp Gc] & _).
    now exists ms, cp. }
  assert (R4' : generate_organelle_models self [cm; em; pm] w3
                = (Ok (oms, [cm; em; pm] ++ map (fun '(_, (name, _, _)) => name) oms),
                   w4)).
  { unfold generate_organelle_models. etransitivity; [exact R4|].
    rewrite Hsubs. reflexivity. }
  clear R4. rename R4' into R4.
  exists w1, w2, w3, w4, cm, x1, n1, em, x2, n2, pm, x3, n3, oms.
  exists ([cm; em; pm] ++ map (fun '(_, (name, _, _)) => name) oms), ic1, ic2, contribs.
  eexists.
  split; [exact R1|]. split; [exact R2|]. split; [exact R3|].
  split; [exact R4|].
  split; [exact Hkeys|]. split; [reflexivity|].
  split; [exact E1|]. split; [exact E2|]. split; [exact F|].
  unfold generate_top.
  erewrite bind_ok by exact Ea. erewrite bind_ok by exact Eb.
  erewrite bind_ok by exact R1. cbv beta iota.
  erewrite bind_ok by exact R2. cbv beta iota.
  erewrite bind_ok by exact R3. cbv beta iota.
  erewrite bind_ok by exact R4. cbv beta iota.
  rewrite E1, E2. do 2 run_bind. rewrite E3. do 2 run_bind.
  unfold write_coupled_model, cw_record. cbn [cw_calls pw_calls].
  rewrite <- app_assoc. repeat split; reflexivity.
Qed.


(** ** [ModelStructure.__init__]: what holds for every input *)

Lemma dict_set_length_le {K V : Type} `{PyEq K} (d : dict K V) (k : K) (v : V) :
  (length (dict_set d k v) <= S (length d))%nat.
Proof.
  induction d as [|[k' v'] d IH]; simpl; [lia|].
  destruct (py_eqb k k'); simpl; lia.
Qed.

Lemma dict_update_length_le {K V : Type} `{PyEq K} (kvs d : dict K V) :
  (length (dict_update d kvs) <= length d + length kvs)%nat.
Proof.
  unfold dict_update. revert d. induction kvs as [|[k v] kvs IH]; intros d; simpl; [lia|].
  specialize (IH (dict_set d k v)). pose proof (dict_set_length_le d k v). lia.
Qed.

Lemma internal_routing_table_bound (cid : string) (l : list string) :
  (length (internal_routing_table cid l) <= length l)%nat /\
  forall k q, In (k, q) (internal_routing_table cid l) -> 0 <= q < Z.of_nat (length l).
Proof.
  unfold internal_routing_table, dict_of_pairs. rewrite py_range1_ports. split.
  - etransitivity; [apply dict_update_length_le|].
    rewrite length_map, length_combine, ports_length. simpl. lia.
  - intros k q I. apply dict_update_in in I. destruct I as [[]|I].
    apply in_map_iff in I. destruct I as ([esn port] & [= _ ->] & I).
    apply in_combine_r in I. unfold ports in I. apply in_map_iff in I.
    destruct I as (i & <- & I). apply in_seq in I. lia.
Qed.

Lemma external_sets_bound (external_cid : string) (reaction_sets : list string) (U : Z) :
  forall (table : dict (string * string) Z) (n : Z),
    0 <= n -> n + Z.of_nat (length reaction_sets) <= U ->
    wf_dict table ->
    (forall k q, In (k, q) table -> 0 <= q < U) ->
    exists table',
      fold_left
        (fun '(table, port_number) reaction_set =>
           (dict_set table (external_cid, reaction_set) port_number, port_number + 1))
        reaction_sets (table, n)
      = (table', n + Z.of_nat (length reaction_sets)) /\
      wf_dict table' /\
      forall k q, In (k, q) table' -> 0 <= q < U.
Proof.
  induction reaction_sets as [|r rs IH]; intros table n Hn Hu W B; cbn [fold_left].
  - exists table. cbn [length]. rewrite Z.add_0_r. now split.
  - cbn [length] in Hu.
    destruct (IH (dict_set table (external_cid, r) n) (n + 1)) as (t' & E & W' & B').
    + lia.
    + lia.
    + now apply dict_set_wf.
    + intros k q I. apply dict_set_in in I. destruct I as [[= _ ->]|I]; [lia|].
      now apply (B k q).
    + exists t'. split; [|now split]. rewrite E. f_equal. cbn [length]. lia.
Qed.

Lemma external_routing_table_bound (ext : dict string (list string)) (U : Z) :
  forall (table : dict (string * string) Z) (n : Z),
    0 <= n -> n + Z.of_nat (length (external_keys ext)) <= U ->
    wf_dict table ->
    (forall k q, In (k, q) table -> 0 <= q < U) ->
    wf_dict (fst (external_routing_table ext (table, n))) /\
    forall k q, In (k, q) (fst (external_routing_table ext (table, n))) -> 0 <= q < U.
Proof.
  unfold external_routing_table.
  induction ext as [|[external_cid reaction_sets] ext IH]; intros table n Hn Hu W B.
  - now split.
  - cbn [fold_left]. unfold external_keys in Hu. cbn [flat_map] in Hu.
    rewrite length_app, length_map in Hu. fold (external_keys ext) in Hu.
    destruct (external_sets_bound external_cid reaction_sets U table n)
      as (t' & E & W' & B'); try assumption; [lia|].
    rewrite E. apply IH; try assumption; lia.
Qed.

(** X21. Whatever the membranes and the external reaction sets, also
    with repeated or colliding names, the tables of a compartment built
    by [ModelStructure.__init__] keep these invariants: the keys of the
    routing table are exactly (own id, BULK), (own id, m) for the
    membranes m and the external (supplier, set) pairs; the keys of
    [membrane_eic] are exactly the membranes; every port of the routing
    table lies in [0, 1 + |membranes| + number of external sets) and
    every port of [membrane_eic] in [0, |membranes|). *)
Theorem ModelStructure_init_invariants (cid : string) (the_parser : SBMLParser)
        (membranes : option (list string))
        (external_enzyme_sets : option (dict string (list string)))
        (c : ModelStructure) :
  ModelStructure_init cid the_parser membranes external_enzyme_sets = Ok c ->
  wf_dict (routing_table c) /\
  (forall k, In k (dict_keys (routing_table c)) <->
             In k (routing_keys cid (or_default membranes [])
                                (or_default external_enzyme_sets []))) /\
  (forall k q,
      In (k, q) (routing_table c) ->
      0 <= q < 1 + Z.of_nat (length (or_default membranes []))
               + Z.of_nat (length (external_keys (or_default external_enzyme_sets [])))) /\
  wf_dict (membrane_eic c) /\
  (forall m, In m (dict_keys (membrane_eic c)) <-> In m (or_default membranes [])) /\
  (forall m q, In (m, q) (membrane_eic c) ->
               0 <= q < Z.of_nat (length (or_default membranes []))).
Proof.
  intros E. destruct (ModelStructure_init_fields _ _ _ _ _ E) as (_ & Hr & Hm & _).
  set (ms := or_default membranes []) in *.
  set (es := or_default external_enzyme_sets []) in *.
  destruct (internal_routing_table_bound cid (BULK :: ms)) as [Li Bi].
  cbn [length] in Li, Bi.
  destruct (external_routing_table_bound
              es (1 + Z.of_nat (length ms) + Z.of_nat (length (external_keys es)))
              (internal_routing_table cid (BULK :: ms))
              (dict_len (internal_routing_table cid (BULK :: ms))))
    as [Wr Br].
  { apply dict_len_nonneg. }
  { unfold dict_len. lia. }
  { apply internal_routing_table_wf. }
  { intros k q I. specialize (Bi k q I). lia. }
  rewrite <- Hr in Wr, Br.
  split; [exact Wr|]. split; [|split; [exact Br|]].
  - intros k. rewrite Hr, external_routing_table_keys, internal_routing_table_keys.
    unfold routing_keys. simpl. rewrite in_app_iff. tauto.
  - rewrite Hm. split; [|split].
    + unfold dict_of_pairs. apply dict_update_wf. constructor.
    + apply ModelStructure_init_membrane_eic_keys.
    + intros m q I. unfold dict_of_pairs in I. apply dict_update_in in I.
      destruct I as [[]|I]. rewrite py_range1_ports in I.
      apply in_combine_r in I. unfold ports in I. apply in_map_iff in I.
      destruct I as (i & <- & I). apply in_seq in I. lia.
Qed.

End Generator.

End Platform.

Local Open Scope string_scope.
Local Open Scope Z_scope.
Local Open Scope list_scope.

(** * A concrete model

    A parser with four compartments (cytoplasm [c], extracellular space
    [e], periplasm [p], one organelle [o]), three enzymes per reaction
    set, and writers that answer with the model name and an output port
    amount; sample values for the names of [constants.py]. The general
    theorems are applied to it below. *)

Definition example_parser : SBMLParser unit :=
  {| get_enzyme_set := fun cid esn =>
       [ ((cid ++ "_" ++ esn ++ "_e1")%string, tt);
         ((cid ++ "_" ++ esn ++ "_e2")%string, tt);
         ((cid ++ "_" ++ esn ++ "_e3")%string, tt) ];
     get_related_reaction_parameters := fun _ => [("r1", tt)];
     metabolite_amounts := [("m1", tt)];
     parse_compartments_species :=
       [("c", [("m1", tt)]); ("e", []); ("p", []); ("o", [])];
     interval_times := [("c", tt); ("e", tt); ("p", tt); ("o", tt)];
     get_compartment_volume := fun _ => tt;
     get_enzymes := fun _ => tt;
     get_compartments := ["c"; "e"; "p"; "o"];
     reactions := [("r1", tt)];
     enzymes := [("e1", tt)] |}.

Definition example_enzyme_set_answer (calls : list (cw_call)) (call : cw_call)
  : ModelInfo unit :=
  match call with
  | WriteEnzymeSet cid esn _ =>
      ((cid ++ "_" ++ esn)%string, tt, if String.eqb esn "bulk" then 1 else 3)
  | _ => ("", tt, 0)
  end.

Definition example_space_answer (calls : list (cw_call)) (call : cw_call) : string :=
  match call with
  | WriteSpaceAtomic cid _ _ _ _ _ _ => (cid ++ "_space")%string
  | _ => ""
  end.

Definition example_coupled_answer (calls : list (cw_call)) (call : cw_call)
  : ModelInfo unit :=
  match call with
  | WriteCoupled name _ _ _ _ _ => (name, tt, 3)
  | _ => ("", tt, 0)
  end.

Definition empty_world : World unit := {| pw_calls := []; cw_calls := [] |}.

Definition empty_structure : ModelStructure unit :=
  {| id := "";
     routing_table := [];
     membrane_eic := [];
     enzyme_sets := [];
     space_parameters :=
       {| sp_cid := ""; sp_interval_time := tt; sp_metabolites := [];
          sp_reaction_parameters := []; sp_volume := tt; sp_enzymes := tt |} |}.

Definition structure_of (r : result (ModelStructure unit)) : ModelStructure unit :=
  match r with
  | Ok c => c
  | Raise _ => empty_structure
  end.

Definition example_init (cid : string) (membranes : option (list string))
           (external_enzyme_sets : option (dict string (list string)))
  : result (ModelStructure unit) :=
  ModelStructure_init "bulk" cid example_parser membranes external_enzyme_sets.

Definition example_periplasm : ModelStructure unit :=
  structure_of (example_init "p" (Some ["outer_membrane"; "inner_membrane";
                                        "trans_membrane"]) None).

Definition example_cytoplasm : ModelStructure unit :=
  structure_of (example_init "c" None
                             (Some [("o", ["membrane"]);
                                    ("p", ["inner_membrane"; "trans_membrane"])])).

Definition example_generator_init (the_groups_size : Z) : result (ModelGenerator unit) :=
  ModelGenerator_init "bulk" "outer_membrane" "inner_membrane" "trans_membrane"
                      "membrane" example_parser "e" "p" "c" the_groups_size.

Definition example_generator : ModelGenerator unit :=
  match example_generator_init 2 with
  | Ok self => self
  | Raise _ =>
      {| groups_size := 2; parser := example_parser;
         periplasm := empty_structure; extra_cellular := empty_structure;
         cytoplasm := empty_structure; organelles := [] |}
  end.

(** [sys.maxsize] of a 64-bit interpreter. *)
Definition example_maxsize : Z := 9223372036854775807.

Definition five_enzymes : dict string unit :=
  [("e1", tt); ("e2", tt); ("e3", tt); ("e4", tt); ("e5", tt)].

(** The same generator with a group size of zero, with a negative one
    and with one above [sys.maxsize], and a periplasm-like compartment
    that lists itself as external supplier of a reaction set it does not
    hold. *)
Definition example_generator_zero : ModelGenerator unit :=
  match example_generator_init 0 with
  | Ok self => self
  | Raise _ => example_generator
  end.

Definition example_generator_negative : ModelGenerator unit :=
  {| groups_size := -3;
     parser := example_parser;
     periplasm := periplasm example_generator;
     extra_cellular := extra_cellular example_generator;
     cytoplasm := cytoplasm example_generator;
     organelles := organelles example_generator |}.

Definition example_generator_oversize : ModelGenerator unit :=
  {| groups_size := example_maxsize + 1;
     parser := example_parser;
     periplasm := periplasm example_generator;
     extra_cellular := extra_cellular example_generator;
     cytoplasm := cytoplasm example_generator;
     organelles := organelles example_generator |}.

Definition example_self_supplier : ModelStructure unit :=
  structure_of (example_init "p" (Some ["membrane"]) (Some [("p", ["foreign"])])).

(** The same compartment with a reaction set of the cytoplasm after the
    one it supplies to itself. *)
Definition example_self_then_foreign : ModelStructure unit :=
  structure_of (example_init "p" (Some ["membrane"])
                             (Some [("p", ["foreign"]); ("c", ["bulk"])])).

(** A cytoplasm-like compartment that is supplied the bulk reaction set
    of the periplasm, which is no membrane. *)
Definition example_bulk_to_periplasm_bulk : ModelStructure unit :=
  structure_of (example_init "c" None (Some [("p", ["bulk"])])).

(** A periplasm-like compartment whose membranes repeat a name and
    reuse the bulk name, and whose external sets collide with its own. *)
Definition example_colliding : ModelStructure unit :=
  structure_of (example_init "p" (Some ["bulk"; "membrane"; "membrane"])
                             (Some [("p", ["membrane"]); ("c", ["bulk"])])).

Ltac nodup_strings := repeat constructor; simpl; intuition discriminate.

(** ** The theorems at the concrete model *)

(** The periplasm of the concrete scenario of C1. *)
Lemma ModelStructure_init_routing_scenario :
  membrane_eic example_periplasm
  = [("outer_membrane", 0); ("inner_membrane", 1); ("trans_membrane", 2)] /\
  routing_table example_periplasm
  = [(("p", "bulk"), 0); (("p", "outer_membrane"), 1); (("p", "inner_membrane"), 2);
     (("p", "trans_membrane"), 3)].
Proof.
  destruct (ModelStructure_init_routing
              unit "bulk" "outer_membrane" "inner_membrane" "trans_membrane" "p"
              example_parser
              (Some ["outer_membrane"; "inner_membrane"; "trans_membrane"]) None
              example_periplasm)
    as (_ & _ & _ & _ & _ & _ & Scenario).
  - nodup_strings.
  - reflexivity.
  - apply Scenario; reflexivity.
Defined.

(** A membrane named like the bulk: the membrane names are distinct and
    there is no external pair, yet the routing table has one entry
    instead of two, and its only port is 1. *)
Lemma ModelStructure_init_membrane_named_bulk :
  NoDup ["bulk"] /\
  NoDup (external_keys (@nil (string * list string))) /\
  exists c,
    example_init "p" (Some ["bulk"]) None = Ok c /\
    routing_table c = [(("p", "bulk"), 1)] /\
    length (routing_table c) <> (1 + length ["bulk"] + 0)%nat /\
    dict_values (routing_table c) <> ports (length (routing_table c)).
Proof.
  split; [nodup_strings|]. split; [constructor|].
  eexists. split; [reflexivity|]. split; [reflexivity|].
  split; discriminate.
Qed.

(** Five entries in groups of two. *)
Lemma chunks_partition_five :
  exists groups,
    chunks example_maxsize five_enzymes 2 = Ok groups /\
    Z.of_nat (length groups) = 3 /\
    concat groups = five_enzymes.
Proof.
  destruct (chunks_partition example_maxsize five_enzymes 2) as [Small _].
  - nodup_strings.
  - reflexivity.
  - destruct Small as (groups & E & L & _ & C & _).
    + unfold example_maxsize. lia.
    + exists groups. split; [exact E|]. split; [exact L|exact C].
Defined.

(** Five entries with a positive size that [islice] refuses: no group is
    yielded, [ValueError] is raised. *)
Lemma chunks_above_maxsize_five :
  0 < example_maxsize + 1 /\
  wf_dict five_enzymes /\
  chunks example_maxsize five_enzymes (example_maxsize + 1) = Raise ValueError.
Proof.
  split; [reflexivity|]. split; [nodup_strings|reflexivity].
Qed.

(** Five enzymes with a group size of two: more than 2 * 2 enzymes. *)
Lemma generate_enzyme_set_no_limit_five :
  exists groups w',
    generate_enzyme_set example_maxsize example_enzyme_set_answer example_generator
                        "c" "bulk" five_enzymes empty_world
    = (Ok (example_enzyme_set_answer [] (WriteEnzymeSet "c" "bulk" groups)), w') /\
    2 < Z.of_nat (length groups).
Proof.
  destruct (generate_enzyme_set_no_limit example_maxsize unit example_enzyme_set_answer
              example_generator "c" "bulk" five_enzymes empty_world)
    as (groups & w' & R & _ & _ & _ & Big).
  - nodup_strings.
  - reflexivity.
  - vm_compute. discriminate.
  - exists groups, w'. split; [exact R|]. apply Big. reflexivity.
Defined.

(** No error is raised for an enzyme set above the ceiling: with a
    group size of 2 an enzyme set of 5 > 2 * 2 enzymes is written as
    three groups. *)
Lemma generate_enzyme_set_exceeds_ceiling :
  groups_size example_generator * groups_size example_generator
  < dict_len five_enzymes /\
  exists w',
    generate_enzyme_set example_maxsize example_enzyme_set_answer example_generator
                        "c" "bulk" five_enzymes empty_world
    = (Ok ("c_bulk", tt, 1), w') /\
    cw_calls w' = [WriteEnzymeSet "c" "bulk" [["e1"; "e2"]; ["e3"; "e4"]; ["e5"]]].
Proof.
  split; [reflexivity|]. eexists. split; reflexivity.
Qed.

(** The cytoplasm has one reaction set: the assertion passes. *)
Lemma generate_bulk_compartment_cytoplasm :
  exists es w1 info w',
    generate_enzyme_sets example_maxsize example_enzyme_set_answer example_generator
                         example_cytoplasm empty_world = (Ok es, w1) /\
    dict_len es = 1 /\
    generate_bulk_compartment example_maxsize "bulk" "Product" "Reactant" "Information"
                              example_enzyme_set_answer example_space_answer
                              example_coupled_answer example_generator
                              example_cytoplasm empty_world
    = (Ok info, w').
Proof.
  destruct (generate_enzyme_sets example_maxsize example_enzyme_set_answer example_generator
                                 example_cytoplasm empty_world)
    as [[es|e] w1] eqn:E; [|vm_compute in E; discriminate E].
  assert (L : dict_len es = 1) by (vm_compute in E; now injection E as <- _).
  destruct (generate_bulk_compartment_asserts_one_set
              example_maxsize unit "bulk" "Product" "Reactant" "Information"
              example_enzyme_set_answer example_space_answer example_coupled_answer
              example_generator "c" example_parser None
              (Some [("o", ["membrane"]); ("p", ["inner_membrane"; "trans_membrane"])])
              example_cytoplasm empty_world w1 es)
    as [Pass _].
  - reflexivity.
  - exact E.
  - destruct (Pass L) as (sc & subs & ports & eic & eoc & ic & w' & R & _).
    exists es, w1. eexists. exists w'. split; [reflexivity|]. split; [exact L|exact R].
Defined.

(** The periplasm routes to its own reaction sets only and is generated
    with three internal edges per routing-table entry; the cytoplasm
    routes to other compartments and is refused as an organelle
    compartment at its first foreign entry. *)
Lemma generate_organelle_compartment_periplasm :
  (exists es w1 info w' subs ports eic eoc contribs,
      generate_enzyme_sets example_maxsize example_enzyme_set_answer example_generator
                           example_periplasm empty_world = (Ok es, w1) /\
      generate_organelle_compartment example_maxsize "Product" "Reactant" "Information"
                                     example_enzyme_set_answer example_space_answer
                                     example_coupled_answer example_generator
                                     example_periplasm empty_world
      = (Ok info, w') /\
      cw_calls w'
      = cw_calls w1
          ++ [WriteSpaceAtomic "p" ["p"] 4 1 "Product" "Reactant" "Information";
              WriteCoupled "p" subs ports eic eoc (concat contribs)] /\
      Forall2 (organelle_entry_edges "p_space" es)
              (routing_table example_periplasm) contribs) /\
  (exists w',
      generate_organelle_compartment example_maxsize "Product" "Reactant" "Information"
                                     example_enzyme_set_answer example_space_answer
                                     example_coupled_answer example_generator
                                     example_cytoplasm empty_world
      = (Raise AssertionError, w') /\
      cw_calls w'
      = [WriteEnzymeSet "c" "bulk" [["c_bulk_e1"; "c_bulk_e2"]; ["c_bulk_e3"]];
         WriteSpaceAtomic "c" ["c"] 1 1 "Product" "Reactant" "Information"]).
Proof.
  split.
  - edestruct (generate_organelle_compartment_asserts_own_sets
                 example_maxsize unit "bulk" "Product" "Reactant" "Information"
                 example_enzyme_set_answer example_space_answer example_coupled_answer
                 example_generator "p" example_parser
                 (Some ["outer_membrane"; "inner_membrane"; "trans_membrane"]) None
                 example_periplasm empty_world)
      as (_ & _ & _ & Good).
    + reflexivity.
    + vm_compute. reflexivity.
    + destruct Good as (subs & ports & eic & eoc & cs & R & F).
      * intros k p I. vm_compute in I.
        repeat (destruct I as [I|I]; [injection I as <- _; vm_compute; tauto|]).
        contradiction.
      * do 4 eexists. exists subs, ports, eic, eoc, cs.
        split; [vm_compute; reflexivity|]. split; [exact R|].
        split; [reflexivity|exact F].
  - edestruct (generate_organelle_compartment_asserts_own_sets
                 example_maxsize unit "bulk" "Product" "Reactant" "Information"
                 example_enzyme_set_answer example_space_answer example_coupled_answer
                 example_generator "c" example_parser None
                 (Some [("o", ["membrane"]);
                        ("p", ["inner_membrane"; "trans_membrane"])])
                 example_cytoplasm empty_world)
      as (_ & First & _).
    + reflexivity.
    + vm_compute. reflexivity.
    + destruct (First [(("c", "bulk"), 0)] ("o", "membrane") 1
                      [(("p", "inner_membrane"), 2); (("p", "trans_membrane"), 3)])
        as [Foreign _].
      * reflexivity.
      * intros k p [I|[]]. injection I as <- _. vm_compute. tauto.
      * eexists. split; [apply Foreign; discriminate|reflexivity].
Defined.

(** A compartment that lists itself as supplier of a reaction set it
    does not hold: every key of its routing table carries its own id, yet
    no internal coupling is built, the lookup raises [KeyError]; and when
    a key of another compartment follows, it is again [KeyError] that is
    raised, not [AssertionError]. *)
Lemma generate_organelle_compartment_own_key_missing :
  (forall k p, In (k, p) (routing_table example_self_supplier) ->
               fst k = id example_self_supplier) /\
  (exists w',
      generate_organelle_compartment example_maxsize "Product" "Reactant" "Information"
                                     example_enzyme_set_answer example_space_answer
                                     example_coupled_answer example_generator
                                     example_self_supplier empty_world
      = (Raise KeyError, w')) /\
  In (("c", "bulk"), 3) (routing_table example_self_then_foreign) /\
  "c" <> id example_self_then_foreign /\
  (exists w',
      generate_organelle_compartment example_maxsize "Product" "Reactant" "Information"
                                     example_enzyme_set_answer example_space_answer
                                     example_coupled_answer example_generator
                                     example_self_then_foreign empty_world
      = (Raise KeyError, w')).
Proof.
  split.
  { intros k p I. vm_compute in I.
    repeat (destruct I as [I|I]; [injection I as <- _; reflexivity|]).
    contradiction. }
  split; [eexists; vm_compute; reflexivity|].
  split; [vm_compute; tauto|]. split; [discriminate|].
  eexists. vm_compute. reflexivity.
Qed.

(** The coupled model of the periplasm: three membranes with output
    port amount 3, the bulk with output port amount 1. *)
Lemma generate_organelle_compartment_eoc_periplasm :
  exists info w' prev sub_models ports eic eoc ic,
    generate_organelle_compartment example_maxsize "Product" "Reactant" "Information"
                                   example_enzyme_set_answer example_space_answer
                                   example_coupled_answer example_generator
                                   example_periplasm empty_world
    = (Ok info, w') /\
    cw_calls w' = prev ++ [WriteCoupled "p" sub_models ports eic eoc ic] /\
    (forall name,
        ~ In [VStr name; VStr enzyme_model; VStr "0_product"; VStr "0_product"] eoc) /\
    (count_occ tuple_eq_dec ports [VStr "1_product"; VStr "Product"; VStr "out"]
     <= 1)%nat.
Proof.
  destruct (generate_organelle_compartment example_maxsize
              "Product" "Reactant" "Information"
              example_enzyme_set_answer example_space_answer example_coupled_answer
              example_generator example_periplasm empty_world)
    as [[info|e] w'] eqn:E; [|vm_compute in E; discriminate E].
  destruct (generate_organelle_compartment_eoc
              example_maxsize unit "Product" "Reactant" "Information"
              example_enzyme_set_answer example_space_answer example_coupled_answer
              example_generator example_periplasm empty_world w' info E)
    as (es & w1 & prev & subs & ports & eic & eoc & ic & _ & C & _ & _ & _ & Zero & Once).
  exists info, w', prev, subs, ports, eic, eoc, ic.
  split; [reflexivity|]. split; [exact C|]. split.
  - intros name. apply Zero.
  - apply (Once 1).
Defined.

(** The cytoplasm's routing table in [generate_top_bulk_ic]: the
    function returns the two edges from the periplasm's output port 1
    and the contributions of the entries. *)
Lemma generate_top_bulk_ic_routing_cytoplasm :
  exists contribs,
    generate_top_bulk_ic example_generator "c" "c"
                         (routing_table (cytoplasm example_generator)) "p"
    = Ok ([VStr "p"; VStr "p"; VStr "1_product"; VStr "c"; VStr "c"; VStr "0_product"]
            :: [VStr "p"; VStr "p"; VStr "1_information";
                VStr "c"; VStr "c"; VStr "0_information"]
            :: concat contribs) /\
    Forall2 (bulk_entry_edges example_generator "c" "c" "p")
            (routing_table (cytoplasm example_generator)) contribs.
Proof.
  destruct (generate_top_bulk_ic_routing
              unit example_generator "c" "c"
              (routing_table (cytoplasm example_generator)) "p") as (n & Hn & R).
  destruct (generate_top_bulk_ic example_generator "c" "c"
                                 (routing_table (cytoplasm example_generator)) "p")
    as [ic|e] eqn:E; [|vm_compute in E; discriminate E].
  destruct Hn as [[_ ->]|[N _]]; [|exfalso; apply N; reflexivity].
  destruct R as (_ & cs & -> & F). exists cs. split; [reflexivity|exact F].
Defined.

(** An entry of the periplasm that names a reaction set without
    membrane input port raises [KeyError], and the entries of the
    periplasm's own table, passed as the bulk table, give no edge. *)
Lemma generate_top_bulk_ic_periplasm_entry_without_edge :
  In (("p", "bulk"), 1) (routing_table example_bulk_to_periplasm_bulk) /\
  id (periplasm example_generator) = "p" /\
  generate_top_bulk_ic example_generator "c" "c"
                       (routing_table example_bulk_to_periplasm_bulk) "p"
  = Raise KeyError /\
  In (("p", "inner_membrane"), 2) (routing_table (periplasm example_generator)) /\
  generate_top_bulk_ic example_generator "p" "p"
                       (routing_table (periplasm example_generator)) "p"
  = Ok [ [VStr "p"; VStr "p"; VStr "2_product"; VStr "p"; VStr "p"; VStr "0_product"];
         [VStr "p"; VStr "p"; VStr "2_information";
          VStr "p"; VStr "p"; VStr "0_information"] ].
Proof.
  split; [vm_compute; tauto|]. split; [reflexivity|]. split; [reflexivity|].
  split; [vm_compute; tauto|reflexivity].
Qed.

Definition example_organelle : ModelStructure unit :=
  snd (hd ("", empty_structure) (organelles example_generator)).

(** Compute the result of a run and name its components. *)
Ltac run_example R := vm_compute in R; injection R; clear R; intros; subst.

(** The whole model is generated, and its coupling holds the edges of
    the organelle [o]: driven from the cytoplasm's port 1, the port of
    [(o, membrane)] in the cytoplasm's routing table, and returning to
    the cytoplasm and, its output port amount being 3, to the
    extracellular space. *)
Lemma generate_top_organelle_edges_example :
  exists info w' prev subs ic,
    generate_top example_maxsize "bulk" "Product" "Reactant" "Information"
                 example_enzyme_set_answer example_space_answer
                 example_coupled_answer example_generator "cell" empty_world
    = (Ok info, w') /\
    cw_calls w' = prev ++ [WriteCoupled "cell" subs [] [] [] ic] /\
    dict_get (routing_table (cytoplasm example_generator)) ("o", "membrane") = Some 1 /\
    In [VStr "c"; VInt 1; VStr "o"; VInt 0] ic /\
    In [VStr "o"; VStr "o"; VStr "1_product"; VStr "c"; VStr "c"; VStr "0_product"] ic /\
    In [VStr "o"; VStr "o"; VStr "1_information";
        VStr "c"; VStr "c"; VStr "0_information"] ic /\
    In [VStr "o"; VStr "o"; VStr "2_product"; VStr "e"; VStr "e"; VStr "0_product"] ic /\
    In [VStr "o"; VStr "o"; VStr "2_information";
        VStr "e"; VStr "e"; VStr "0_information"] ic.
Proof.
  destruct (generate_top_organelle_edges
              example_maxsize
              unit "bulk" "outer_membrane" "inner_membrane" "trans_membrane" "membrane"
              "Product" "Reactant" "Information"
              example_enzyme_set_answer example_space_answer example_coupled_answer
              example_parser "e" "p" "c" 2 example_generator "cell" empty_world)
    as (w1 & w2 & w3 & w4 & cm & x1 & n1 & em & x2 & n2 & pm & x3 & n3 & oms
        & subs & ic & info & w' & R1 & R2 & R3 & R4 & R & C & Edges).
  - reflexivity.
  - discriminate.
  - vm_compute. discriminate.
  - destruct (Edges "o" example_organelle) as (name & x & opa & G & Hm & Hp & Hi & Ho).
    { vm_compute. left. reflexivity. }
    destruct (Hm "membrane" 0) as (cp & Gc & Ic).
    { vm_compute. left. reflexivity. }
    run_example R1. run_example R2. run_example R3. run_example R4.
    run_example G. run_example Gc.
    destruct Ho as [Ho2 Hi2]; [reflexivity|].
    do 5 eexists.
    split; [exact R|]. split; [exact C|]. split; [reflexivity|].
    split; [exact Ic|]. split; [exact Hp|]. split; [exact Hi|].
    split; [exact Ho2|exact Hi2].
Defined.

(** The organelle [o] has output port amount 3: the edge from the
    extracellular model [e] to its membrane input port 0 carries port 1,
    the cytoplasm's port for [(o, membrane)]; the extracellular routing
    table has no such key. *)
Lemma generate_top_extracellular_port_example :
  exists info w' prev subs ic,
    generate_top example_maxsize "bulk" "Product" "Reactant" "Information"
                 example_enzyme_set_answer example_space_answer
                 example_coupled_answer example_generator "cell" empty_world
    = (Ok info, w') /\
    cw_calls w' = prev ++ [WriteCoupled "cell" subs [] [] [] ic] /\
    dict_get (routing_table (cytoplasm example_generator)) ("o", "membrane") = Some 1 /\
    dict_get (routing_table (extra_cellular example_generator)) ("o", "membrane")
    = None /\
    In [VStr "e"; VStr "e"; VInt 1; VStr "o"; VStr "o"; VInt 0] ic.
Proof.
  destruct (generate_top_extracellular_port
              example_maxsize
              unit "bulk" "outer_membrane" "inner_membrane" "trans_membrane" "membrane"
              "Product" "Reactant" "Information"
              example_enzyme_set_answer example_space_answer example_coupled_answer
              example_parser "e" "p" "c" 2 example_generator "cell" empty_world)
    as (w1 & w2 & w3 & w4 & cm & x1 & n1 & em & x2 & n2 & pm & x3 & n3 & oms
        & subs & ic & info & w' & R1 & R2 & R3 & R4 & R & C & Edge).
  - reflexivity.
  - discriminate.
  - vm_compute. discriminate.
  - destruct (Edge "o" example_organelle) as (name & x & opa & G & He).
    { vm_compute. left. reflexivity. }
    run_example R1. run_example R2. run_example R3. run_example R4.
    run_example G.
    destruct (He "membrane" 0) as (cp & Gc & Ge & Ie).
    { vm_compute. left. reflexivity. }
    { reflexivity. }
    run_example Gc.
    do 5 eexists.
    split; [exact R|]. split; [exact C|]. split; [reflexivity|].
    split; [exact Ge|exact Ie].
Defined.

(** ** The further properties at the concrete model *)

(** Five entries with a size of zero and with a negative size. *)
Lemma chunks_nonpositive_size_five :
  chunks example_maxsize five_enzymes 0 = Raise ValueError /\
  chunks example_maxsize five_enzymes (-3) = Ok [].
Proof.
  split.
  - apply (chunks_nonpositive_size example_maxsize five_enzymes 0). lia.
  - apply (chunks_nonpositive_size example_maxsize five_enzymes (-3)). lia.
Defined.

(** Five entries in groups of two: the fifth entry is the first one of
    the third group, which holds one entry. *)
Lemma chunks_positions_five :
  exists groups g,
    chunks example_maxsize five_enzymes 2 = Ok groups /\
    nth_error groups 2 = Some g /\
    nth_error g 0 = Some ("e5", tt) /\
    dict_len g = 1.
Proof.
  destruct (chunks_positions example_maxsize five_enzymes 2) as (groups & E & Hs & Hp).
  - nodup_strings.
  - reflexivity.
  - unfold example_maxsize. lia.
  - destruct (Hp 4%nat ("e5", tt) eq_refl) as (g & Eg & Ee).
    exists groups, g. split; [exact E|]. split; [exact Eg|]. split; [exact Ee|].
    exact (proj2 (Hs 2%nat g Eg)).
Defined.

(** The metabolites of the cytoplasm are its species. *)
Lemma ModelStructure_init_space_parameters_cytoplasm :
  sp_cid (space_parameters example_cytoplasm) = "c" /\
  dict_keys (sp_metabolites (space_parameters example_cytoplasm)) = ["m1"] /\
  dict_get (sp_metabolites (space_parameters example_cytoplasm)) "m1" = Some tt /\
  dict_get (sp_metabolites (space_parameters example_cytoplasm)) "m2" = None.
Proof.
  destruct (ModelStructure_init_space_parameters
              unit "bulk" "c" example_parser None
              (Some [("o", ["membrane"]); ("p", ["inner_membrane"; "trans_membrane"])])
              example_cytoplasm)
    as (species & Gs & Hc & _ & _ & _ & _ & Hin & Hout & Hk).
  - reflexivity.
  - vm_compute in Gs. injection Gs as <-.
    split; [exact Hc|]. split; [|split].
    + apply Hk. nodup_strings.
    + apply (Hin "m1"). now left.
    + apply (Hout "m2"). simpl. intuition discriminate.
Defined.

(** The enzyme sets of the periplasm. *)
Lemma ModelStructure_init_enzyme_sets_periplasm :
  dict_keys (enzyme_sets example_periplasm)
  = ["bulk"; "outer_membrane"; "inner_membrane"; "trans_membrane"] /\
  dict_get (enzyme_sets example_periplasm) "inner_membrane"
  = Some (get_enzyme_set example_parser "p" "inner_membrane") /\
  dict_get (enzyme_sets example_periplasm) "membrane" = None.
Proof.
  destruct (ModelStructure_init_enzyme_sets
              unit "bulk" "p" example_parser
              (Some ["outer_membrane"; "inner_membrane"; "trans_membrane"]) None
              example_periplasm)
    as (Hin & Hout & Hk).
  - reflexivity.
  - split; [|split].
    + apply Hk. nodup_strings.
    + apply Hin. simpl. tauto.
    + apply Hout. simpl. intuition discriminate.
Defined.

(** The routing tables of the extracellular space and of the cytoplasm
    with one organelle. *)
Lemma ModelGenerator_init_routing_tables_example :
  routing_table (extra_cellular example_generator)
  = [(("e", "bulk"), 0); (("p", "outer_membrane"), 1); (("p", "trans_membrane"), 2)] /\
  dict_get (routing_table (cytoplasm example_generator)) ("o", "membrane") = Some 1 /\
  dict_get (routing_table (cytoplasm example_generator)) ("p", "inner_membrane")
  = Some 2 /\
  dict_get (routing_table (cytoplasm example_generator)) ("p", "trans_membrane")
  = Some 3.
Proof.
  destruct (ModelGenerator_init_routing_tables
              unit "bulk" "outer_membrane" "inner_membrane" "trans_membrane" "membrane"
              example_parser "e" "p" "c" 2 example_generator)
    as (He & _ & _ & Ho & Hi & Ht).
  - reflexivity.
  - nodup_strings.
  - nodup_strings.
  - nodup_strings.
  - split; [exact He|]. split; [exact (Ho 0%nat "o" eq_refl)|].
    split; [exact Hi|exact Ht].
Defined.

(** The one organelle of the concrete model. *)
Lemma ModelGenerator_init_organelles_example :
  dict_keys (organelles example_generator) = ["o"] /\
  membrane_eic example_organelle = [("membrane", 0)] /\
  routing_table example_organelle = [(("o", "bulk"), 0); (("o", "membrane"), 1)].
Proof.
  destruct (ModelGenerator_init_organelles
              unit "bulk" "outer_membrane" "inner_membrane" "trans_membrane" "membrane"
              example_parser "e" "p" "c" 2 example_generator)
    as (Hk & Ho).
  - reflexivity.
  - nodup_strings.
  - discriminate.
  - split; [exact Hk|].
    destruct (Ho "o" example_organelle) as (_ & _ & _ & Hm & Hr & _).
    + vm_compute. left. reflexivity.
    + split; [exact Hm|exact Hr].
Defined.

(** Five enzymes in groups of two: the fifth enzyme is routed to group 2
    and, by the router [c_bulk_2], to port 0 of that group. *)
Lemma generate_enzyme_set_routers_five :
  exists group_calls routing groups table,
    generate_enzyme_set example_maxsize example_enzyme_set_answer example_generator
                        "c" "bulk" five_enzymes empty_world
    = (Ok (example_enzyme_set_answer [] (WriteEnzymeSet "c" "bulk" groups)),
       {| pw_calls := group_calls ++ [AddRouter unit "c_bulk" routing];
          cw_calls := [WriteEnzymeSet "c" "bulk" groups] |}) /\
    Z.of_nat (length group_calls) = 3 /\
    dict_get routing "e5" = Some 2 /\
    nth_error group_calls 2 = Some (AddRouter unit "c_bulk_2" table) /\
    dict_get table "e5" = Some 0.
Proof.
  destruct (generate_enzyme_set_routers example_maxsize unit example_enzyme_set_answer
              example_generator "c" "bulk" five_enzymes empty_world)
    as (group_calls & routing & groups & R & L & _ & Hp).
  - nodup_strings.
  - reflexivity.
  - vm_compute. discriminate.
  - destruct (Hp 4%nat "e5" eq_refl) as (Hr & table & Hg & Ht).
    exists group_calls, routing, groups, table.
    split; [exact R|]. split; [exact L|]. split; [exact Hr|].
    split; [exact Hg|exact Ht].
Defined.

(** Five enzymes with a negative group size: an empty router and an
    enzyme set without groups. *)
Lemma generate_enzyme_set_nonpositive_size_five :
  generate_enzyme_set example_maxsize example_enzyme_set_answer example_generator_negative
                      "c" "bulk" five_enzymes empty_world
  = (Ok ("c_bulk", tt, 1),
     {| pw_calls := [AddRouter unit "c_bulk" []];
        cw_calls := [WriteEnzymeSet "c" "bulk" []] |}) /\
  generate_enzyme_set example_maxsize example_enzyme_set_answer example_generator_zero
                      "c" "bulk" five_enzymes empty_world
  = (Raise ValueError, empty_world).
Proof.
  split.
  - apply (generate_enzyme_set_nonpositive_size
             example_maxsize unit example_enzyme_set_answer example_generator_negative
             "c" "bulk" five_enzymes empty_world).
    discriminate.
  - apply (generate_enzyme_set_nonpositive_size
             example_maxsize unit example_enzyme_set_answer example_generator_zero
             "c" "bulk" five_enzymes empty_world).
    discriminate.
Defined.

(** The four enzyme sets of the periplasm. *)
Lemma generate_enzyme_sets_models_periplasm :
  exists calls w',
    generate_enzyme_sets example_maxsize example_enzyme_set_answer example_generator
                         example_periplasm empty_world
    = (Ok (combine [("p", "bulk"); ("p", "outer_membrane"); ("p", "inner_membrane");
                    ("p", "trans_membrane")]
                   (enzyme_set_answers example_enzyme_set_answer [] calls)), w') /\
    cw_calls w' = calls /\
    length calls = 4%nat.
Proof.
  destruct (generate_enzyme_sets_models example_maxsize unit example_enzyme_set_answer
              example_generator example_periplasm empty_world)
    as (calls & w' & F & R & C).
  - nodup_strings.
  - discriminate.
  - vm_compute. discriminate.
  - exists calls, w'. split; [exact R|]. split; [exact C|].
    symmetry. exact (Forall2_length F).
Defined.

(** The whole model with a group size of zero. *)
Lemma generate_top_zero_groups_size_example :
  generate_top example_maxsize "bulk" "Product" "Reactant" "Information"
               example_enzyme_set_answer example_space_answer
               example_coupled_answer example_generator_zero "cell" empty_world
  = (Raise ValueError,
     {| pw_calls := [AddReaction "r1" tt; AddEnzyme "e1" tt]; cw_calls := [] |}).
Proof.
  apply (generate_top_zero_groups_size
           example_maxsize
           unit "bulk" "outer_membrane" "inner_membrane" "trans_membrane" "membrane"
           "Product" "Reactant" "Information"
           example_enzyme_set_answer example_space_answer example_coupled_answer
           example_parser "e" "p" "c" example_generator_zero "cell" empty_world).
  reflexivity.
Defined.


(** The cytoplasm as built by [__init__]: four routing entries, hence a
    space with four output ports. *)
Lemma generate_bulk_compartment_init_cytoplasm :
  exists groups bulk x n space info w',
    dict_len (routing_table example_cytoplasm) = 4 /\
    generate_bulk_compartment example_maxsize "bulk" "Product" "Reactant" "Information"
                              example_enzyme_set_answer example_space_answer
                              example_coupled_answer example_generator
                              example_cytoplasm empty_world
    = (Ok info, w') /\
    example_enzyme_set_answer [] (WriteEnzymeSet "c" "bulk" groups) = (bulk, x, n) /\
    nth_error (cw_calls w') 1
    = Some (WriteSpaceAtomic "c" ["c"] 4 1 "Product" "Reactant" "Information") /\
    exists ports eic eoc,
      nth_error (cw_calls w') 2
      = Some (WriteCoupled "c" [space; bulk] ports eic eoc (ic_edges space bulk 0)) /\
      eoc = map (fun p => [VStr space; VStr (space_struct space); VInt p; VInt p])
                [1; 2; 3].
Proof.
  destruct (generate_bulk_compartment_init
              example_maxsize unit "bulk" "Product" "Reactant" "Information"
              example_enzyme_set_answer example_space_answer example_coupled_answer
              example_generator "c" example_parser
              (Some [("o", ["membrane"]); ("p", ["inner_membrane"; "trans_membrane"])])
              example_cytoplasm empty_world)
    as (groups & bulk & x & n & space & info & w' & _ & Ea & Hl & _ & R & C).
  - reflexivity.
  - nodup_strings.
  - intros supplier reaction_sets I. simpl in I.
    destruct I as [I|[I|[]]]; injection I as <- _; discriminate.
  - discriminate.
  - vm_compute. discriminate.
  - exists (map dict_keys groups), bulk, x, n, space, info, w'.
    split; [exact Hl|]. split; [exact R|]. split; [exact Ea|].
    rewrite C. split; [reflexivity|]. do 3 eexists. split; reflexivity.
Defined.

(** The periplasm has membranes: it is refused as a bulk compartment. *)
Lemma generate_bulk_compartment_refuses_periplasm :
  exists w1,
    generate_bulk_compartment example_maxsize "bulk" "Product" "Reactant" "Information"
                              example_enzyme_set_answer example_space_answer
                              example_coupled_answer example_generator
                              example_periplasm empty_world
    = (Raise AssertionError, w1) /\
    Forall is_enzyme_set_call (cw_calls w1).
Proof.
  destruct (generate_bulk_compartment_refuses_membranes
              example_maxsize unit "bulk" "Product" "Reactant" "Information"
              example_enzyme_set_answer example_space_answer example_coupled_answer
              example_generator "p" example_parser
              ["outer_membrane"; "inner_membrane"; "trans_membrane"] None
              example_periplasm empty_world)
    as (es & w1 & calls & _ & _ & R & C & F).
  - reflexivity.
  - discriminate.
  - vm_compute. discriminate.
  - exists "outer_membrane". split; [now left|discriminate].
  - exists w1. split; [exact R|]. rewrite C. exact F.
Defined.

(** The inputs of the periplasm: one input port per membrane. *)
Lemma generate_organelle_compartment_inputs_periplasm :
  exists (info : ModelInfo unit) (w' : World unit)
         (es : dict (string * string) (ModelInfo unit)) (space : string)
         (out_ports eic eoc ic : list tuple),
    generate_organelle_compartment example_maxsize "Product" "Reactant" "Information"
                                   example_enzyme_set_answer example_space_answer
                                   example_coupled_answer example_generator
                                   example_periplasm empty_world
    = (Ok info, w') /\
    nth_error (cw_calls w') 5
    = Some (WriteCoupled
              "p"
              (space :: map (fun '(es_model_name, _, _) => es_model_name)
                            (dict_values es))
              (out_ports ++ [ [VInt 0; VStr "Reactant"; VStr "in"];
                              [VInt 1; VStr "Reactant"; VStr "in"];
                              [VInt 2; VStr "Reactant"; VStr "in"] ])
              eic eoc ic) /\
    length eic = 3%nat.
Proof.
  destruct (generate_organelle_compartment example_maxsize
              "Product" "Reactant" "Information"
              example_enzyme_set_answer example_space_answer example_coupled_answer
              example_generator example_periplasm empty_world)
    as [[info|e] w'] eqn:E; [|vm_compute in E; discriminate E].
  destruct (generate_organelle_compartment_inputs
              example_maxsize unit "Product" "Reactant" "Information"
              example_enzyme_set_answer example_space_answer example_coupled_answer
              example_generator example_periplasm empty_world w' info E)
    as (es & w1 & space & out_ports & eic & eoc & ic & Ee & _ & _ & C & F).
  exists info, w', es, space, out_ports, eic, eoc, ic.
  split; [reflexivity|]. split.
  - rewrite C. vm_compute in Ee. injection Ee as _ <-. reflexivity.
  - symmetry. exact (Forall2_length F).
Defined.

(** A compartment that lists itself as supplier of a reaction set it
    does not hold: [KeyError]. *)
Lemma generate_organelle_compartment_KeyError_self_supplier :
  exists w',
    generate_organelle_compartment example_maxsize "Product" "Reactant" "Information"
                                   example_enzyme_set_answer example_space_answer
                                   example_coupled_answer example_generator
                                   example_self_supplier empty_world
    = (Raise KeyError, w') /\
    Forall (fun call => ~ is_coupled_call call) (cw_calls w').
Proof.
  destruct (generate_organelle_compartment_KeyError
              example_maxsize unit "Product" "Reactant" "Information"
              example_enzyme_set_answer example_space_answer example_coupled_answer
              example_generator example_self_supplier empty_world)
    as (w' & calls & R & C & F).
  - discriminate.
  - vm_compute. discriminate.
  - intros k p I. vm_compute in I.
    repeat (destruct I as [I|I]; [injection I as <- _; reflexivity|]).
    contradiction.
  - exists "foreign", 2. split.
    + vm_compute. tauto.
    + vm_compute. intuition discriminate.
  - exists w'. split; [exact R|]. rewrite C. exact F.
Defined.


(** The top model of the concrete model: four sub-models. *)
Lemma generate_top_coupling_example :
  exists info w' prev cm em pm om ic,
    generate_top example_maxsize "bulk" "Product" "Reactant" "Information"
                 example_enzyme_set_answer example_space_answer
                 example_coupled_answer example_generator "cell" empty_world
    = (Ok info, w') /\
    cw_calls w' = prev ++ [WriteCoupled "cell" [cm; em; pm; om] [] [] [] ic] /\
    exists calls, pw_calls w' = calls ++ [SaveXml unit].
Proof.
  destruct (generate_top_coupling
              example_maxsize
              unit "bulk" "outer_membrane" "inner_membrane" "trans_membrane" "membrane"
              "Product" "Reactant" "Information"
              example_enzyme_set_answer example_space_answer example_coupled_answer
              example_parser "e" "p" "c" 2 example_generator "cell" empty_world)
    as (w1 & w2 & w3 & w4 & cm & x1 & n1 & em & x2 & n2 & pm & x3 & n3 & oms & subs
        & ic1 & ic2 & contribs & w' & _ & _ & _ & _ & Hk & Hs & _ & _ & _ & R & P & C).
  - reflexivity.
  - discriminate.
  - vm_compute. discriminate.
  - destruct oms as [|[cid [[om xo] no]] [|item2 oms]]; try discriminate Hk.
    cbn [map app] in Hs. subst subs.
    do 2 eexists. exists (cw_calls w4), cm, em, pm, om. eexists.
    split; [exact R|]. split; [exact C|]. exists (pw_calls w4). exact P.
Defined.

(** The invariants of the tables at a compartment with repeated and
    colliding names. *)
Lemma ModelStructure_init_invariants_colliding :
  wf_dict (routing_table example_colliding) /\
  (forall k, In k (dict_keys (routing_table example_colliding)) <->
             In k [("p", "bulk"); ("p", "bulk"); ("p", "membrane"); ("p", "membrane");
                   ("p", "membrane"); ("c", "bulk")]) /\
  (forall k q, In (k, q) (routing_table example_colliding) -> 0 <= q < 6) /\
  (forall m q, In (m, q) (membrane_eic example_colliding) -> 0 <= q < 3).
Proof.
  destruct (ModelStructure_init_invariants
              unit "bulk" "p" example_parser
              (Some ["bulk"; "membrane"; "membrane"])
              (Some [("p", ["membrane"]); ("c", ["bulk"])])
              example_colliding)
    as (W & K & B & _ & _ & Bm).
  - reflexivity.
  - split; [exact W|]. split; [exact K|]. split; [exact B|exact Bm].
Defined.

(** Five enzymes and no enzyme with a group size of [sys.maxsize + 1]. *)
Lemma generate_enzyme_set_above_maxsize_five :
  generate_enzyme_set example_maxsize example_enzyme_set_answer
                      example_generator_oversize "c" "bulk" five_enzymes empty_world
  = (Raise ValueError, empty_world) /\
  generate_enzyme_set example_maxsize example_enzyme_set_answer
                      example_generator_oversize "c" "bulk" [] empty_world
  = (Ok ("c_bulk", tt, 1),
     {| pw_calls := [AddRouter unit "c_bulk" []];
        cw_calls := [WriteEnzymeSet "c" "bulk" []] |}).
Proof.
  split.
  - apply (generate_enzyme_set_above_maxsize
             example_maxsize unit example_enzyme_set_answer example_generator_oversize
             "c" "bulk" five_enzymes empty_world); reflexivity.
  - apply (generate_enzyme_set_above_maxsize
             example_maxsize unit example_enzyme_set_answer example_generator_oversize
             "c" "bulk" [] empty_world); reflexivity.
Defined.
